(** * Space logistics: placement, retrieval, waste and simulation services

    A shallow embedding of the service layer of the cargo manager
    (services/placement.py, services/retrieval.py, services/waste.py,
    services/simulation.py, models/*.py and the simulate route of app.py).

    Conventions of the embedding.
    - Python [float] fields (dimensions, positions, masses, scores) are
      exact rationals [Q]; double rounding is not modelled.
    - Python [int] fields (priority, usageLimit, step ordinals) are [Z].
    - A [Dict[str, X]] is an association list in insertion order, because
      the services iterate over dicts and the order is observable.
    - Objects stored in a dict are mutated in place by the services; here
      every service returns the store it leaves behind.
    - A [datetime] is a number of microseconds; [timedelta.days] is the
      floor of the difference divided by one day. *)

From Stdlib Require Import ZArith QArith Qround Qminmax Lqa Lia.
From Stdlib Require Import List String Ascii Bool Permutation Sorted.
From Stdlib Require Import DecimalString.
Import ListNotations.

Local Open Scope string_scope.
Local Open Scope list_scope.
Local Open Scope Q_scope.

(** ** Python primitives *)

Definition Qltb (a b : Q) : bool :=
  match a ?= b with Lt => true | _ => false end.

Definition Qleb (a b : Q) : bool :=
  match a ?= b with Gt => false | _ => true end.

(** [max(a, b)] of Python keeps [a] unless [b > a]. *)
Definition py_max (a b : Q) : Q := if Qltb a b then b else a.

(** [min(a, b)] of Python keeps [a] unless [b < a]. *)
Definition py_min (a b : Q) : Q := if Qltb b a then b else a.

(** [int(q)] truncates towards zero. *)
Definition py_int (q : Q) : Z := Z.quot (Qnum q) (Z.pos (Qden q)).

(** [str(n)] for an [int]. *)
Definition py_str (n : Z) : string := NilEmpty.string_of_int (Z.to_int n).

Definition Triple : Type := (Q * Q * Q)%type.

(** A dict as an association list in insertion order. *)
Definition Dict (V : Type) : Type := list (string * V).

Fixpoint dict_get {V : Type} (k : string) (d : Dict V) : option V :=
  match d with
  | [] => None
  | (k', v) :: d' => if String.eqb k k' then Some v else dict_get k d'
  end.

Definition dict_mem {V : Type} (k : string) (d : Dict V) : bool :=
  match dict_get k d with Some _ => true | None => false end.

(** [d[k] = v]: overwrite in place when the key is present, append
    otherwise. *)
Fixpoint dict_set {V : Type} (k : string) (v : V) (d : Dict V) : Dict V :=
  match d with
  | [] => [(k, v)]
  | (k', v') :: d' =>
      if String.eqb k k' then (k', v) :: d' else (k', v') :: dict_set k v d'
  end.

(** Mutation of the object stored under [k]; nothing happens when the key
    is absent. *)
Fixpoint dict_update {V : Type} (k : string) (f : V -> V) (d : Dict V)
  : Dict V :=
  match d with
  | [] => []
  | (k', v) :: d' =>
      if String.eqb k k' then (k', f v) :: d' else (k', v) :: dict_update k f d'
  end.

Definition str_mem (k : string) (l : list string) : bool :=
  existsb (String.eqb k) l.

(** [list.remove(x)]: drops the first occurrence. *)
Fixpoint list_remove (k : string) (l : list string) : list string :=
  match l with
  | [] => []
  | x :: l' => if String.eqb k x then l' else x :: list_remove k l'
  end.

(** Stable sort, ascending in the key: Python's [sorted(l, key=...)] and
    [list.sort(key=...)]. [lt] is the strict order on keys. *)
Section StableSort.
Context {A K : Type} (lt : K -> K -> bool) (key : A -> K).

Fixpoint insert_sorted (x : A) (l : list A) : list A :=
    match l with
    | [] => [x]
    | y :: l' =>
        if lt (key y) (key x) then y :: insert_sorted x l' else x :: y :: l'
    end.

Definition sort_by : list A -> list A :=
    fold_right insert_sorted [].
End StableSort.

(** [sorted(l, key=..., reverse=True)]: descending, still stable. *)
Definition sort_by_desc {A K : Type} (lt : K -> K -> bool) (key : A -> K)
  : list A -> list A :=
  sort_by (fun a b => lt b a) key.

(** [steps.append(Step(step=step_count, ...)); step_count += 1] on the
    pair of the step list and the counter. *)
Definition emit {S : Type} (st : list S * Z) (mk : Z -> S) : list S * Z :=
  (fst st ++ [mk (snd st)], (snd st + 1)%Z).

(** Lexicographic strict order on pairs of rationals (tuple keys). *)
Definition QQltb (a b : Q * Q) : bool :=
  Qltb (fst a) (fst b) || (Qeq_bool (fst a) (fst b) && Qltb (snd a) (snd b)).

Definition QQQltb (a b : Q * Q * Q) : bool :=
  QQltb (fst a) (fst b)
  || (Qeq_bool (fst (fst a)) (fst (fst b))
      && Qeq_bool (snd (fst a)) (snd (fst b))
      && Qltb (snd a) (snd b)).

(** ** models/item.py, models/container.py, models/placement.py *)

(** [Item.currentLocation] is an optional dict read defensively through
    the keys "containerId", "position" and "rotation". *)
Module Location.
Record t : Type := mk {
    containerId : option string;
    position : option Triple;
    rotation : option Triple
  }.
Definition empty : t := mk None None None.
End Location.

(** [Item.expiryDate] is a string: the literal "N/A", a string that
    [datetime.fromisoformat] parses (to the given instant), or a string
    it rejects. *)
Inductive ExpiryDate : Type :=
| NA
| IsoDate (t : Z)
| Unparseable.

Definition datetime : Type := Z.
Definition microseconds_per_day : Z := 86400000000.
Definition timedelta_days (delta : Z) : Z := (delta / microseconds_per_day)%Z.
Definition add_days (d : datetime) (n : Z) : datetime :=
  (d + n * microseconds_per_day)%Z.

Module Item.
Record t : Type := mk {
    itemId : string;
    name : string;
    width : Q;
    depth : Q;
    height : Q;
    mass : Q;
    priority : Z;
    expiryDate : ExpiryDate;
    usageLimit : Z;
    preferredZone : string;
    isWaste : bool;
    currentLocation : option Location.t
  }.

Definition get_volume (i : t) : Q := width i * depth i * height i.

Definition get_all_rotations (i : t) : list Triple :=
    [ (width i, depth i, height i);
      (width i, height i, depth i);
      (depth i, width i, height i);
      (depth i, height i, width i);
      (height i, width i, depth i);
      (height i, depth i, width i) ].

Definition set_isWaste (b : bool) (i : t) : t :=
    mk (itemId i) (name i) (width i) (depth i) (height i) (mass i)
       (priority i) (expiryDate i) (usageLimit i) (preferredZone i)
       b (currentLocation i).

Definition set_usageLimit (n : Z) (i : t) : t :=
    mk (itemId i) (name i) (width i) (depth i) (height i) (mass i)
       (priority i) (expiryDate i) n (preferredZone i)
       (isWaste i) (currentLocation i).

Definition set_currentLocation (l : option Location.t) (i : t) : t :=
    mk (itemId i) (name i) (width i) (depth i) (height i) (mass i)
       (priority i) (expiryDate i) (usageLimit i) (preferredZone i)
       (isWaste i) l.

  (** The container named by [currentLocation], when the location is
      present and has the key "containerId". *)
Definition location_container (i : t) : option string :=
    match currentLocation i with
    | Some l => Location.containerId l
    | None => None
    end.

  (** [currentLocation.get("position", (0, 0, 0))]. *)
Definition location_position (i : t) : Triple :=
    match currentLocation i with
    | Some l =>
        match Location.position l with Some p => p | None => (0, 0, 0) end
    | None => (0, 0, 0)
    end.

  (** [currentLocation.get("rotation", (width, depth, height))]. *)
Definition location_rotation (i : t) : Triple :=
    match currentLocation i with
    | Some l =>
        match Location.rotation l with
        | Some r => r
        | None => (width i, depth i, height i)
        end
    | None => (width i, depth i, height i)
    end.
End Item.

Module Container.
Record t : Type := mk {
    containerId : string;
    zone : string;
    width : Q;
    depth : Q;
    height : Q;
    occupiedSpace : Q;
    items : list string
  }.

Definition get_available_space (c : t) : Q :=
    width c * depth c * height c - occupiedSpace c.

Definition is_full (c : t) : bool :=
    Qleb ((95 # 100) * (width c * depth c * height c)) (occupiedSpace c).

  (** Returns the container after the call and the boolean result. *)
Definition add_item (item_id : string) (volume : Q) (c : t) : t * bool :=
    if Qltb (get_available_space c) volume then (c, false)
    else
      (mk (containerId c) (zone c) (width c) (depth c) (height c)
          (occupiedSpace c + volume)
          (if str_mem item_id (items c) then items c
           else items c ++ [item_id]),
       true).

Definition remove_item (item_id : string) (volume : Q) (c : t) : t :=
    mk (containerId c) (zone c) (width c) (depth c) (height c)
       (py_max 0 (occupiedSpace c - volume))
       (if str_mem item_id (items c) then list_remove item_id (items c)
        else items c).
End Container.

Module ItemPlacement.
Record t : Type := mk {
    itemId : string;
    containerId : string;
    position : Triple;
    rotation : Triple
  }.
End ItemPlacement.

Module RearrangementStep.
Record t : Type := mk {
    step : Z;
    action : string;
    itemId : string;
    fromContainer : option string;
    toContainer : option string;
    position : option Triple
  }.
End RearrangementStep.

Module WasteItem.
Record t : Type := mk {
    itemId : string;
    name : string;
    reason : string;
    containerId : option string;
    position : option Triple;
    mass : Q
  }.
End WasteItem.

Module WasteReturnStep.
Record t : Type := mk {
    step : Z;
    action : string;
    itemId : string;
    fromContainer : option string;
    toContainer : option string
  }.
End WasteReturnStep.

(** An entry of [blockedBy]. *)
Module Blocker.
Record t : Type := mk {
    itemId : string;
    name : string;
    position : Triple;
    depth : Z
  }.
End Blocker.

(** ** utils/space3d.py

    The module that defines [Space3D] is not among the sources; the
    services only construct a model from the container dimensions and call
    three methods on it. They are taken as an interface, and the services
    below are written against any implementation of it. *)
Record Space3DImpl : Type := {
  Space3D : Type;
  Space3D_new : Q -> Q -> Q -> Space3D;
  find_position : Space3D -> Q -> Q -> Q -> option Triple;
  place_item : Space3D -> Q -> Q -> Q -> Q -> Q -> Q -> Space3D;
  calculate_retrieval_complexity : Space3D -> Q -> Q -> Q -> Q -> Q -> Q -> Z
}.

(** ** Python sets

    A [set] is kept as the list of its distinct elements in insertion
    order. The order in which CPython iterates over a set depends on the
    hashes of its elements and is not the insertion order; it is a
    parameter of the services that iterate over a set. *)
Section PySet.
Context {A : Type} (eqb : A -> A -> bool).

Definition set_add (x : A) (s : list A) : list A :=
  if existsb (eqb x) s then s else s ++ [x].

Definition set_of_list (l : list A) : list A :=
  fold_left (fun s x => set_add x s) l [].
End PySet.

Definition pair_eqb (a b : string * string) : bool :=
  String.eqb (fst a) (fst b) && String.eqb (snd a) (snd b).

(** ** services/retrieval.py *)

Section RetrievalService.
Variable impl : Space3DImpl.
(** Iteration order of a set of [(itemId, containerId)] tuples. *)
Variable pair_set_order : list (string * string) -> list (string * string).

Definition in_container (container_id : string) (it : Item.t) : bool :=
  match Item.location_container it with
  | Some c => String.eqb c container_id
  | None => false
  end.

(** The entries of [container_items]: every other item whose location
    names this container, in the order of the item dict. *)
Definition container_items (target_item : Item.t) (container : Container.t)
  (items : Dict Item.t) : Dict Item.t :=
  filter (fun kv =>
            negb (String.eqb (fst kv) (Item.itemId target_item))
            && in_container (Container.containerId container) (snd kv))
         items.

Definition place_others (container : Container.t) (others : Dict Item.t)
  : Space3D impl :=
  fold_left
    (fun space_model kv =>
       let '(other_x, other_y, other_z) := Item.location_position (snd kv) in
       let '(other_width, other_depth, other_height) :=
         Item.location_rotation (snd kv) in
       place_item impl space_model other_x other_y other_z
                  other_width other_depth other_height)
    others
    (Space3D_new impl (Container.width container) (Container.depth container)
                 (Container.height container)).

(** The test of the loop "Method 1": not skipped by [other_y < y], and
    both overlap flags set. *)
Definition blocks (position rotation other_pos other_rot : Triple) : bool :=
  let '(x, y, z) := position in
  let '(target_width, target_depth, target_height) := rotation in
  let '(other_x, other_y, other_z) := other_pos in
  let '(other_width, other_depth, other_height) := other_rot in
  if Qltb other_y y then false
  else
    let x_overlap :=
      (Qltb other_x (x + target_width) && Qltb x (other_x + other_width))
      || (Qltb x (other_x + other_width) && Qltb other_x (x + target_width)) in
    let z_overlap :=
      (Qltb other_z (z + target_height) && Qltb z (other_z + other_height))
      || (Qltb z (other_z + other_height)
          && Qltb other_z (z + target_height)) in
    x_overlap && z_overlap.

Definition blocker_entry (space_model : Space3D impl) (kv : string * Item.t)
  : Blocker.t :=
  let '(other_x, other_y, other_z) := Item.location_position (snd kv) in
  let '(other_width, other_depth, other_height) :=
    Item.location_rotation (snd kv) in
  Blocker.mk (fst kv) (Item.name (snd kv)) (Item.location_position (snd kv))
    (calculate_retrieval_complexity impl space_model other_x other_y other_z
       other_width other_depth other_height).

Definition _calculate_retrieval_complexity (target_item : Item.t)
  (container : Container.t) (position rotation : Triple)
  (items : Dict Item.t) : Z * list Blocker.t :=
  let others := container_items target_item container items in
  let space_model := place_others container others in
  let blocked_by :=
    map (blocker_entry space_model)
        (filter (fun kv =>
                   blocks position rotation
                          (Item.location_position (snd kv))
                          (Item.location_rotation (snd kv)))
                others) in
  let blocked_by := sort_by Z.ltb Blocker.depth blocked_by in
  (Z.of_nat (List.length blocked_by) + 1, blocked_by)%Z.

(** The candidate temporary containers with their cached free volume. *)
Definition available_containers (container : Container.t)
  (containers : Dict Container.t) : Dict (Container.t * Q) :=
  flat_map (fun kv =>
              let cont := snd kv in
              if String.eqb (Container.containerId cont)
                            (Container.containerId container)
              then []
              else
                let available_space := Container.get_available_space cont in
                if Qltb 0 available_space
                then [(fst kv, (cont, available_space))]
                else [])
           containers.

(** The inner loop over [available_containers] for one blocker: the
    chosen container id and the cache after the decrement. *)
Fixpoint choose_temp_container (zone : string) (item_volume : Q)
  (avail : Dict (Container.t * Q)) : string * Dict (Container.t * Q) :=
  match avail with
  | [] => ("temporary_storage", [])
  | (cont_id, (cont, avail_space)) :: rest =>
      if Qleb item_volume avail_space
         && String.eqb (Container.zone cont) zone
      then (cont_id, (cont_id, (cont, avail_space - item_volume)) :: rest)
      else
        let '(best, rest') := choose_temp_container zone item_volume rest in
        (best, (cont_id, (cont, avail_space)) :: rest')
  end.

(** The first loop: one "move" per blocker, numbered from [step_count].
    Returns the steps and the tuples added to [moved_to_temp], in the order
    they were added. [None] stands for the [KeyError] of
    [items[blocking_id]]. *)
Fixpoint move_blocking_items (container : Container.t) (items : Dict Item.t)
  (blocked_by : list Blocker.t) (step_count : Z)
  (avail : Dict (Container.t * Q))
  : option (list RearrangementStep.t * list (string * string)) :=
  match blocked_by with
  | [] => Some ([], [])
  | info :: rest =>
      let blocking_id := Blocker.itemId info in
      match dict_get blocking_id items with
      | None => None
      | Some blocking_item =>
          let item_volume := Item.get_volume blocking_item in
          let '(best_temp_container, avail') :=
            choose_temp_container (Container.zone container) item_volume
                                  avail in
          match move_blocking_items container items rest (step_count + 1)
                                    avail' with
          | None => None
          | Some (steps, moved) =>
              Some (RearrangementStep.mk step_count "move" blocking_id
                      (Some (Container.containerId container))
                      (Some best_temp_container) None :: steps,
                    (blocking_id, best_temp_container) :: moved)
          end
      end
  end.

(** The last loop: one "move" back per tuple, numbered from
    [step_count]. *)
Fixpoint move_back (container : Container.t) (step_count : Z)
  (tuples : list (string * string)) : list RearrangementStep.t :=
  match tuples with
  | [] => []
  | (blocking_id, temp_container) :: rest =>
      RearrangementStep.mk step_count "move" blocking_id
        (Some temp_container) (Some (Container.containerId container)) None
      :: move_back container (step_count + 1) rest
  end.

Definition _generate_optimized_retrieval_steps (target_item : Item.t)
  (container : Container.t) (position rotation : Triple)
  (items : Dict Item.t) (containers : Dict Container.t)
  : option (list RearrangementStep.t) :=
  let blocked_by :=
    snd (_calculate_retrieval_complexity target_item container position
                                         rotation items) in
  match move_blocking_items container items blocked_by 1
                            (available_containers container containers) with
  | None => None
  | Some (steps, moved) =>
      let step_count := (1 + Z.of_nat (List.length steps))%Z in
      let moved_to_temp := set_of_list pair_eqb moved in
      Some (steps
            ++ [RearrangementStep.mk step_count "retrieve"
                  (Item.itemId target_item)
                  (Some (Container.containerId container)) None None]
            ++ move_back container (step_count + 1)
                         (rev (pair_set_order moved_to_temp)))
  end.

(** What [retrieve_item] and [get_retrieval_path] return: the success
    flag, the steps, and the stores as the call leaves them. *)
Definition RetrievalResult : Type :=
  (bool * list RearrangementStep.t * Dict Item.t * Dict Container.t)%type.

Definition use_item (item : Item.t) : Item.t :=
  if (0 <? Item.usageLimit item)%Z then
    let item := Item.set_usageLimit (Item.usageLimit item - 1) item in
    if (Item.usageLimit item =? 0)%Z then Item.set_isWaste true item
    else item
  else item.

Definition retrieve_item (item_id user_id : string) (items : Dict Item.t)
  (containers : Dict Container.t) : option RetrievalResult :=
  match dict_get item_id items with
  | None => Some (false, [], items, containers)
  | Some item =>
      match Item.location_container item with
      | None => Some (false, [], items, containers)
      | Some container_id =>
          match dict_get container_id containers with
          | None => Some (false, [], items, containers)
          | Some container =>
              let position := Item.location_position item in
              let rotation := Item.location_rotation item in
              match _generate_optimized_retrieval_steps
                      item container position rotation items containers with
              | None => None
              | Some steps =>
                  let item_volume := Item.get_volume item in
                  Some (true, steps,
                        dict_update item_id
                          (fun it => Item.set_currentLocation None
                                       (use_item it))
                          items,
                        dict_update container_id
                          (Container.remove_item item_id item_volume)
                          containers)
              end
          end
      end
  end.

Definition get_retrieval_path (item_id : string) (items : Dict Item.t)
  (containers : Dict Container.t) : option RetrievalResult :=
  match dict_get item_id items with
  | None => Some (false, [], items, containers)
  | Some item =>
      match Item.location_container item with
      | None => Some (false, [], items, containers)
      | Some container_id =>
          match dict_get container_id containers with
          | None => Some (false, [], items, containers)
          | Some container =>
              let position := Item.location_position item in
              let rotation := Item.location_rotation item in
              match _generate_optimized_retrieval_steps
                      item container position rotation items containers with
              | None => None
              | Some steps => Some (true, steps, items, containers)
              end
          end
      end
  end.

End RetrievalService.

(** ** services/placement.py *)

Section PlacementService.
Variable impl : Space3DImpl.

(** [days_until_expiry] stays at 365 for "N/A" and for a date that does
    not parse. *)
Definition get_weighted_score (current_date : datetime) (item : Item.t) : Q :=
  let days_until_expiry :=
    match Item.expiryDate item with
    | IsoDate expiry_date =>
        Z.max 0 (timedelta_days (expiry_date - current_date))
    | NA | Unparseable => 365%Z
    end in
  inject_Z (Item.priority item * 2)
  - inject_Z (Z.min 100 days_until_expiry)
  + inject_Z (Z.min 100 (Item.usageLimit item)) * (5 # 10).

(** The candidate kept in [best_container], [best_position],
    [best_rotation] and [best_score]; [best_space_model] is the model
    stored under the same key. *)
Record Best : Type := {
  best_score : Q;
  best_key : string;
  best_container : Container.t;
  best_position : Triple;
  best_rotation : Triple
}.

Definition try_rotation (item : Item.t) (container_id : string)
  (container : Container.t) (space_model : Space3D impl) (base_score : Q)
  (best : option Best) (rotation : Triple) : option Best :=
  let '(width, depth, height) := rotation in
  if Qltb (Container.width container) width
     || Qltb (Container.depth container) depth
     || Qltb (Container.height container) height
  then best
  else
    match find_position impl space_model width depth height with
    | None => best
    | Some position =>
        let '(x, y, z) := position in
        let retrieval_complexity :=
          calculate_retrieval_complexity impl space_model
                                         x y z width depth height in
        let position_score :=
          base_score + 500 * (inject_Z (Item.priority item) / 100)
          - inject_Z retrieval_complexity * 50 in
        let candidate :=
          Build_Best position_score container_id container position
                     rotation in
        match best with
        | None => Some candidate
        | Some b =>
            if Qltb (best_score b) position_score then Some candidate
            else best
        end
    end.

Definition try_container (item : Item.t) (best : option Best)
  (entry : string * (Container.t * Space3D impl)) : option Best :=
  let '(container_id, (container, space_model)) := entry in
  if Container.is_full container then best
  else
    let base_score :=
      if String.eqb (Container.zone container) (Item.preferredZone item)
      then 1000 else 0 in
    fold_left (try_rotation item container_id container space_model
                            base_score)
              (Item.get_all_rotations item) best.

Definition has_location (item : Item.t) : bool :=
  match Item.location_container item with Some _ => true | None => false end.

(** The state of the placement loop: the item dict, the containers with
    their space models (the two dicts [containers] and [container_spaces]
    share their keys), the placements and [placed_items]. *)
Record PlacementState : Type := {
  ps_items : Dict Item.t;
  ps_containers : Dict (Container.t * Space3D impl);
  ps_placements : list ItemPlacement.t;
  ps_placed_items : list string
}.

(** One round of the loop over [sorted_items], for the item stored under
    [key]. *)
Definition place_one (st : PlacementState) (entry : string * Item.t)
  : PlacementState :=
  let '(key, item) := entry in
  if has_location item then st
  else
    match fold_left (try_container item) (ps_containers st) None with
    | None => st
    | Some b =>
        let '(width, depth, height) := best_rotation b in
        let '(x, y, z) := best_position b in
        let placement :=
          ItemPlacement.mk (Item.itemId item)
            (Container.containerId (best_container b))
            (best_position b) (best_rotation b) in
        let location :=
          Location.mk (Some (Container.containerId (best_container b)))
                      (Some (best_position b)) (Some (best_rotation b)) in
        {| ps_items :=
             dict_update key (Item.set_currentLocation (Some location))
                         (ps_items st);
           ps_containers :=
             dict_update (best_key b)
               (fun cs =>
                  (fst (Container.add_item (Item.itemId item)
                                           (Item.get_volume item) (fst cs)),
                   place_item impl (snd cs) x y z width depth height))
               (ps_containers st);
           ps_placements := ps_placements st ++ [placement];
           ps_placed_items :=
             set_add String.eqb (Item.itemId item) (ps_placed_items st) |}
  end.

(** The state of the step list: the steps so far and [step_count]. *)
Definition StepState : Type := (list RearrangementStep.t * Z)%type.

Record Candidate : Type := {
  cand_item : Item.t;
  cand_container : Container.t;
  value_density : Q
}.

Definition low_priority_candidates (target_item : Item.t)
  (all_items : Dict Item.t) (containers : Dict Container.t)
  : list Candidate :=
  flat_map
    (fun kv =>
       let container := snd kv in
       if negb (String.eqb (Container.zone container)
                           (Item.preferredZone target_item))
       then []
       else
         flat_map
           (fun item_id =>
              match dict_get item_id all_items with
              | None => []
              | Some item =>
                  if (Item.priority item <? Item.priority target_item)%Z
                  then
                    [ {| cand_item := item;
                         cand_container := container;
                         value_density :=
                           inject_Z (Item.priority item)
                           / py_max (1 # 10) (Item.get_volume item) |} ]
                  else []
              end)
           (Container.items container))
    containers.

(** The first container that is not skipped by the test on zone,
    fullness and free volume. *)
Definition find_alt_container (preferred_zone : string) (item : Item.t)
  (containers : Dict Container.t) : option Container.t :=
  match
    filter (fun kv =>
              let alt_container := snd kv in
              negb (String.eqb (Container.zone alt_container) preferred_zone
                    || Container.is_full alt_container
                    || Qltb (Container.get_available_space alt_container)
                            (Item.get_volume item)))
           containers
  with
  | [] => None
  | kv :: _ => Some (snd kv)
  end.

(** The loop over the sorted candidates; the state is the step list and
    [moved_volume]. *)
Fixpoint move_candidates (preferred_zone : string) (target_volume : Q)
  (containers : Dict Container.t) (candidates : list Candidate)
  (st : StepState) (moved_volume : Q) : StepState * Q :=
  match candidates with
  | [] => (st, moved_volume)
  | candidate :: rest =>
      if Qleb target_volume moved_volume then (st, moved_volume)
      else
        let item := cand_item candidate in
        let container := cand_container candidate in
        let to_container :=
          match find_alt_container preferred_zone item containers with
          | Some best_alt_container =>
              Container.containerId best_alt_container
          | None => "temporary_storage"
          end in
        move_candidates preferred_zone target_volume containers rest
          (emit st (fun step_count =>
                      RearrangementStep.mk step_count "move"
                        (Item.itemId item)
                        (Some (Container.containerId container))
                        (Some to_container) None))
          (moved_volume + Item.get_volume item)
  end.

(** The body of the loop over [high_priority_unplaced]. *)
Definition rearrange_for (all_items : Dict Item.t)
  (containers : Dict Container.t) (st : StepState) (target_item : Item.t)
  : StepState :=
  let preferred_zone := Item.preferredZone target_item in
  let candidates :=
    sort_by Qltb value_density
            (low_priority_candidates target_item all_items containers) in
  let target_volume := Item.get_volume target_item in
  let '(st, moved_volume) :=
    move_candidates preferred_zone target_volume containers candidates
                    st 0 in
  if Qleb target_volume moved_volume then
    match
      filter (fun kv => String.eqb (Container.zone (snd kv)) preferred_zone)
             containers
    with
    | [] => st
    | kv :: _ =>
        emit st (fun step_count =>
                   RearrangementStep.mk step_count "place"
                     (Item.itemId target_item) None
                     (Some (Container.containerId (snd kv))) None)
    end
  else st.

Definition _generate_rearrangement_plan (unplaced_items : list Item.t)
  (all_items : Dict Item.t) (containers : Dict Container.t)
  : list RearrangementStep.t :=
  let high_priority_unplaced :=
    firstn 5 (sort_by Z.ltb (fun x => (- Item.priority x)%Z)
                      unplaced_items) in
  fst (fold_left (rearrange_for all_items containers)
                 high_priority_unplaced ([], 1%Z)).

(** The response and the stores as the call leaves them. *)
Record PlacementResult : Type := {
  placements : list ItemPlacement.t;
  rearrangements : list RearrangementStep.t;
  items_after : Dict Item.t;
  containers_after : Dict Container.t
}.

Definition calculate_placement (current_date : datetime)
  (items : Dict Item.t) (containers : Dict Container.t) : PlacementResult :=
  let container_spaces :=
    map (fun kv =>
           (fst kv,
            (snd kv,
             Space3D_new impl (Container.width (snd kv))
                         (Container.depth (snd kv))
                         (Container.height (snd kv)))))
        containers in
  let sorted_items :=
    sort_by QQltb
            (fun kv => (- get_weighted_score current_date (snd kv),
                        - Item.get_volume (snd kv)))
            items in
  let st :=
    fold_left place_one sorted_items
              {| ps_items := items;
                 ps_containers := container_spaces;
                 ps_placements := [];
                 ps_placed_items := [] |} in
  let containers' :=
    map (fun kv => (fst kv, fst (snd kv))) (ps_containers st) in
  (* An item of [sorted_items] has changed since the sort only if the loop
     placed it, and then its id is in [placed_items]: the filter reads the
     same on the sorted entries. *)
  let unplaced_items :=
    filter (fun item =>
              negb (str_mem (Item.itemId item) (ps_placed_items st))
              && negb (has_location item))
           (map snd sorted_items) in
  {| placements := ps_placements st;
     rearrangements :=
       match unplaced_items with
       | [] => []
       | _ => _generate_rearrangement_plan unplaced_items (ps_items st)
                                           containers'
       end;
     items_after := ps_items st;
     containers_after := containers' |}.

End PlacementService.

(** ** services/waste.py *)

(** [needle in hay] on strings. *)
Fixpoint contains (needle hay : string) : bool :=
  String.prefix needle hay
  || match hay with
     | EmptyString => false
     | String _ hay' => contains needle hay'
     end.

(** [s.split(" ")]. *)
Fixpoint split_space (s : string) : list string :=
  match s with
  | EmptyString => [EmptyString]
  | String c s' =>
      if Ascii.eqb c " "%char then EmptyString :: split_space s'
      else
        match split_space s' with
        | [] => [String c EmptyString]
        | w :: ws => String c w :: ws
        end
  end.

(** [int(s)] on a string; [None] is the [ValueError]. Signs, blanks and
    underscores that Python tolerates are not modelled: the service only
    parses what [py_str] printed. *)
Definition int_of_str (s : string) : option Z :=
  option_map Z.of_int (NilEmpty.int_of_string s).

(** [if s:] on an optional string: [None] and the empty string are
    false. *)
Definition truthy (o : option string) : bool :=
  match o with
  | Some s => negb (String.eqb s "")
  | None => false
  end.

Section WasteService.
(** Iteration order of a set of item ids. *)
Variable id_set_order : list string -> list string.

(** The reason the loop of [identify_waste_items] assigns to an item, if
    it flags the item as waste. *)
Definition waste_reason (current_date : datetime) (item : Item.t)
  : option string :=
  if Item.isWaste item then
    if (Item.usageLimit item <=? 0)%Z then Some "Out of Uses"
    else
      match Item.expiryDate item with
      | IsoDate expiry_date =>
          let days_until_expiry :=
            timedelta_days (expiry_date - current_date) in
          if (days_until_expiry <=? 0)%Z then Some "Expired"
          else Some "Manually Marked"
      | Unparseable => Some "Manually Marked"
      | NA => Some "Manually Marked"
      end
  else
    match Item.expiryDate item with
    | IsoDate expiry_date =>
        let days_until_expiry :=
          timedelta_days (expiry_date - current_date) in
        if (days_until_expiry <=? 0)%Z then Some "Expired"
        else if (days_until_expiry <=? 5)%Z then
          Some (String.append "Expires in "
                  (String.append (py_str days_until_expiry) " days"))
        else None
    | Unparseable => None
    | NA =>
        if (Item.usageLimit item <=? 0)%Z then Some "Out of Uses"
        else if ((0 <? Item.usageLimit item)%Z
                 && (Item.usageLimit item <=? 3)%Z)%bool then
          Some (String.append "Only "
                  (String.append (py_str (Item.usageLimit item))
                                 " uses remaining"))
        else None
    end.

Definition make_waste_item (item_id : string) (item : Item.t)
  (reason : string) : WasteItem.t :=
  let '(container_id, position) :=
    match Item.currentLocation item with
    | Some l =>
        match Location.containerId l with
        | Some c => (Some c, Location.position l)
        | None => (None, None)
        end
    | None => (None, None)
    end in
  WasteItem.mk item_id (Item.name item) reason container_id position
               (Item.mass item).

Definition get_urgency_score (items : Dict Item.t) (waste_item : WasteItem.t)
  : Q :=
  match dict_get (WasteItem.itemId waste_item) items with
  | None => 0
  | Some item =>
      let reason := WasteItem.reason waste_item in
      let score :=
        if contains "Expired" reason || contains "Out of Uses" reason
        then 100
        else if contains "Expires in" reason then
          match nth_error (split_space reason) 2 with
          | Some tok =>
              match int_of_str tok with
              | Some days => inject_Z (100 - days * 10)
              | None => 50
              end
          | None => 50
          end
        else if contains "uses remaining" reason then
          match nth_error (split_space reason) 1 with
          | Some tok =>
              match int_of_str tok with
              | Some uses => inject_Z (50 - uses * 10)
              | None => 30
              end
          | None => 30
          end
        else 0 in
      let score := score - py_min 30 (inject_Z (Item.priority item) / 3) in
      score + py_min 20 (Item.mass item * 2)
  end.

Definition _sort_waste_by_urgency (waste_items : list WasteItem.t)
  (items : Dict Item.t) : list WasteItem.t :=
  sort_by_desc Qltb (get_urgency_score items) waste_items.

(** [container_items]: the waste items that name a container, grouped by
    container in order of first appearance. *)
Fixpoint group_add (container_id : string) (item : WasteItem.t)
  (groups : Dict (list WasteItem.t)) : Dict (list WasteItem.t) :=
  match groups with
  | [] => [(container_id, [item])]
  | (c, l) :: rest =>
      if String.eqb container_id c then (c, l ++ [item]) :: rest
      else (c, l) :: group_add container_id item rest
  end.

Definition group_by_container (waste_items : list WasteItem.t)
  : Dict (list WasteItem.t) :=
  fold_left
    (fun groups item =>
       match WasteItem.containerId item with
       | Some c => if String.eqb c "" then groups else group_add c item groups
       | None => groups
       end)
    waste_items [].

Definition has_position (item : WasteItem.t) : bool :=
  match WasteItem.position item with Some _ => true | None => false end.

(** The key [(y, -z, x)]; only used when every position is present. *)
Definition access_key (item : WasteItem.t) : Q * Q * Q :=
  match WasteItem.position item with
  | Some (x, y, z) => (y, - z, x)
  | None => (0, 0, 0)
  end.

Definition sort_by_access (l : list WasteItem.t) : list WasteItem.t :=
  if forallb has_position l then sort_by QQQltb access_key l else l.

Definition WasteStepState : Type := (list WasteReturnStep.t * Z)%type.

Definition _generate_optimized_waste_return_steps
  (waste_items : list WasteItem.t) : list WasteReturnStep.t :=
  let st :=
    fold_left
      (fun st group =>
         let '(container_id, items) := group in
         fold_left
           (fun st item =>
              emit st (fun step_count =>
                          WasteReturnStep.mk step_count "remove"
                            (WasteItem.itemId item) (Some container_id)
                            None))
           (sort_by_access items) st)
      (group_by_container waste_items) ([], 1%Z) in
  fst (fold_left
         (fun st item =>
            if truthy (WasteItem.containerId item) then st
            else
              emit st (fun step_count =>
                          WasteReturnStep.mk step_count "remove"
                            (WasteItem.itemId item) None None))
         waste_items st).

(** What [identify_waste_items] returns, and the item dict as the call
    leaves it. *)
Record WasteResult : Type := {
  waste_items_found : list WasteItem.t;
  total_waste_mass : Q;
  return_steps : list WasteReturnStep.t;
  waste_items_after : Dict Item.t
}.

Definition identify_waste_items (items : Dict Item.t)
  (containers : Dict Container.t) (current_date : datetime) : WasteResult :=
  let waste_items :=
    flat_map (fun kv =>
                match waste_reason current_date (snd kv) with
                | Some reason => [make_waste_item (fst kv) (snd kv) reason]
                | None => []
                end)
             items in
  let items' :=
    map (fun kv =>
           match waste_reason current_date (snd kv) with
           | Some _ => (fst kv, Item.set_isWaste true (snd kv))
           | None => kv
           end)
        items in
  let sorted_waste_items := _sort_waste_by_urgency waste_items items' in
  {| waste_items_found := sorted_waste_items;
     total_waste_mass :=
       fold_left (fun acc w => acc + WasteItem.mass w) waste_items 0;
     return_steps := _generate_optimized_waste_return_steps sorted_waste_items;
     waste_items_after := items' |}.

(** [l[n] = x]; the index is in range wherever the service assigns. *)
Fixpoint list_set {A : Type} (n : nat) (x : A) (l : list A) : list A :=
  match l, n with
  | [], _ => []
  | _ :: l', O => x :: l'
  | y :: l', S n' => y :: list_set n' x l'
  end.

(** [item_values]: for the item at index [i] of [n] waste items,
    [urgency_value * 0.7 + mass_value * 0.3]. *)
Definition item_value (n : nat) (i : nat) (item : WasteItem.t) : Q :=
  let urgency_value :=
    10 * (1 - inject_Z (Z.of_nat i) / inject_Z (Z.max 1 (Z.of_nat n))) in
  let mass_value := py_min 10 (WasteItem.mass item * 2) in
  urgency_value * (7 # 10) + mass_value * (3 # 10).

Fixpoint item_values_from (n i : nat) (waste_items : list WasteItem.t)
  (acc : Dict Q) : Dict Q :=
  match waste_items with
  | [] => acc
  | item :: rest =>
      item_values_from n (S i) rest
        (dict_set (WasteItem.itemId item) (item_value n i item) acc)
  end.

Definition item_values (waste_items : list WasteItem.t) : Dict Q :=
  item_values_from (List.length waste_items) 0 waste_items [].

Definition SCALE_FACTOR : Q := 100.

Definition scaled (mass : Q) : Z := py_int (mass * SCALE_FACTOR).

(** The DP table: [dp] and [selected_items], both of length
    [scaled_max_weight + 1]. *)
Definition DpState : Type := (list Q * list (list string))%type.

(** The body of the loop over [w] for one item. The value is always in
    [item_values], which has a key for every waste item. *)
Definition dp_update (values : Dict Q) (item : WasteItem.t)
  (scaled_mass : nat) (st : DpState) (w : nat) : DpState :=
  let '(dp, selected_items) := st in
  let value :=
    match dict_get (WasteItem.itemId item) values with
    | Some v => v
    | None => 0
    end in
  let new_value := nth (w - scaled_mass) dp 0 + value in
  if Qltb (nth w dp 0) new_value then
    (list_set w new_value dp,
     list_set w
       (set_add String.eqb (WasteItem.itemId item)
                (nth (w - scaled_mass) selected_items []))
       selected_items)
  else st.

(** [range(scaled_max_weight, scaled_mass - 1, -1)]. *)
Definition weights_down (scaled_max_weight scaled_mass : nat) : list nat :=
  rev (seq scaled_mass (scaled_max_weight + 1 - scaled_mass)).

Definition dp_item (values : Dict Q) (scaled_max_weight : nat)
  (st : DpState) (item : WasteItem.t) : DpState :=
  let scaled_mass := scaled (WasteItem.mass item) in
  if (scaled_mass <=? 0)%Z then st
  else
    fold_left (dp_update values item (Z.to_nat scaled_mass))
              (weights_down scaled_max_weight (Z.to_nat scaled_mass)) st.

(** The [while] loop that walks down from [scaled_max_weight] to the
    first weight with a non-empty selection, or to 0. *)
Fixpoint find_max_value_weight (selected_items : list (list string))
  (w : nat) : nat :=
  match w with
  | O => O
  | S w' =>
      match nth w selected_items [] with
      | [] => find_max_value_weight selected_items w'
      | _ :: _ => w
      end
  end.

(** [final_selected_items]; [None] is the [IndexError] raised for a
    negative [scaled_max_weight], where both tables are empty. *)
Definition select_items (waste_items : list WasteItem.t) (max_weight : Q)
  : option (list string) :=
  let scaled_max_weight := scaled max_weight in
  if (scaled_max_weight <? 0)%Z then None
  else
    let n := Z.to_nat scaled_max_weight in
    let dp := repeat 0 (S n) in
    let selected_items := repeat ([] : list string) (S n) in
    let st :=
      fold_left (dp_item (item_values waste_items) n) waste_items
                (dp, selected_items) in
    Some (nth (find_max_value_weight (snd st) n) (snd st) []).

Definition item_map (waste_items : list WasteItem.t) : Dict WasteItem.t :=
  fold_left (fun m item => dict_set (WasteItem.itemId item) item m)
            waste_items [].

Definition generate_waste_return_plan (waste_items : list WasteItem.t)
  (max_weight : Q) (undocking_container_id : string)
  : option (list WasteReturnStep.t) :=
  match waste_items with
  | [] => Some []
  | _ =>
      match select_items waste_items max_weight with
      | None => None
      | Some final_selected_items =>
          let st :=
            fold_left
              (fun st group =>
                 let '(container_id, container_waste_items) := group in
                 let selected_container_items :=
                   filter (fun item =>
                             str_mem (WasteItem.itemId item)
                                     final_selected_items)
                          container_waste_items in
                 fold_left
                   (fun st item =>
                      emit
                        (emit st
                           (fun step_count =>
                              WasteReturnStep.mk step_count "remove"
                                (WasteItem.itemId item) (Some container_id)
                                None))
                        (fun step_count =>
                           WasteReturnStep.mk step_count "place"
                             (WasteItem.itemId item) None
                             (Some undocking_container_id)))
                   (sort_by_access selected_container_items) st)
              (group_by_container waste_items) ([], 1%Z) in
          Some
            (fst
               (fold_left
                  (fun st item_id =>
                     match dict_get item_id (item_map waste_items) with
                     | None => st
                     | Some item =>
                         if truthy (WasteItem.containerId item) then st
                         else
                           emit st
                             (fun step_count =>
                                WasteReturnStep.mk step_count "place"
                                  (WasteItem.itemId item) None
                                  (Some undocking_container_id))
                     end)
                  (id_set_order final_selected_items) st))
      end
  end.

(** The body of the loop over [removed_item_ids]. *)
Definition undock_one (st : Dict Item.t * Dict Container.t)
  (item_id : string) : Dict Item.t * Dict Container.t :=
  let '(items, containers) := st in
  match dict_get item_id items with
  | None => st
  | Some item =>
      (dict_update item_id (Item.set_currentLocation None) items,
       match Item.location_container item with
       | Some container_id =>
           dict_update container_id
             (Container.remove_item item_id (Item.get_volume item))
             containers
       | None => containers
       end)
  end.

(** Returns the count and the stores as the call leaves them. *)
Definition complete_undocking (waste_items : list WasteItem.t)
  (plan_steps : list WasteReturnStep.t) (items : Dict Item.t)
  (containers : Dict Container.t) : Z * Dict Item.t * Dict Container.t :=
  let removed_item_ids :=
    set_of_list String.eqb
      (map WasteReturnStep.itemId
           (filter (fun step =>
                      str_mem (WasteReturnStep.action step)
                              ["move"; "remove"; "place"])
                   plan_steps)) in
  let '(items', containers') :=
    fold_left undock_one (id_set_order removed_item_ids)
              (items, containers) in
  (Z.of_nat (List.length removed_item_ids), items', containers').

End WasteService.

(** ** services/simulation.py *)

Definition expires_in_window (current_date new_date : datetime)
  (item : Item.t) : bool :=
  negb (Item.isWaste item)
  && match Item.expiryDate item with
     | IsoDate expiry_date =>
         (expiry_date <=? new_date)%Z && (current_date <? expiry_date)%Z
     | NA | Unparseable => false
     end.

Definition expired_waste_item (item_id : string) (item : Item.t)
  : WasteItem.t :=
  WasteItem.mk item_id (Item.name item) "Expired"
    (match Item.currentLocation item with
     | Some l => Location.containerId l
     | None => None
     end)
    (match Item.currentLocation item with
     | Some l => Location.position l
     | None => None
     end)
    (Item.mass item).

(** [updated_items] is a shallow copy: it holds the very objects of
    [items], so the returned dict is also what the caller's dict has
    become. *)
Definition simulate_days (num_days : Z) (current_date : datetime)
  (items : Dict Item.t) : datetime * Dict Item.t * list WasteItem.t :=
  let new_date := add_days current_date num_days in
  (new_date,
   map (fun kv =>
          if expires_in_window current_date new_date (snd kv)
          then (fst kv, Item.set_isWaste true (snd kv))
          else kv)
       items,
   flat_map (fun kv =>
               if expires_in_window current_date new_date (snd kv)
               then [expired_waste_item (fst kv) (snd kv)]
               else [])
            items).

(** ** The simulate route of app.py

    [items_list] is the list of item records read from the item file; an
    [Item.t] stands for one of its dicts, and [dict_to_item] is then the
    identity. *)

(** [items_list[i][...] = ...] on the first record with this id. *)
Fixpoint update_first (item_id : string) (f : Item.t -> Item.t)
  (items_list : list Item.t) : list Item.t :=
  match items_list with
  | [] => []
  | item_dict :: rest =>
      if String.eqb (Item.itemId item_dict) item_id then f item_dict :: rest
      else item_dict :: update_first item_id f rest
  end.

Definition items_dict (items_list : list Item.t) : Dict Item.t :=
  fold_left (fun d item => dict_set (Item.itemId item) item d) items_list [].

(** The body of the loop over [items_to_use]; the state is [items_data]
    and [items_list]. *)
Definition use_one (st : Dict Item.t * list Item.t) (item_id : string)
  : Dict Item.t * list Item.t :=
  let '(items_data, items_list) := st in
  match dict_get item_id items_data with
  | None => st
  | Some item =>
      if (0 <? Item.usageLimit item)%Z then
        let usage := (Item.usageLimit item - 1)%Z in
        (dict_update item_id (Item.set_usageLimit usage) items_data,
         update_first item_id
           (fun item_dict =>
              let item_dict := Item.set_usageLimit usage item_dict in
              if (usage <=? 0)%Z then Item.set_isWaste true item_dict
              else item_dict)
           items_list)
      else st
  end.

Record SimulationResponse : Type := {
  oldDate : datetime;
  newDate : datetime;
  expiringItems : list WasteItem.t;
  usageDepletedItems : list WasteItem.t;
  saved_items : list Item.t
}.

(** [to_timestamp] is [Some t] when the request carries a timestamp that
    parses, [None] when it is absent or rejected. *)
Definition app_simulate_days (CURRENT_DATE : datetime) (days : Z)
  (to_timestamp : option datetime) (items_to_use : list string)
  (items_list : list Item.t) : SimulationResponse :=
  let '(items_data, items_list) :=
    fold_left use_one items_to_use (items_dict items_list, items_list) in
  let old_date := CURRENT_DATE in
  let days :=
    match to_timestamp with
    | Some target_date =>
        Z.max 1 (timedelta_days (target_date - CURRENT_DATE))
    | None => days
    end in
  let '(new_date, updated_items, waste_items) :=
    simulate_days days CURRENT_DATE items_data in
  let items_list :=
    fold_left
      (fun items_list kv =>
         update_first (fst kv) (Item.set_isWaste (Item.isWaste (snd kv)))
                      items_list)
      updated_items items_list in
  {| oldDate := old_date;
     newDate := new_date;
     expiringItems :=
       filter (fun w => String.eqb (WasteItem.reason w) "Expired")
              waste_items;
     usageDepletedItems :=
       filter (fun w => String.eqb (WasteItem.reason w) "Out of Uses")
              waste_items;
     saved_items := items_list |}.

(** ** The core operations as a state machine

    The front-ends hold the two stores and the logical date, call one
    service per request and keep what the service left in the stores.
    [core_step] does the same for one operation; [None] means that the
    service raised. *)

Record Store : Type := {
  store_items : Dict Item.t;
  store_containers : Dict Container.t;
  store_date : datetime
}.

Inductive CoreOp : Type :=
| PlanPlacement (now : datetime)
| RetrieveItem (item_id user_id : string)
| RetrievalPath (item_id : string)
| IdentifyWaste
| WasteReturnPlan (waste_items : list WasteItem.t) (max_weight : Q)
                  (undocking_container_id : string)
| SimulateDays (num_days : Z)
| CompleteUndocking (waste_items : list WasteItem.t)
                    (plan_steps : list WasteReturnStep.t).

Section Core.
Variable impl : Space3DImpl.
Variable pair_set_order : list (string * string) -> list (string * string).
Variable id_set_order : list string -> list string.

Definition core_step (op : CoreOp) (s : Store) : option Store :=
  match op with
  | PlanPlacement now =>
      let r :=
        calculate_placement impl now (store_items s) (store_containers s) in
      Some {| store_items := items_after r;
              store_containers := containers_after r;
              store_date := store_date s |}
  | RetrieveItem item_id user_id =>
      match retrieve_item impl pair_set_order item_id user_id
                          (store_items s) (store_containers s) with
      | Some (_, _, items, containers) =>
          Some {| store_items := items;
                  store_containers := containers;
                  store_date := store_date s |}
      | None => None
      end
  | RetrievalPath item_id =>
      match get_retrieval_path impl pair_set_order item_id
                               (store_items s) (store_containers s) with
      | Some (_, _, items, containers) =>
          Some {| store_items := items;
                  store_containers := containers;
                  store_date := store_date s |}
      | None => None
      end
  | IdentifyWaste =>
      let r :=
        identify_waste_items (store_items s) (store_containers s)
                             (store_date s) in
      Some {| store_items := waste_items_after r;
              store_containers := store_containers s;
              store_date := store_date s |}
  | WasteReturnPlan waste_items max_weight undocking_container_id =>
      match generate_waste_return_plan id_set_order waste_items max_weight
                                       undocking_container_id with
      | Some _ => Some s
      | None => None
      end
  | SimulateDays num_days =>
      let '(new_date, updated_items, _) :=
        simulate_days num_days (store_date s) (store_items s) in
      Some {| store_items := updated_items;
              store_containers := store_containers s;
              store_date := new_date |}
  | CompleteUndocking waste_items plan_steps =>
      let '(_, items, containers) :=
        complete_undocking id_set_order waste_items plan_steps
                           (store_items s) (store_containers s) in
      Some {| store_items := items;
              store_containers := containers;
              store_date := store_date s |}
  end.

Fixpoint core_run (ops : list CoreOp) (s : Store) : option Store :=
  match ops with
  | [] => Some s
  | op :: rest =>
      match core_step op s with
      | Some s' => core_run rest s'
      | None => None
      end
  end.
End Core.

(** ** A space model for the scenarios *)

Module GridSpace.

(** Modelled from the spec: utils/space3d.py is missing. A placed item
    occupies [[x, x+w) x [y, y+d) x [z, z+h)] (section 4.1). *)
Record Box : Type := {
  bx : Q; by_ : Q; bz : Q;
  bw : Q; bd : Q; bh : Q
}.

(** Modelled from the spec: the class [Space3D] of the missing
    utils/space3d.py, free space within one box [(W, D, H)], kept as the
    list of the placed boxes. *)
Record t : Type := {
  W : Q; D : Q; H : Q;
  occupied : list Box
}.

Definition spans_overlap (a la b lb : Q) : bool :=
  Qltb a (b + lb) && Qltb b (a + la).

Definition intersects (a b : Box) : bool :=
  spans_overlap (bx a) (bw a) (bx b) (bw b)
  && spans_overlap (by_ a) (bd a) (by_ b) (bd b)
  && spans_overlap (bz a) (bh a) (bz b) (bh b).

(** Modelled from the spec: the constructor [Space3D(width, depth,
    height)] of the missing utils/space3d.py, an empty box. *)
Definition new (w d h : Q) : t :=
  {| W := w; D := d; H := h; occupied := [] |}.

(** Modelled from the spec: [place_item] of the missing
    utils/space3d.py, "marks cells occupied". *)
Definition place (s : t) (x y z w d h : Q) : t :=
  {| W := W s; D := D s; H := H s;
     occupied := occupied s ++ [Build_Box x y z w d h] |}.

(** The corners of the 1 cm grid along one axis that leave room for a
    length [l] within [total]. *)
Definition corners (total l : Q) : list Q :=
  if Qltb total l then []
  else map (fun k => inject_Z (Z.of_nat k))
           (seq 0 (S (Z.to_nat (Qfloor (total - l))))).

(** Modelled from the spec: [find_position] of the missing
    utils/space3d.py, "returns the lowest y, then lowest z, then lowest x
    corner such that the box fits entirely inside container bounds and
    does not intersect any occupied cell", or none. *)
Definition find (s : t) (w d h : Q) : option Triple :=
  match
    filter (fun p =>
              let '(x, y, z) := p in
              negb (existsb (intersects (Build_Box x y z w d h))
                            (occupied s)))
           (flat_map (fun y =>
                        flat_map (fun z =>
                                    map (fun x => (x, y, z))
                                        (corners (W s) w))
                                 (corners (H s) h))
                     (corners (D s) d))
  with
  | [] => None
  | p :: _ => Some p
  end.

Definition same_box (a b : Box) : bool :=
  Qeq_bool (bx a) (bx b) && Qeq_bool (by_ a) (by_ b)
  && Qeq_bool (bz a) (bz b) && Qeq_bool (bw a) (bw b)
  && Qeq_bool (bd a) (bd b) && Qeq_bool (bh a) (bh b).

(** Modelled from the spec: [calculate_retrieval_complexity] of the
    missing utils/space3d.py, the retrieval depth: the number of other
    items whose boxes meet the projection of the box on the x-z plane and
    for which [y' + d' <= y] is false. *)
Definition retrieval_depth (s : t) (x y z w d h : Q) : Z :=
  Z.of_nat
    (List.length
       (filter (fun b =>
                  negb (same_box b (Build_Box x y z w d h))
                  && spans_overlap (bx b) (bw b) x w
                  && spans_overlap (bz b) (bh b) z h
                  && negb (Qleb (by_ b + bd b) y))
               (occupied s))).

End GridSpace.

(** Modelled from the spec: utils/space3d.py (class [Space3D]) is missing
    from the sources. Section 4.1 describes it as a 1 cm occupancy grid
    with integer corners: [find_position] returns the free corner that is
    lowest in y, then z, then x; [place] marks the box occupied;
    [retrieval_depth] counts the other boxes that meet the projection of
    the box on the x-z plane and do not end at or before its y. *)
Definition grid_space : Space3DImpl := {|
  Space3D := GridSpace.t;
  Space3D_new := GridSpace.new;
  find_position := GridSpace.find;
  place_item := GridSpace.place;
  calculate_retrieval_complexity := GridSpace.retrieval_depth
|}.

(** Insertion order, the order a dict would give. *)
Definition insertion_order {A : Type} (s : list A) : list A := s.

(** ** Scenarios *)

Definition mk_item (item_id : string) (w d h mass : Q) (priority : Z)
  (expiry : ExpiryDate) (usage : Z) (zone : string) (waste : bool)
  (loc : option Location.t) : Item.t :=
  Item.mk item_id item_id w d h mass priority expiry usage zone waste loc.

Definition at_ (container_id : string) (p r : Triple) : option Location.t :=
  Some (Location.mk (Some container_id) (Some p) (Some r)).

(** S3: a 100x100x100 container holding X at (0,50,0), 20x20x20, and Y at
    (0,0,0), 20x50x20. *)
Definition S3_X : Item.t :=
  mk_item "X" 20 20 20 1 50 NA 10 "Z" false
          (at_ "C" (0, 50, 0) (20, 20, 20)).

Definition S3_Y : Item.t :=
  mk_item "Y" 20 50 20 1 50 NA 10 "Z" false
          (at_ "C" (0, 0, 0) (20, 50, 20)).

Definition S3_items : Dict Item.t := [("X", S3_X); ("Y", S3_Y)].

Definition S3_C : Container.t :=
  Container.mk "C" "Z" 100 100 100 28000 ["X"; "Y"].

Definition S3_containers : Dict Container.t := [("C", S3_C)].

(** S6: three waste items of 10, 30 and 15 kg in container "C", in
    urgency order, and one without a container. *)
Definition S6_waste : list WasteItem.t :=
  [ WasteItem.mk "W1" "W1" "Expired" (Some "C") (Some (0, 0, 0)) 10;
    WasteItem.mk "W2" "W2" "Out of Uses" (Some "C") (Some (0, 30, 0)) 30;
    WasteItem.mk "W3" "W3" "Out of Uses" None None 15 ].

(** A store with one flagged item P in container "C" and the two items of
    S3. *)
Definition S8_store : Store :=
  {| store_items :=
       ("P", mk_item "P" 10 10 10 2 40 NA 0 "Z" true
               (at_ "C" (50, 0, 0) (10, 10, 10)))
       :: S3_items;
     store_containers :=
       [("C", Container.mk "C" "Z" 100 100 100 29000 ["P"; "X"; "Y"])];
     store_date := 0%Z |}.

Definition S8_ops : list CoreOp :=
  [ IdentifyWaste;
    SimulateDays 10;
    PlanPlacement 0%Z;
    RetrieveItem "P" "crew";
    RetrievalPath "X";
    CompleteUndocking []
      [WasteReturnStep.mk 1 "remove" "P" (Some "C") None] ].

(** An item that has run out of uses, is not flagged yet, and expires ten
    days after the current date 0. *)
Definition M_used_up : Item.t :=
  mk_item "M" 10 10 10 2 40 (IsoDate (10 * microseconds_per_day)) 0 "Z"
          false (at_ "C" (0, 0, 0) (10, 10, 10)).

(** The same item without an expiry date. *)
Definition M_used_up_no_expiry : Item.t :=
  mk_item "M" 10 10 10 2 40 NA 0 "Z" false (at_ "C" (0, 0, 0) (10, 10, 10)).

(** S5: item U with one use left. *)
Definition S5_U : Item.t :=
  mk_item "U" 10 10 10 2 40 NA 1 "Z" false None.

(** A target T at the open face with B1 and B2 behind it in the same
    column of a 100x100x100 container. *)
Definition S5_items : Dict Item.t :=
  [ ("T", mk_item "T" 20 20 20 1 50 NA 10 "Z" false
            (at_ "C" (0, 0, 0) (20, 20, 20)));
    ("B1", mk_item "B1" 20 20 20 1 50 NA 10 "Z" false
             (at_ "C" (0, 20, 0) (20, 20, 20)));
    ("B2", mk_item "B2" 20 20 20 1 50 NA 10 "Z" false
             (at_ "C" (0, 40, 0) (20, 20, 20))) ].

Definition S5_containers : Dict Container.t :=
  [ ("C", Container.mk "C" "Z" 100 100 100 24000 ["T"; "B1"; "B2"]) ].

(** A set that happens to iterate in the reverse of the insertion
    order. *)
Definition reverse_insertion_order {A : Type} (s : list A) : list A := rev s.

(** Two waste items of 1.009 kg each. *)
Definition heavy_pair : list WasteItem.t :=
  [ WasteItem.mk "H1" "H1" "Expired" (Some "C") (Some (0, 0, 0))
                 (1009 # 1000);
    WasteItem.mk "H2" "H2" "Expired" (Some "C") (Some (20, 0, 0))
                 (1009 # 1000) ].

(** Two items of 8x8x8 without a location and one container of
    10x10x10. *)
Definition twin_items : Dict Item.t :=
  [ ("A", mk_item "A" 8 8 8 1 50 NA 10 "Z" false None);
    ("B", mk_item "B" 8 8 8 1 50 NA 10 "Z" false None) ].

Definition small_container : Dict Container.t :=
  [ ("C", Container.mk "C" "Z" 10 10 10 0 []) ].

(** ** Predicates used in the statements *)

(** Two half-open intervals [[a1, b1)] and [[a2, b2)] share a point. *)
Definition half_open_overlap (a1 b1 a2 b2 : Q) : Prop :=
  exists t : Q, a1 <= t /\ t < b1 /\ a2 <= t /\ t < b2.

(** The [step] fields read 1, 2, ..., n. *)
Definition contiguous_from_1 (ordinals : list Z) : Prop :=
  ordinals = map Z.of_nat (seq 1 (List.length ordinals)).

(** Invariant of a step list under construction: the counter is one more
    than the number of steps, and the steps read 1, 2, ... *)
Definition numbered {S : Type} (step_of : S -> Z) (st : list S * Z)
  : Prop :=
  snd st = Z.of_nat (Datatypes.S (List.length (fst st)))
  /\ map step_of (fst st) = map Z.of_nat (seq 1 (List.length (fst st))).

(** Every item that is flagged in [d] is still in [d'], and flagged. *)
Definition keeps_waste (d d' : Dict Item.t) : Prop :=
  forall k it,
    dict_get k d = Some it -> Item.isWaste it = true ->
    exists it', dict_get k d' = Some it' /\ Item.isWaste it' = true.

Definition flag_monotone (f : Item.t -> Item.t) : Prop :=
  forall it, Item.isWaste it = true -> Item.isWaste (f it) = true.

(** The sum of the masses of the waste items whose id is in [ids]. *)
Definition total_mass (ids : list string) (waste_items : list WasteItem.t)
  : Q :=
  fold_left Qplus
            (map WasteItem.mass
                 (filter (fun w => str_mem (WasteItem.itemId w) ids)
                         waste_items))
            0.


(** The sum of the integer weights [int(mass * 100)] of the waste items
    whose id is in [ids]. *)
Definition scaled_total (ids : list string) (waste_items : list WasteItem.t)
  : Z :=
  fold_right Z.add 0%Z
    (map (fun w => scaled (WasteItem.mass w))
         (filter (fun w => str_mem (WasteItem.itemId w) ids) waste_items)).

(** Invariant of the DP table for capacity [n]: both tables have [n + 1]
    entries and the selection stored at weight [w] weighs at most [w]. *)
Definition dp_within (waste_items : list WasteItem.t) (n : nat)
  (st : DpState) : Prop :=
  List.length (fst st) = S n
  /\ List.length (snd st) = S n
  /\ forall w, (w <= n)%nat ->
                (scaled_total (nth w (snd st) []) waste_items
                 <= Z.of_nat w)%Z.

(** A saved record keeps the id of the record it comes from, and its
    flag if that one was set. *)
Definition record_kept (r r' : Item.t) : Prop :=
  Item.itemId r' = Item.itemId r
  /\ (Item.isWaste r = true -> Item.isWaste r' = true).

(** ** More of models/item.py

    [current_date] stands for the [datetime.now()] the methods read. *)


(** Returns the priority and the item as the call leaves it (the method
    sets [isWaste]). *)
Definition get_effective_priority (current_date : datetime) (item : Item.t)
  : Q * Item.t :=
  let base_priority := inject_Z (Item.priority item) in
  let '(base_priority, item) :=
    match Item.expiryDate item with
    | IsoDate expiry_date =>
        let days_until_expiry :=
          timedelta_days (expiry_date - current_date) in
        if (days_until_expiry <=? 0)%Z then
          (base_priority + 20, Item.set_isWaste true item)
        else if (days_until_expiry <? 30)%Z then
          (base_priority + inject_Z (30 - days_until_expiry) / 3, item)
        else (base_priority, item)
    | NA | Unparseable => (base_priority, item)
    end in
  let '(base_priority, item) :=
    if ((Item.usageLimit item <=? 5)%Z && (0 <? Item.usageLimit item)%Z)%bool
    then (base_priority + inject_Z ((5 - Item.usageLimit item) * 3), item)
    else if (Item.usageLimit item =? 0)%Z then
      (base_priority + 10, Item.set_isWaste true item)
    else (base_priority, item) in
  (py_min base_priority 130, item).

(** ** Predicates on containers *)

(** The bookkeeping of a container is sound: the occupied volume lies
    between 0 and the capacity, and no id is listed twice. *)
Definition container_sound (c : Container.t) : Prop :=
  0 <= Container.occupiedSpace c
  /\ Container.occupiedSpace c
     <= Container.width c * Container.depth c * Container.height c
  /\ NoDup (Container.items c).

(** Two containers are the same box: id, zone and dimensions agree. *)
Definition same_box (c c' : Container.t) : Prop :=
  Container.containerId c' = Container.containerId c
  /\ Container.zone c' = Container.zone c
  /\ Container.width c' = Container.width c
  /\ Container.depth c' = Container.depth c
  /\ Container.height c' = Container.height c.

(** ** More of services/retrieval.py *)

Module ItemLocation.
Record t : Type := mk {
  itemId : string;
  name : string;
  containerId : string;
  position : Triple;
  rotation : Triple;
  retrievalSteps : Z;
  blockedBy : list Blocker.t
}.
End ItemLocation.

Definition get_item_location (impl : Space3DImpl) (item_id : string)
  (items : Dict Item.t) (containers : Dict Container.t)
  : option ItemLocation.t :=
  match dict_get item_id items with
  | None => None
  | Some item =>
      match Item.location_container item with
      | None => None
      | Some container_id =>
          match dict_get container_id containers with
          | None => None
          | Some container =>
              let position := Item.location_position item in
              let rotation := Item.location_rotation item in
              let '(retrieval_steps, blocked_by) :=
                _calculate_retrieval_complexity impl item container
                                                position rotation items in
              Some (ItemLocation.mk item_id (Item.name item) container_id
                                    position rotation retrieval_steps
                                    blocked_by)
          end
      end
  end.

(** The volume that the steps of a plan move out of [origin] into the
    container stored under [key]: the sum of [get_volume] over the "move"
    steps from [origin] to [key]. *)
Definition volume_moved_into (items : Dict Item.t) (origin key : string)
  (steps : list RearrangementStep.t) : Q :=
  fold_right
    (fun s acc =>
       if String.eqb (RearrangementStep.action s) "move"
          && match RearrangementStep.fromContainer s with
             | Some c => String.eqb c origin
             | None => false
             end
          && match RearrangementStep.toContainer s with
             | Some c => String.eqb c key
             | None => false
             end
       then
         match dict_get (RearrangementStep.itemId s) items with
         | Some item => Item.get_volume item + acc
         | None => acc
         end
       else acc)
    0 steps.

(** The containers of the column scenario with a spare container D of
    the same zone, 25x25x16 and empty. *)
Definition spare_D : Container.t := Container.mk "D" "Z" 25 25 16 0 [].

Definition S5_containers_with_spare : Dict Container.t :=
  S5_containers ++ [("D", spare_D)].

(** The target and the container of the column scenario. *)
Definition S5_T : Item.t :=
  mk_item "T" 20 20 20 1 50 NA 10 "Z" false (at_ "C" (0, 0, 0) (20, 20, 20)).

Definition S5_C : Container.t :=
  Container.mk "C" "Z" 100 100 100 24000 ["T"; "B1"; "B2"].

(** The sum of the masses of a waste list. *)
Definition sum_mass (l : list WasteItem.t) : Q :=
  fold_right (fun w acc => WasteItem.mass w + acc) 0 l.

(** What a step of a waste return plan may be, for the waste list
    [waste_items], the selection [final] and the undocking container: the
    removal of a selected waste item from the container it names, or the
    placement of a selected waste item into the undocking container. The
    item weighs at least one unit of [int(mass * 100)]. *)
Definition return_step_ok (waste_items : list WasteItem.t)
  (undocking_container_id : string) (s : WasteReturnStep.t) : Prop :=
  exists item,
    In item waste_items
    /\ WasteItem.itemId item = WasteReturnStep.itemId s
    /\ (0 < scaled (WasteItem.mass item))%Z
    /\ ((WasteReturnStep.action s = "remove"
         /\ WasteReturnStep.fromContainer s = WasteItem.containerId item
         /\ truthy (WasteItem.containerId item) = true
         /\ WasteReturnStep.toContainer s = None)
        \/ (WasteReturnStep.action s = "place"
            /\ WasteReturnStep.fromContainer s = None
            /\ WasteReturnStep.toContainer s
               = Some undocking_container_id)).

(** Invariant of the DP table: every id in a stored selection is the id
    of a waste item with a positive integer weight. *)
Definition dp_selects_weighty (waste_items : list WasteItem.t)
  (st : DpState) : Prop :=
  forall w id,
    In id (nth w (snd st) []) ->
    exists item,
      In item waste_items
      /\ WasteItem.itemId item = id
      /\ (0 < scaled (WasteItem.mass item))%Z.

(** What the collection steps say of a waste item: its id and, when it
    names a container, that container. *)
Definition collected_from (w : WasteItem.t) : string * option string :=
  (WasteItem.itemId w,
   if truthy (WasteItem.containerId w) then WasteItem.containerId w
   else None).

(** The ids that [complete_undocking] collects from a plan: those of the
    steps whose action is "move", "remove" or "place". *)
Definition undocked_ids (plan_steps : list WasteReturnStep.t)
  : list string :=
  map WasteReturnStep.itemId
      (filter (fun step =>
                 str_mem (WasteReturnStep.action step)
                         ["move"; "remove"; "place"])
              plan_steps).

(** The stores are sound: no item has a negative volume, and the
    bookkeeping of every container is sound. *)
Definition store_sound (s : Store) : Prop :=
  (forall k item, In (k, item) (store_items s) -> 0 <= Item.get_volume item)
  /\ (forall k c, In (k, c) (store_containers s) -> container_sound c).

(** The same, on the two dicts. *)
Definition dicts_sound (items : Dict Item.t) (containers : Dict Container.t)
  : Prop :=
  (forall k item, In (k, item) items -> 0 <= Item.get_volume item)
  /\ (forall k c, In (k, c) containers -> container_sound c).

(** ** More of services/placement.py *)

(** The legacy search: the first rotation, in the order of
    [get_all_rotations], that is not larger than the container and for
    which a model of the empty container has a position. *)
Definition _find_best_position (impl : Space3DImpl) (item : Item.t)
  (container : Container.t) : option Triple * option Triple :=
  let space_model :=
    Space3D_new impl (Container.width container) (Container.depth container)
                (Container.height container) in
  let fix try (rotations : list Triple) :=
    match rotations with
    | [] => (None, None)
    | rotation :: rest =>
        let '(width, depth, height) := rotation in
        if Qltb (Container.width container) width
           || Qltb (Container.depth container) depth
           || Qltb (Container.height container) height
        then try rest
        else
          match find_position impl space_model width depth height with
          | Some position => (Some position, Some rotation)
          | None => try rest
          end
    end in
  try (Item.get_all_rotations item).

(** A rotation is not larger than the container in any dimension. *)
Definition fits_in (rotation : Triple) (c : Container.t) : Prop :=
  let '(width, depth, height) := rotation in
  width <= Container.width c
  /\ depth <= Container.depth c
  /\ height <= Container.height c.

(** The location that the placement loop stores for a placement. *)
Definition location_of (p : ItemPlacement.t) : Location.t :=
  Location.mk (Some (ItemPlacement.containerId p))
              (Some (ItemPlacement.position p))
              (Some (ItemPlacement.rotation p)).

(** What a step of a rearrangement plan may be: the move of an item of
    lower priority than an unplaced target out of a container of the
    target's preferred zone, to a container of another zone that is not
    full and has the free volume, or to "temporary_storage"; or the
    placement of an unplaced target into a container of its preferred
    zone. *)
Definition rearrangement_step_ok (unplaced_items : list Item.t)
  (all_items : Dict Item.t) (containers : Dict Container.t)
  (s : RearrangementStep.t) : Prop :=
  exists target_item,
    In target_item unplaced_items
    /\ RearrangementStep.position s = None
    /\ ((RearrangementStep.action s = "move"
         /\ (exists key container item_id item,
                In (key, container) containers
                /\ Container.zone container = Item.preferredZone target_item
                /\ In item_id (Container.items container)
                /\ dict_get item_id all_items = Some item
                /\ (Item.priority item < Item.priority target_item)%Z
                /\ RearrangementStep.itemId s = Item.itemId item
                /\ RearrangementStep.fromContainer s
                   = Some (Container.containerId container)
                /\ (RearrangementStep.toContainer s
                    = Some "temporary_storage"
                    \/ exists alt_key alt_container,
                         In (alt_key, alt_container) containers
                         /\ Container.zone alt_container
                            <> Item.preferredZone target_item
                         /\ Container.is_full alt_container = false
                         /\ Item.get_volume item
                            <= Container.get_available_space alt_container
                         /\ RearrangementStep.toContainer s
                            = Some (Container.containerId alt_container))))
        \/ (RearrangementStep.action s = "place"
            /\ RearrangementStep.itemId s = Item.itemId target_item
            /\ RearrangementStep.fromContainer s = None
            /\ exists key container,
                 In (key, container) containers
                 /\ Container.zone container
                    = Item.preferredZone target_item
                 /\ RearrangementStep.toContainer s
                    = Some (Container.containerId container))).

(** The number of "place" steps of a plan. *)
Definition count_place (steps : list RearrangementStep.t) : nat :=
  List.length
    (filter (fun s => String.eqb (RearrangementStep.action s) "place")
            steps).

(** What the loop over containers and rotations keeps about its best
    candidate. *)
Definition best_ok (impl : Space3DImpl) (item : Item.t)
  (cs : Dict (Container.t * Space3D impl)) (b : Best) : Prop :=
  In (best_rotation b) (Item.get_all_rotations item)
  /\ fits_in (best_rotation b) (best_container b)
  /\ exists sp, In (best_key b, (best_container b, sp)) cs.

Definition opt_best_ok (impl : Space3DImpl) (item : Item.t)
  (cs : Dict (Container.t * Space3D impl)) (ob : option Best) : Prop :=
  match ob with Some b => best_ok impl item cs b | None => True end.

(** The containers of the loop are the boxes of the dict. *)
Definition boxes_of (impl : Space3DImpl)
  (containers : Dict Container.t)
  (cs : Dict (Container.t * Space3D impl)) : Prop :=
  forall k c sp, In (k, (c, sp)) cs ->
                 exists c0, In (k, c0) containers /\ same_box c0 c.

(** What the loop keeps about a placement. *)
Definition placement_ok (items : Dict Item.t)
  (containers : Dict Container.t) (p : ItemPlacement.t) : Prop :=
  (exists key item,
      In (key, item) items
      /\ has_location item = false
      /\ ItemPlacement.itemId p = Item.itemId item
      /\ In (ItemPlacement.rotation p) (Item.get_all_rotations item))
  /\ (exists key container,
         In (key, container) containers
         /\ ItemPlacement.containerId p = Container.containerId container
         /\ fits_in (ItemPlacement.rotation p) container).

(** What the placement loop has done to an item: nothing, or, the item
    having had no location, it has stored the location of a placement of
    the plan that names the item. *)
Definition placed_or_kept (plan : list ItemPlacement.t) (item : Item.t)
  (after : option Item.t) : Prop :=
  after = Some item
  \/ (has_location item = false
      /\ exists p,
           In p plan
           /\ ItemPlacement.itemId p = Item.itemId item
           /\ after
              = Some (Item.set_currentLocation (Some (location_of p))
                                               item)).

(** ** [search_items] of services/retrieval.py *)

(** Rejection of a rotation by the legacy search. *)
Definition rotation_rejected (impl : Space3DImpl) (container : Container.t)
  (space_model : Space3D impl) (rotation : Triple) : bool :=
  let '(width, depth, height) := rotation in
  Qltb (Container.width container) width
  || Qltb (Container.depth container) depth
  || Qltb (Container.height container) height
  || match find_position impl space_model width depth height with
     | Some _ => false
     | None => true
     end.

(** Lexicographic strict order on triples of integers (tuple keys). *)
Definition ZZZltb (a b : Z * Z * Z) : bool :=
  let '(a1, a2, a3) := a in
  let '(b1, b2, b3) := b in
  ((a1 <? b1)
   || ((a1 =? b1) && ((a2 <? b2) || ((a2 =? b2) && (a3 <? b3)))))%Z.

Section SearchItems.
Variable impl : Space3DImpl.

(** [str.lower]. *)
Variable lower : string -> string.

(** [clock i] is what [datetime.now()] reads in the call of [get_sort_key]
    on the hit at index [i]. *)
Variable clock : nat -> datetime.

(** [None] stands for the [KeyError] of [items[item_loc.itemId]]. *)
Definition get_sort_key (items : Dict Item.t) (i : nat)
  (item_loc : ItemLocation.t) : option (Z * Z * Z) :=
  match dict_get (ItemLocation.itemId item_loc) items with
  | None => None
  | Some item =>
      let days_until_expiry :=
        match Item.expiryDate item with
        | IsoDate expiry_date =>
            Z.max 0 (timedelta_days (expiry_date - clock i))
        | NA | Unparseable => 365%Z
        end in
      Some (ItemLocation.retrievalSteps item_loc, days_until_expiry,
            (- Item.priority item)%Z)
  end.

(** The keys that [list.sort] computes, one call per hit, before it
    compares any. *)
Fixpoint sort_keys (items : Dict Item.t) (i : nat)
  (matching_items : list ItemLocation.t)
  : option (list (Z * Z * Z * ItemLocation.t)) :=
  match matching_items with
  | [] => Some []
  | item_loc :: rest =>
      match get_sort_key items i item_loc with
      | None => None
      | Some k =>
          match sort_keys items (S i) rest with
          | None => None
          | Some keyed => Some ((k, item_loc) :: keyed)
          end
      end
  end.

Definition location_list (item_id : string) (items : Dict Item.t)
  (containers : Dict Container.t) : list ItemLocation.t :=
  match get_item_location impl item_id items containers with
  | Some item_location => [item_location]
  | None => []
  end.

(** The hits before the sort: the exact id match, then the name matches
    in the order of the dict. *)
Definition matching_items (query : string) (items : Dict Item.t)
  (containers : Dict Container.t) : list ItemLocation.t :=
  (if dict_mem query items then location_list query items containers
   else [])
  ++ flat_map
       (fun kv =>
          let '(item_id, item) := kv in
          if String.eqb item_id query then []
          else if contains (lower query) (lower (Item.name item))
          then location_list item_id items containers
          else [])
       items.

Definition search_items (query : string) (items : Dict Item.t)
  (containers : Dict Container.t) : option (list ItemLocation.t) :=
  match sort_keys items 0 (matching_items query items containers) with
  | None => None
  | Some keyed => Some (map snd (sort_by ZZZltb fst keyed))
  end.

End SearchItems.

(** [str.lower] on ASCII strings. *)
Definition ascii_lower_char (c : ascii) : ascii :=
  let n := nat_of_ascii c in
  if ((65 <=? n) && (n <=? 90))%nat then ascii_of_nat (n + 32) else c.

Fixpoint ascii_lower (s : string) : string :=
  match s with
  | EmptyString => EmptyString
  | String c s' => String (ascii_lower_char c) (ascii_lower s')
  end.

(** * Properties *)

(** ** Comparisons and sorting *)

Lemma Qltb_lt (a b : Q) : Qltb a b = true <-> a < b.
Proof.
  unfold Qltb. rewrite Qlt_alt. destruct (a ?= b); split; congruence.
Qed.

Lemma Qltb_ge (a b : Q) : Qltb a b = false <-> b <= a.
Proof.
  unfold Qltb. rewrite Qle_alt.
  rewrite <- (Qcompare_antisym a b).
  destruct (a ?= b); simpl; split; congruence.
Qed.

Lemma Qleb_le (a b : Q) : Qleb a b = true <-> a <= b.
Proof.
  unfold Qleb. rewrite Qle_alt. destruct (a ?= b); split; congruence.
Qed.

Section SortFacts.
Context {A K : Type} (lt : K -> K -> bool) (key : A -> K).

Lemma insert_sorted_perm (x : A) (l : list A) :
  Permutation (insert_sorted lt key x l) (x :: l).
Proof.
  induction l as [|y l IH]; simpl.
  - apply Permutation_refl.
  - destruct (lt (key y) (key x)).
    + eapply Permutation_trans; [apply perm_skip, IH | apply perm_swap].
    + apply Permutation_refl.
Qed.

Lemma sort_by_perm (l : list A) : Permutation (sort_by lt key l) l.
Proof.
  induction l as [|x l IH]; simpl.
  - apply Permutation_refl.
  - eapply Permutation_trans; [apply insert_sorted_perm | apply perm_skip, IH].
Qed.

Lemma sort_by_In (x : A) (l : list A) : In x (sort_by lt key l) <-> In x l.
Proof.
  split; apply Permutation_in;
    [apply sort_by_perm | apply Permutation_sym, sort_by_perm].
Qed.

Lemma sort_by_length (l : list A) :
  List.length (sort_by lt key l) = List.length l.
Proof. apply Permutation_length, sort_by_perm. Qed.
End SortFacts.

Lemma Some_eq {A : Type} (a b : A) : Some a = Some b -> a = b.
Proof. congruence. Qed.

(** ** Dicts *)

Lemma dict_get_In {V : Type} (k : string) (v : V) (d : Dict V) :
  dict_get k d = Some v -> In (k, v) d.
Proof.
  induction d as [|[k' v'] d IH]; simpl; [discriminate|].
  destruct (String.eqb_spec k k') as [->|].
  - intros [= ->]. now left.
  - intros H. right. now apply IH.
Qed.

Lemma NoDup_keys_unique {V : Type} (d : Dict V) (k : string) (v v' : V) :
  NoDup (map fst d) -> In (k, v) d -> In (k, v') d -> v = v'.
Proof.
  induction d as [|[k0 v0] d IH]; simpl; [tauto|].
  intros Hnd [H1|H1] [H2|H2]; inversion Hnd as [|? ? Hnotin Hnd']; subst.
  - congruence.
  - inversion H1; subst. exfalso. apply Hnotin.
    apply (in_map fst) in H2. exact H2.
  - inversion H2; subst. exfalso. apply Hnotin.
    apply (in_map fst) in H1. exact H1.
  - now apply IH.
Qed.

(** ** Retrieval: blocking detection *)

Lemma half_open_overlap_iff (a la b lb : Q) :
  0 < la -> 0 < lb ->
  (half_open_overlap a (a + la) b (b + lb) <-> a < b + lb /\ b < a + la).
Proof.
  intros Hla Hlb. split.
  - intros (t & H1 & H2 & H3 & H4). split; lra.
  - intros [H1 H2]. destruct (Qlt_le_dec a b) as [Hab|Hab].
    + exists b. repeat split; lra.
    + exists a. repeat split; lra.
Qed.

Lemma blocks_spec (x y z tw td th ox oy oz ow od oh : Q) :
  0 < tw -> 0 < th -> 0 < ow -> 0 < oh ->
  (blocks (x, y, z) (tw, td, th) (ox, oy, oz) (ow, od, oh) = true
   <-> y <= oy
       /\ half_open_overlap ox (ox + ow) x (x + tw)
       /\ half_open_overlap oz (oz + oh) z (z + th)).
Proof.
  intros Htw Hth How Hoh. unfold blocks.
  rewrite !half_open_overlap_iff by assumption.
  destruct (Qltb oy y) eqn:Hy.
  - apply Qltb_lt in Hy. split; [discriminate|]. intros [H _]. lra.
  - apply Qltb_ge in Hy.
    rewrite andb_true_iff, !orb_true_iff, !andb_true_iff, !Qltb_lt.
    tauto.
Qed.

Lemma blocker_entry_itemId (impl : Space3DImpl) (sm : Space3D impl)
  (kv : string * Item.t) :
  Blocker.itemId (blocker_entry impl sm kv) = fst kv.
Proof.
  unfold blocker_entry.
  destruct (Item.location_position (snd kv)) as [[? ?] ?].
  destruct (Item.location_rotation (snd kv)) as [[? ?] ?].
  reflexivity.
Qed.

Lemma blocked_by_ids (impl : Space3DImpl) (target : Item.t)
  (container : Container.t) (position rotation : Triple)
  (items : Dict Item.t) (oid : string) :
  In oid (map Blocker.itemId
            (snd (_calculate_retrieval_complexity impl target container
                    position rotation items)))
  <-> exists other,
        In (oid, other) items
        /\ oid <> Item.itemId target
        /\ Item.location_container other
           = Some (Container.containerId container)
        /\ blocks position rotation (Item.location_position other)
                  (Item.location_rotation other) = true.
Proof.
  unfold _calculate_retrieval_complexity. cbn [snd].
  rewrite in_map_iff. split.
  - intros (b & Hid & Hb). apply sort_by_In in Hb.
    apply in_map_iff in Hb as ([k other] & <- & Hkv).
    rewrite blocker_entry_itemId in Hid. cbn [fst] in Hid. subst k.
    apply filter_In in Hkv as [Hkv Hblocks]. cbn [snd] in Hblocks.
    unfold container_items in Hkv. apply filter_In in Hkv as [Hin Hc].
    cbn [fst snd] in Hc. apply andb_true_iff in Hc as [Hne Hc].
    exists other. repeat split; try assumption.
    + intros ->. rewrite String.eqb_refl in Hne. discriminate.
    + unfold in_container in Hc.
      destruct (Item.location_container other) as [c|]; [|discriminate].
      apply String.eqb_eq in Hc. now subst.
  - intros (other & Hin & Hne & Hc & Hblocks).
    eexists. split.
    2:{ apply sort_by_In. apply in_map. apply filter_In. split.
        - unfold container_items. apply filter_In. split; [exact Hin|].
          cbn [fst snd]. apply andb_true_iff. split.
          + apply negb_true_iff. now apply String.eqb_neq.
          + unfold in_container. rewrite Hc. apply String.eqb_refl.
        - exact Hblocks. }
    apply blocker_entry_itemId.
Qed.

(** C2. Any other item of the target's container is reported in
    [blockedBy] exactly when its y is at least the target's y and its
    half-open x and z intervals both overlap the target's. The item dict
    has distinct keys and the rotated sizes along x and z are positive. *)
Theorem blocker_iff_not_before_and_xz_overlap
  (impl : Space3DImpl) (target : Item.t) (container : Container.t)
  (items : Dict Item.t) (oid : string) (other : Item.t)
  (x y z tw td th ox oy oz ow od oh : Q) :
  NoDup (map fst items) ->
  In (oid, other) items ->
  oid <> Item.itemId target ->
  Item.location_container other = Some (Container.containerId container) ->
  Item.location_position other = (ox, oy, oz) ->
  Item.location_rotation other = (ow, od, oh) ->
  0 < tw -> 0 < th -> 0 < ow -> 0 < oh ->
  (In oid (map Blocker.itemId
             (snd (_calculate_retrieval_complexity impl target container
                     (x, y, z) (tw, td, th) items)))
   <-> y <= oy
       /\ half_open_overlap ox (ox + ow) x (x + tw)
       /\ half_open_overlap oz (oz + oh) z (z + th)).
Proof.
  intros Hnd Hin Hne Hc Hpos Hrot Htw Hth How Hoh.
  rewrite blocked_by_ids.
  rewrite <- (blocks_spec x y z tw td th ox oy oz ow od oh) by assumption.
  split.
  - intros (other' & Hin' & _ & _ & Hb).
    assert (other' = other) as ->
      by exact (NoDup_keys_unique items oid other' other Hnd Hin' Hin).
    now rewrite <- Hpos, <- Hrot.
  - intros Hb. exists other. repeat split; try assumption.
    now rewrite Hpos, Hrot.
Qed.

Lemma blocker_iff_not_before_and_xz_overlap_witness :
  In "X" (map Blocker.itemId
            (snd (_calculate_retrieval_complexity grid_space S3_Y S3_C
                    (0, 0, 0) (20, 50, 20) S3_items)))
  <-> 0 <= 50
      /\ half_open_overlap 0 (0 + 20) 0 (0 + 20)
      /\ half_open_overlap 0 (0 + 20) 0 (0 + 20).
Proof.
  apply (blocker_iff_not_before_and_xz_overlap grid_space S3_Y S3_C S3_items
           "X" S3_X 0 0 0 20 50 20 0 50 0 20 20 20); try reflexivity.
  - repeat constructor; simpl; intuition discriminate.
  - simpl. left. reflexivity.
  - discriminate.
Defined.

(** C1. On scenario S3 the plan for X is the single step "retrieve X":
    Y lies at y = 0, in front of X at y = 50, and the test
    [other_y < y] skips it, so nothing is moved aside or back. This
    holds for every space model. *)
Theorem S3_plan_for_X_is_a_single_retrieve (impl : Space3DImpl) :
  get_retrieval_path impl insertion_order "X" S3_items S3_containers
  = Some (true,
          [RearrangementStep.mk 1 "retrieve" "X" (Some "C") None None],
          S3_items, S3_containers).
Proof. reflexivity. Qed.

(** ** Retrieval: not found *)

(** C9. When the id is not in the item dict, or the item has no
    [currentLocation], [retrieve_item] returns [False] with an empty
    step list and leaves both stores as they were. *)
Theorem retrieve_item_not_found
  (impl : Space3DImpl)
  (pair_set_order : list (string * string) -> list (string * string))
  (item_id user_id : string) (items : Dict Item.t)
  (containers : Dict Container.t) :
  dict_get item_id items = None
  \/ (exists item, dict_get item_id items = Some item
                   /\ Item.currentLocation item = None) ->
  retrieve_item impl pair_set_order item_id user_id items containers
  = Some (false, [], items, containers).
Proof.
  unfold retrieve_item. intros [Hnone | (item & Hsome & Hloc)].
  - now rewrite Hnone.
  - rewrite Hsome. unfold Item.location_container. now rewrite Hloc.
Qed.

Lemma retrieve_item_not_found_witness :
  retrieve_item grid_space insertion_order "Q" "crew" S3_items S3_containers
  = Some (false, [], S3_items, S3_containers).
Proof.
  apply (retrieve_item_not_found grid_space insertion_order "Q" "crew"
           S3_items S3_containers).
  left. reflexivity.
Defined.

(** ** Step ordinals *)

Section Numbering.
Context {S : Type} (step_of : S -> Z).

Lemma numbered_init : numbered step_of ([], 1%Z).
Proof. split; reflexivity. Qed.

Lemma emit_numbered (st : list S * Z) (mk : Z -> S) :
  (forall n, step_of (mk n) = n) ->
  numbered step_of st -> numbered step_of (emit st mk).
Proof.
  intros Hmk [Hcount Hsteps]. unfold emit, numbered. cbn [fst snd].
  rewrite length_app, map_app, Hsteps. cbn [List.length map].
  rewrite Hmk, Hcount, Nat.add_1_r. split.
  - lia.
  - rewrite seq_S, map_app. reflexivity.
Qed.

Lemma fold_left_numbered {B : Type} (f : list S * Z -> B -> list S * Z)
  (l : list B) (st : list S * Z) :
  (forall st b, numbered step_of st -> numbered step_of (f st b)) ->
  numbered step_of st -> numbered step_of (fold_left f l st).
Proof.
  intros Hf. revert st. induction l as [|b l IH]; simpl; auto.
Qed.

Lemma numbered_contiguous (st : list S * Z) :
  numbered step_of st -> contiguous_from_1 (map step_of (fst st)).
Proof.
  intros [_ H]. unfold contiguous_from_1. now rewrite length_map.
Qed.
End Numbering.

Lemma move_candidates_numbered (zone : string) (target_volume : Q)
  (containers : Dict Container.t) (candidates : list Candidate)
  (st : StepState) (moved_volume : Q) :
  numbered RearrangementStep.step st ->
  numbered RearrangementStep.step
    (fst (move_candidates zone target_volume containers candidates st
                          moved_volume)).
Proof.
  revert st moved_volume.
  induction candidates as [|c rest IH]; intros st mv Hst; simpl.
  - exact Hst.
  - destruct (Qleb target_volume mv); [exact Hst|].
    apply IH. apply emit_numbered; [reflexivity | exact Hst].
Qed.

Lemma rearrange_for_numbered (all_items : Dict Item.t)
  (containers : Dict Container.t) (st : StepState) (target_item : Item.t) :
  numbered RearrangementStep.step st ->
  numbered RearrangementStep.step
    (rearrange_for all_items containers st target_item).
Proof.
  intros Hst. unfold rearrange_for.
  match goal with
  | |- context [move_candidates ?z ?v ?c ?l ?s ?m] =>
      pose proof (move_candidates_numbered z v c l s m Hst) as Hmv;
      destruct (move_candidates z v c l s m) as [st' mv']
  end.
  cbn [fst] in Hmv.
  destruct (Qleb _ mv'); [|exact Hmv].
  destruct (filter _ containers); [exact Hmv|].
  apply emit_numbered; [reflexivity | exact Hmv].
Qed.

Lemma rearrangement_plan_contiguous (unplaced_items : list Item.t)
  (all_items : Dict Item.t) (containers : Dict Container.t) :
  contiguous_from_1
    (map RearrangementStep.step
         (_generate_rearrangement_plan unplaced_items all_items containers)).
Proof.
  unfold _generate_rearrangement_plan.
  apply numbered_contiguous, fold_left_numbered.
  - intros st b. apply rearrange_for_numbered.
  - apply numbered_init.
Qed.

Lemma move_blocking_items_steps (container : Container.t)
  (items : Dict Item.t) (blocked_by : list Blocker.t) :
  forall (n : nat) avail steps moved,
    move_blocking_items container items blocked_by (Z.of_nat n) avail
    = Some (steps, moved) ->
    map RearrangementStep.step steps
    = map Z.of_nat (seq n (List.length steps))
    /\ List.length steps = List.length blocked_by
    /\ List.length moved = List.length blocked_by.
Proof.
  induction blocked_by as [|info rest IH]; intros n avail steps moved; simpl.
  - intros [= <- <-]. repeat split.
  - destruct (dict_get (Blocker.itemId info) items); [|discriminate].
    destruct (choose_temp_container _ _ avail) as [best avail'].
    replace (Z.of_nat n + 1)%Z with (Z.of_nat (Datatypes.S n)) by lia.
    destruct (move_blocking_items container items rest _ avail')
      as [[steps' moved']|] eqn:Hrest; [|discriminate].
    intros [= <- <-]. apply IH in Hrest as (Hs & Hl & Hm).
    cbn [map List.length RearrangementStep.step seq].
    rewrite Hs, Hl, Hm. repeat split.
Qed.

Lemma move_back_steps (container : Container.t)
  (tuples : list (string * string)) :
  forall n : nat,
    map RearrangementStep.step (move_back container (Z.of_nat n) tuples)
    = map Z.of_nat (seq n (List.length tuples)).
Proof.
  induction tuples as [|[bid temp] rest IH]; intros n; simpl.
  - reflexivity.
  - replace (Z.of_nat n + 1)%Z with (Z.of_nat (Datatypes.S n)) by lia.
    now rewrite IH.
Qed.

Lemma move_back_length (container : Container.t)
  (tuples : list (string * string)) (n : Z) :
  List.length (move_back container n tuples) = List.length tuples.
Proof.
  revert n. induction tuples as [|[bid temp] rest IH]; intros n; simpl.
  - reflexivity.
  - now rewrite IH.
Qed.

Lemma retrieval_steps_contiguous (impl : Space3DImpl)
  (pair_set_order : list (string * string) -> list (string * string))
  (target_item : Item.t) (container : Container.t)
  (position rotation : Triple) (items : Dict Item.t)
  (containers : Dict Container.t) (steps : list RearrangementStep.t) :
  _generate_optimized_retrieval_steps impl pair_set_order target_item
    container position rotation items containers = Some steps ->
  contiguous_from_1 (map RearrangementStep.step steps).
Proof.
  unfold _generate_optimized_retrieval_steps.
  destruct (move_blocking_items _ _ _ _ _) as [[aside moved]|] eqn:Haside;
    [|discriminate].
  intros Hsteps%Some_eq. subst steps.
  apply (move_blocking_items_steps container items _ 1%nat) in Haside
    as (Hs & _ & _).
  unfold contiguous_from_1.
  rewrite !map_app, !length_app, !length_map, Hs. cbn [map List.length
    RearrangementStep.step].
  replace (1 + Z.of_nat (List.length aside) + 1)%Z
    with (Z.of_nat (2 + List.length aside)) by lia.
  rewrite move_back_steps, move_back_length.
  replace (1 + Z.of_nat (List.length aside))%Z
    with (Z.of_nat (1 + List.length aside)) by lia.
  rewrite !seq_app, !map_app. cbn [seq map].
  replace (1 + List.length aside + 1)%nat with (2 + List.length aside)%nat
    by lia.
  reflexivity.
Qed.

Lemma optimized_waste_return_steps_contiguous
  (waste_items : list WasteItem.t) :
  contiguous_from_1
    (map WasteReturnStep.step
         (_generate_optimized_waste_return_steps waste_items)).
Proof.
  unfold _generate_optimized_waste_return_steps.
  apply numbered_contiguous, fold_left_numbered.
  - intros st item Hst. destruct (truthy _); [exact Hst|].
    apply emit_numbered; [reflexivity | exact Hst].
  - apply fold_left_numbered; [|apply numbered_init].
    intros st [container_id group] Hst.
    apply fold_left_numbered; [|exact Hst].
    intros st' item Hst'. apply emit_numbered; [reflexivity | exact Hst'].
Qed.

Lemma waste_return_plan_contiguous
  (id_set_order : list string -> list string)
  (waste_items : list WasteItem.t) (max_weight : Q)
  (undocking_container_id : string) (steps : list WasteReturnStep.t) :
  generate_waste_return_plan id_set_order waste_items max_weight
                             undocking_container_id = Some steps ->
  contiguous_from_1 (map WasteReturnStep.step steps).
Proof.
  unfold generate_waste_return_plan.
  destruct waste_items as [|w ws].
  - intros H%Some_eq. subst steps. reflexivity.
  - destruct (select_items _ _) as [final|]; [|discriminate].
    intros H%Some_eq. subst steps.
    apply numbered_contiguous, fold_left_numbered.
    + intros st item_id Hst.
      destruct (dict_get item_id _) as [item|]; [|exact Hst].
      destruct (truthy _); [exact Hst|].
      apply emit_numbered; [reflexivity | exact Hst].
    + apply fold_left_numbered; [|apply numbered_init].
      intros st [container_id group] Hst.
      apply fold_left_numbered; [|exact Hst].
      intros st' item Hst'.
      apply emit_numbered; [reflexivity|].
      apply emit_numbered; [reflexivity | exact Hst'].
Qed.

(** C7. In a rearrangement plan, in a retrieval plan and in a
    waste-return plan the [step] fields, in list order, are 1, 2, ..., n
    for the n steps of the plan. *)
Theorem step_ordinals_contiguous :
  (forall unplaced_items all_items containers,
      contiguous_from_1
        (map RearrangementStep.step
             (_generate_rearrangement_plan unplaced_items all_items
                                           containers)))
  /\ (forall impl pair_set_order target_item container position rotation
             items containers steps,
         _generate_optimized_retrieval_steps impl pair_set_order target_item
           container position rotation items containers = Some steps ->
         contiguous_from_1 (map RearrangementStep.step steps))
  /\ (forall id_set_order waste_items max_weight undocking_container_id
             steps,
         generate_waste_return_plan id_set_order waste_items max_weight
                                    undocking_container_id = Some steps ->
         contiguous_from_1 (map WasteReturnStep.step steps)).
Proof.
  split; [|split].
  - apply rearrangement_plan_contiguous.
  - apply retrieval_steps_contiguous.
  - apply waste_return_plan_contiguous.
Qed.

Lemma step_ordinals_contiguous_witness :
  (exists steps,
      _generate_optimized_retrieval_steps grid_space insertion_order S3_Y
        S3_C (0, 0, 0) (20, 50, 20) S3_items S3_containers = Some steps
      /\ List.length steps = 3%nat
      /\ contiguous_from_1 (map RearrangementStep.step steps))
  /\ (exists steps,
         generate_waste_return_plan insertion_order S6_waste 40 "U"
         = Some steps
         /\ List.length steps = 4%nat
         /\ contiguous_from_1 (map WasteReturnStep.step steps)).
Proof.
  split.
  - eexists. split; [reflexivity|]. split; [reflexivity|].
    apply (proj1 (proj2 step_ordinals_contiguous) grid_space insertion_order
             S3_Y S3_C (0, 0, 0) (20, 50, 20) S3_items S3_containers).
    reflexivity.
  - eexists. split; [vm_compute; reflexivity|]. split; [reflexivity|].
    apply (proj2 (proj2 step_ordinals_contiguous) insertion_order S6_waste
             40 "U").
    vm_compute. reflexivity.
Defined.

(** ** The waste flag is never cleared *)

Lemma keeps_waste_refl (d : Dict Item.t) : keeps_waste d d.
Proof. intros k it Hget Hw. now exists it. Qed.

Lemma keeps_waste_trans (d1 d2 d3 : Dict Item.t) :
  keeps_waste d1 d2 -> keeps_waste d2 d3 -> keeps_waste d1 d3.
Proof.
  intros H12 H23 k it Hget Hw.
  destruct (H12 k it Hget Hw) as (it2 & Hget2 & Hw2).
  exact (H23 k it2 Hget2 Hw2).
Qed.

Lemma dict_get_update {V : Type} (k k' : string) (f : V -> V) (d : Dict V) :
  dict_get k' (dict_update k f d)
  = if String.eqb k k' then option_map f (dict_get k' d) else dict_get k' d.
Proof.
  induction d as [|[k0 v0] d IH]; simpl.
  - now destruct (String.eqb k k').
  - destruct (String.eqb_spec k k0) as [->|Hk0]; simpl.
    + destruct (String.eqb_spec k0 k') as [->|Hk'].
      * now rewrite String.eqb_refl.
      * apply String.eqb_neq in Hk'. rewrite String.eqb_sym in Hk'.
        now rewrite Hk'.
    + rewrite IH. destruct (String.eqb_spec k' k0) as [->|Hk'0].
      * apply String.eqb_neq in Hk0. now rewrite Hk0.
      * reflexivity.
Qed.

Lemma keeps_waste_update (k : string) (f : Item.t -> Item.t)
  (d : Dict Item.t) :
  flag_monotone f -> keeps_waste d (dict_update k f d).
Proof.
  intros Hf k' it Hget Hw. rewrite dict_get_update, Hget.
  destruct (String.eqb k k'); simpl; eauto.
Qed.

Lemma keeps_waste_map (g : string * Item.t -> string * Item.t)
  (d : Dict Item.t) :
  (forall kv, fst (g kv) = fst kv) ->
  (forall kv, Item.isWaste (snd kv) = true ->
              Item.isWaste (snd (g kv)) = true) ->
  keeps_waste d (map g d).
Proof.
  intros Hkey Hflag k it. induction d as [|[k0 v0] d IH]; simpl.
  - discriminate.
  - destruct (g (k0, v0)) as [k1 v1] eqn:Hg.
    pose proof (Hkey (k0, v0)) as Hk. rewrite Hg in Hk. cbn [fst] in Hk.
    subst k1.
    destruct (String.eqb k k0).
    + intros [= ->] Hw. exists v1. split; [reflexivity|].
      specialize (Hflag (k0, it) Hw). now rewrite Hg in Hflag.
    + exact IH.
Qed.

Lemma fold_left_keeps_waste {St B : Type} (proj : St -> Dict Item.t)
  (f : St -> B -> St) (l : list B) (st : St) :
  (forall st b, keeps_waste (proj st) (proj (f st b))) ->
  keeps_waste (proj st) (proj (fold_left f l st)).
Proof.
  intros Hf. revert st. induction l as [|b l IH]; intros st; simpl.
  - apply keeps_waste_refl.
  - eapply keeps_waste_trans; [apply Hf | apply IH].
Qed.

Lemma set_currentLocation_monotone (l : option Location.t) :
  flag_monotone (Item.set_currentLocation l).
Proof. intros it Hw. exact Hw. Qed.

Lemma use_item_monotone : flag_monotone use_item.
Proof.
  intros it Hw. unfold use_item.
  destruct (0 <? Item.usageLimit it)%Z; [|exact Hw].
  destruct (_ =? 0)%Z; [reflexivity | exact Hw].
Qed.

Lemma place_one_keeps_waste (impl : Space3DImpl)
  (st : PlacementState impl) (entry : string * Item.t) :
  keeps_waste (ps_items impl st) (ps_items impl (place_one impl st entry)).
Proof.
  unfold place_one. destruct entry as [key item].
  destruct (has_location item); [apply keeps_waste_refl|].
  destruct (fold_left _ _ None) as [b|]; [|apply keeps_waste_refl].
  destruct (best_rotation b) as [[w d] h].
  destruct (best_position b) as [[x y] z].
  cbn [ps_items]. apply keeps_waste_update, set_currentLocation_monotone.
Qed.

Lemma calculate_placement_keeps_waste (impl : Space3DImpl) (now : datetime)
  (items : Dict Item.t) (containers : Dict Container.t) :
  keeps_waste items
              (items_after (calculate_placement impl now items containers)).
Proof.
  unfold calculate_placement. cbn [items_after].
  match goal with
  | |- keeps_waste _ (ps_items _ (fold_left _ ?l ?st0)) =>
      apply (fold_left_keeps_waste (ps_items impl) (place_one impl) l st0)
  end.
  intros st e. apply place_one_keeps_waste.
Qed.

Lemma retrieve_item_keeps_waste (impl : Space3DImpl)
  (pair_set_order : list (string * string) -> list (string * string))
  (item_id user_id : string) (items : Dict Item.t)
  (containers : Dict Container.t) ok steps items' containers' :
  retrieve_item impl pair_set_order item_id user_id items containers
  = Some (ok, steps, items', containers') ->
  keeps_waste items items'.
Proof.
  unfold retrieve_item.
  destruct (dict_get item_id items) as [item|];
    [|intros [= _ _ <- _]; apply keeps_waste_refl].
  destruct (Item.location_container item) as [cid|];
    [|intros [= _ _ <- _]; apply keeps_waste_refl].
  destruct (dict_get cid containers) as [container|];
    [|intros [= _ _ <- _]; apply keeps_waste_refl].
  destruct (_generate_optimized_retrieval_steps _ _ _ _ _ _ _ _);
    [|discriminate].
  intros [= _ _ <- _]. apply keeps_waste_update.
  intros it Hw. apply set_currentLocation_monotone, use_item_monotone, Hw.
Qed.

Lemma get_retrieval_path_keeps_store (impl : Space3DImpl)
  (pair_set_order : list (string * string) -> list (string * string))
  (item_id : string) (items : Dict Item.t)
  (containers : Dict Container.t) ok steps items' containers' :
  get_retrieval_path impl pair_set_order item_id items containers
  = Some (ok, steps, items', containers') ->
  items' = items /\ containers' = containers.
Proof.
  unfold get_retrieval_path.
  destruct (dict_get item_id items) as [item|];
    [|intros [= _ _ <- <-]; now split].
  destruct (Item.location_container item) as [cid|];
    [|intros [= _ _ <- <-]; now split].
  destruct (dict_get cid containers) as [container|];
    [|intros [= _ _ <- <-]; now split].
  destruct (_generate_optimized_retrieval_steps _ _ _ _ _ _ _ _);
    [|discriminate].
  intros [= _ _ <- <-]. now split.
Qed.

Lemma identify_waste_items_keeps_waste (items : Dict Item.t)
  (containers : Dict Container.t) (current_date : datetime) :
  keeps_waste items
    (waste_items_after (identify_waste_items items containers current_date)).
Proof.
  unfold identify_waste_items. cbn [waste_items_after].
  apply keeps_waste_map.
  - intros kv. now destruct (waste_reason current_date (snd kv)).
  - intros kv Hw. now destruct (waste_reason current_date (snd kv)).
Qed.

Lemma simulate_days_keeps_waste (num_days : Z) (current_date : datetime)
  (items : Dict Item.t) :
  keeps_waste items (snd (fst (simulate_days num_days current_date items))).
Proof.
  unfold simulate_days. cbn [fst snd]. apply keeps_waste_map.
  - intros kv. now destruct (expires_in_window _ _ (snd kv)).
  - intros kv Hw. now destruct (expires_in_window _ _ (snd kv)).
Qed.

Lemma undock_one_keeps_waste (st : Dict Item.t * Dict Container.t)
  (item_id : string) :
  keeps_waste (fst st) (fst (undock_one st item_id)).
Proof.
  unfold undock_one. destruct st as [items containers].
  destruct (dict_get item_id items); cbn [fst].
  - apply keeps_waste_update, set_currentLocation_monotone.
  - apply keeps_waste_refl.
Qed.

Lemma complete_undocking_keeps_waste
  (id_set_order : list string -> list string)
  (waste_items : list WasteItem.t) (plan_steps : list WasteReturnStep.t)
  (items : Dict Item.t) (containers : Dict Container.t) :
  keeps_waste items
    (snd (fst (complete_undocking id_set_order waste_items plan_steps
                                  items containers))).
Proof.
  unfold complete_undocking.
  match goal with
  | |- context [fold_left undock_one ?l ?st0] =>
      pose proof (fold_left_keeps_waste fst undock_one l st0
                    undock_one_keeps_waste) as H
  end.
  destruct (fold_left undock_one _ _) as [items' containers'].
  exact H.
Qed.

Lemma core_step_keeps_waste (impl : Space3DImpl)
  (pair_set_order : list (string * string) -> list (string * string))
  (id_set_order : list string -> list string)
  (op : CoreOp) (s s' : Store) :
  core_step impl pair_set_order id_set_order op s = Some s' ->
  keeps_waste (store_items s) (store_items s').
Proof.
  destruct op; unfold core_step.
  - intros H%Some_eq. subst s'. apply calculate_placement_keeps_waste.
  - destruct (retrieve_item _ _ _ _ _ _) as [[[[ok steps] items'] cs']|]
      eqn:Hr; [|discriminate].
    intros [= <-]. cbn [store_items].
    eapply retrieve_item_keeps_waste. exact Hr.
  - destruct (get_retrieval_path _ _ _ _ _) as [[[[ok steps] items'] cs']|]
      eqn:Hr; [|discriminate].
    intros [= <-].
    apply get_retrieval_path_keeps_store in Hr as [-> _].
    apply keeps_waste_refl.
  - intros H%Some_eq. subst s'. apply identify_waste_items_keeps_waste.
  - destruct (generate_waste_return_plan _ _ _ _); [|discriminate].
    intros [= <-]. apply keeps_waste_refl.
  - pose proof (simulate_days_keeps_waste num_days (store_date s)
                  (store_items s)) as H.
    destruct (simulate_days _ _ _) as [[new_date updated] ws].
    intros [= <-]. exact H.
  - pose proof (complete_undocking_keeps_waste id_set_order waste_items
                  plan_steps (store_items s) (store_containers s)) as H.
    destruct (complete_undocking _ _ _ _ _) as [[n items'] cs'].
    intros [= <-]. exact H.
Qed.

Lemma core_run_keeps_waste (impl : Space3DImpl)
  (pair_set_order : list (string * string) -> list (string * string))
  (id_set_order : list string -> list string)
  (ops : list CoreOp) (s s' : Store) :
  core_run impl pair_set_order id_set_order ops s = Some s' ->
  keeps_waste (store_items s) (store_items s').
Proof.
  revert s. induction ops as [|op rest IH]; intros s; simpl.
  - intros [= <-]. apply keeps_waste_refl.
  - destruct (core_step _ _ _ op s) as [s1|] eqn:Hstep; [|discriminate].
    intros Hrun. eapply keeps_waste_trans.
    + exact (core_step_keeps_waste _ _ _ _ _ _ Hstep).
    + exact (IH s1 Hrun).
Qed.

(** C8. Along any sequence of core operations (placement, retrieval and
    its preview, waste identification, waste return planning, simulation,
    undock completion), an item whose [isWaste] flag is set stays in the
    item store with the flag set. *)
Theorem isWaste_never_cleared (impl : Space3DImpl)
  (pair_set_order : list (string * string) -> list (string * string))
  (id_set_order : list string -> list string)
  (ops : list CoreOp) (s s' : Store) (item_id : string) (item : Item.t) :
  core_run impl pair_set_order id_set_order ops s = Some s' ->
  dict_get item_id (store_items s) = Some item ->
  Item.isWaste item = true ->
  exists item',
    dict_get item_id (store_items s') = Some item'
    /\ Item.isWaste item' = true.
Proof.
  intros Hrun. exact (core_run_keeps_waste _ _ _ _ _ _ Hrun item_id item).
Qed.

Lemma isWaste_never_cleared_witness :
  exists s',
    core_run grid_space insertion_order insertion_order S8_ops S8_store
    = Some s'
    /\ exists item',
         dict_get "P" (store_items s') = Some item'
         /\ Item.isWaste item' = true.
Proof.
  eexists. split; [vm_compute; reflexivity|].
  eapply (isWaste_never_cleared grid_space insertion_order insertion_order
            S8_ops S8_store).
  - vm_compute. reflexivity.
  - reflexivity.
  - reflexivity.
Defined.

(** ** Waste identification *)

(** C3. An item with [usageLimit = 0] that is not flagged and whose
    expiry date parses and lies ten days ahead is not put on the waste
    list and keeps [isWaste = false]: the branch for items with an
    expiry date is taken, and the test of the usage limit sits in a later
    [elif] of the same chain. *)
Theorem used_up_item_with_later_expiry_is_not_identified :
  let r := identify_waste_items [("M", M_used_up)] [] 0%Z in
  Item.usageLimit M_used_up = 0%Z
  /\ waste_items_found r = []
  /\ waste_items_after r = [("M", M_used_up)].
Proof. vm_compute. repeat split. Qed.

(** The same item without an expiry date is identified. *)
Lemma used_up_item_without_expiry_is_identified :
  let r := identify_waste_items [("M", M_used_up_no_expiry)] [] 0%Z in
  map WasteItem.reason (waste_items_found r) = ["Out of Uses"]
  /\ map (fun kv => Item.isWaste (snd kv)) (waste_items_after r) = [true].
Proof. vm_compute. split; reflexivity. Qed.

(** ** Simulation *)

(** C4. On scenario S5 the simulate route saves U with [usageLimit = 0]
    but with [isWaste = false], and reports no usage-depleted item: the
    flag set on the record is overwritten from the item object, whose
    flag was never set, and the service only produces "Expired"
    entries. *)
Theorem S5_usage_depletion_is_not_flagged :
  let r := app_simulate_days 0%Z 0%Z None ["U"] [S5_U] in
  map Item.usageLimit (saved_items r) = [0%Z]
  /\ map Item.isWaste (saved_items r) = [false]
  /\ usageDepletedItems r = []
  /\ expiringItems r = [].
Proof. vm_compute. repeat split. Qed.

(** ** Retrieval: order of the moves back *)

(** C5. With two blockers and a set that iterates in the reverse of the
    insertion order, the moves back come in the same order as the moves
    aside (B2 then B1), not in the reverse order. *)
Theorem moves_back_follow_set_iteration_order :
  exists steps,
    get_retrieval_path grid_space reverse_insertion_order "T" S5_items
                       S5_containers
    = Some (true, steps, S5_items, S5_containers)
    /\ map (fun s => (RearrangementStep.action s, RearrangementStep.itemId s))
           steps
       = [ ("move", "B2"); ("move", "B1"); ("retrieve", "T");
           ("move", "B2"); ("move", "B1") ].
Proof. eexists. split; vm_compute; reflexivity. Qed.

(** With a set that iterates in insertion order the same plan restores
    in reverse order. *)
Lemma moves_back_reversed_under_insertion_order :
  exists steps,
    get_retrieval_path grid_space insertion_order "T" S5_items S5_containers
    = Some (true, steps, S5_items, S5_containers)
    /\ map (fun s => (RearrangementStep.action s, RearrangementStep.itemId s))
           steps
       = [ ("move", "B2"); ("move", "B1"); ("retrieve", "T");
           ("move", "B1"); ("move", "B2") ].
Proof. eexists. split; vm_compute; reflexivity. Qed.

(** ** Waste return: weight limit *)

(** C6. For two waste items of 1.009 kg and a limit of 2 kg the plan
    returns both: each counts as [int(100.9) = 100] against a capacity of
    200, while their masses add up to 2.018 kg. *)
Theorem heavy_pair_plan_exceeds_max_weight :
  exists steps,
    generate_waste_return_plan insertion_order heavy_pair 2 "U" = Some steps
    /\ map WasteReturnStep.itemId
           (filter (fun s => String.eqb (WasteReturnStep.action s) "place")
                   steps)
       = ["H1"; "H2"]
    /\ 2 < total_mass ["H1"; "H2"] heavy_pair.
Proof. eexists. split; [|split]; vm_compute; reflexivity. Qed.

(** ** Placement twice *)

(** C10. Two items of 8x8x8 and one container of 10x10x10: the first call
    places A and leaves B without a location; the second call, on the
    stores the first call left, starts from an empty space model again and
    places B at the corner that A occupies. *)
Theorem second_placement_call_places_leftover_item :
  let r1 := calculate_placement grid_space 0%Z twin_items small_container in
  let r2 := calculate_placement grid_space 0%Z (items_after r1)
                                (containers_after r1) in
  placements r1 = [ItemPlacement.mk "A" "C" (0, 0, 0) (8, 8, 8)]
  /\ rearrangements r1 = []
  /\ placements r2 = [ItemPlacement.mk "B" "C" (0, 0, 0) (8, 8, 8)].
Proof. vm_compute. repeat split. Qed.

(** Whatever the space model, a placement is only emitted for an item of
    the dict that had no location when the call started: items that have
    one are skipped. *)
Lemma fold_left_invariant_In {St B : Type} (P : St -> Prop)
  (f : St -> B -> St) (l : list B) (st : St) :
  (forall st b, In b l -> P st -> P (f st b)) ->
  P st -> P (fold_left f l st).
Proof.
  revert st. induction l as [|b l IH]; intros st Hf Hst; simpl.
  - exact Hst.
  - apply IH.
    + intros st' b' Hin. apply Hf. now right.
    + apply Hf; [now left | exact Hst].
Qed.

Lemma placements_only_for_unlocated_items (impl : Space3DImpl)
  (now : datetime) (items : Dict Item.t) (containers : Dict Container.t)
  (p : ItemPlacement.t) :
  In p (placements (calculate_placement impl now items containers)) ->
  exists key item,
    In (key, item) items
    /\ has_location item = false
    /\ ItemPlacement.itemId p = Item.itemId item.
Proof.
  unfold calculate_placement. cbn [placements]. revert p.
  match goal with
  | |- forall p, In p (ps_placements _ (fold_left _ ?l ?st0)) -> _ =>
      apply (fold_left_invariant_In
               (fun st => forall p, In p (ps_placements impl st) ->
                   exists key item,
                     In (key, item) items
                     /\ has_location item = false
                     /\ ItemPlacement.itemId p = Item.itemId item)
               (place_one impl) l st0)
  end.
  - intros st [key item] Hin Hst. apply sort_by_In in Hin.
    unfold place_one.
    destruct (has_location item) eqn:Hloc; [exact Hst|].
    destruct (fold_left _ _ None) as [b|]; [|exact Hst].
    destruct (best_rotation b) as [[w d] h].
    destruct (best_position b) as [[x y] z].
    cbn [ps_placements]. intros p Hp.
    apply in_app_or in Hp as [Hp | [<- | []]]; [now apply Hst|].
    exists key, item. repeat split; assumption.
  - intros p [].
Qed.

Lemma calculate_placement_nothing_to_place (impl : Space3DImpl)
  (now : datetime) (items : Dict Item.t) (containers : Dict Container.t) :
  (forall key item, In (key, item) items -> has_location item = true) ->
  placements (calculate_placement impl now items containers) = [].
Proof.
  intros Hall.
  destruct (placements (calculate_placement impl now items containers))
    as [|p ps] eqn:Hp; [reflexivity|].
  destruct (placements_only_for_unlocated_items impl now items containers p)
    as (key & item & Hin & Hloc & _).
  - rewrite Hp. now left.
  - rewrite (Hall key item Hin) in Hloc. discriminate.
Qed.

(** ** Waste return: what the knapsack does bound *)

Lemma str_mem_app (x : string) (s : list string) (id : string) :
  str_mem x (s ++ [id]) = str_mem x s || String.eqb x id.
Proof.
  unfold str_mem. rewrite existsb_app. simpl. now rewrite orb_false_r.
Qed.

Lemma scaled_total_cons (s : list string) (w0 : WasteItem.t)
  (ws : list WasteItem.t) :
  scaled_total s (w0 :: ws)
  = if str_mem (WasteItem.itemId w0) s
    then (scaled (WasteItem.mass w0) + scaled_total s ws)%Z
    else scaled_total s ws.
Proof.
  unfold scaled_total. simpl. now destruct (str_mem _ s).
Qed.

Lemma scaled_total_nil (waste_items : list WasteItem.t) :
  scaled_total [] waste_items = 0%Z.
Proof.
  induction waste_items as [|w0 ws IH]; [reflexivity|].
  now rewrite scaled_total_cons.
Qed.

Lemma scaled_total_add_absent (waste_items : list WasteItem.t)
  (s : list string) (id : string) :
  (forall w, In w waste_items -> WasteItem.itemId w <> id) ->
  scaled_total (s ++ [id]) waste_items = scaled_total s waste_items.
Proof.
  induction waste_items as [|w0 ws IH]; intros Hne.
  - reflexivity.
  - rewrite !scaled_total_cons, str_mem_app.
    assert (String.eqb (WasteItem.itemId w0) id = false) as ->
      by (apply String.eqb_neq, Hne; now left).
    rewrite orb_false_r, IH; [reflexivity|].
    intros w Hw. apply Hne. now right.
Qed.

Lemma scaled_total_add_present (waste_items : list WasteItem.t)
  (s : list string) (item : WasteItem.t) :
  NoDup (map WasteItem.itemId waste_items) ->
  In item waste_items ->
  str_mem (WasteItem.itemId item) s = false ->
  scaled_total (s ++ [WasteItem.itemId item]) waste_items
  = (scaled_total s waste_items + scaled (WasteItem.mass item))%Z.
Proof.
  induction waste_items as [|w0 ws IH]; intros Hnd Hin Hfresh; [easy|].
  inversion Hnd as [|? ? Hnotin Hnd']; subst.
  rewrite !scaled_total_cons, str_mem_app. destruct Hin as [-> | Hin].
  - rewrite Hfresh, String.eqb_refl. cbn [orb].
    rewrite scaled_total_add_absent; [lia|].
    intros w Hw Heq. apply Hnotin. rewrite <- Heq. now apply in_map.
  - assert (String.eqb (WasteItem.itemId w0) (WasteItem.itemId item) = false)
      as ->.
    { apply String.eqb_neq. intros Heq. apply Hnotin. rewrite Heq.
      now apply in_map. }
    rewrite orb_false_r, (IH Hnd' Hin Hfresh).
    destruct (str_mem (WasteItem.itemId w0) s); lia.
Qed.

Lemma scaled_total_set_add (waste_items : list WasteItem.t)
  (s : list string) (item : WasteItem.t) :
  NoDup (map WasteItem.itemId waste_items) ->
  In item waste_items ->
  (0 <= scaled (WasteItem.mass item))%Z ->
  (scaled_total (set_add String.eqb (WasteItem.itemId item) s) waste_items
   <= scaled_total s waste_items + scaled (WasteItem.mass item))%Z.
Proof.
  intros Hnd Hin Hpos. unfold set_add.
  destruct (existsb _ s) eqn:Hmem.
  - lia.
  - rewrite scaled_total_add_present by assumption. lia.
Qed.

Lemma length_list_set {A : Type} (n : nat) (x : A) (l : list A) :
  List.length (list_set n x l) = List.length l.
Proof.
  revert n. induction l as [|y l IH]; intros [|n]; simpl; auto.
Qed.

Lemma nth_list_set {A : Type} (n k : nat) (x d : A) (l : list A) :
  (n < List.length l)%nat ->
  nth k (list_set n x l) d = if Nat.eqb k n then x else nth k l d.
Proof.
  revert n k. induction l as [|y l IH]; intros n k Hn; simpl in Hn.
  - lia.
  - destruct n as [|n], k as [|k]; simpl; try reflexivity.
    apply IH. lia.
Qed.

Lemma dp_update_within (waste_items : list WasteItem.t) (n : nat)
  (values : Dict Q) (item : WasteItem.t) (m w : nat) (st : DpState) :
  NoDup (map WasteItem.itemId waste_items) ->
  In item waste_items ->
  scaled (WasteItem.mass item) = Z.of_nat m ->
  (m <= w <= n)%nat ->
  dp_within waste_items n st ->
  dp_within waste_items n (dp_update values item m st w).
Proof.
  intros Hnd Hin Hm Hw (Hdp & Hsel & Hinv). unfold dp_update.
  destruct st as [dp sel]. cbn [fst snd] in *.
  destruct (Qltb _ _); [|now repeat split].
  repeat split; cbn [fst snd].
  - now rewrite length_list_set.
  - now rewrite length_list_set.
  - intros w' Hw'. rewrite nth_list_set by lia.
    destruct (Nat.eqb_spec w' w) as [->|Hne]; [|now apply Hinv].
    eapply Z.le_trans; [apply scaled_total_set_add; try assumption; lia|].
    specialize (Hinv (w - m)%nat ltac:(lia)). lia.
Qed.

Lemma dp_item_within (waste_items : list WasteItem.t) (n : nat)
  (values : Dict Q) (item : WasteItem.t) (st : DpState) :
  NoDup (map WasteItem.itemId waste_items) ->
  In item waste_items ->
  dp_within waste_items n st ->
  dp_within waste_items n (dp_item values n st item).
Proof.
  intros Hnd Hin Hst. unfold dp_item.
  destruct (Z.leb_spec (scaled (WasteItem.mass item)) 0); [exact Hst|].
  apply fold_left_invariant_In; [|exact Hst].
  intros st' w Hw Hst'. apply dp_update_within; try assumption.
  - lia.
  - unfold weights_down in Hw. apply in_rev, in_seq in Hw. lia.
Qed.

Lemma find_max_value_weight_le (selected_items : list (list string))
  (w : nat) :
  (find_max_value_weight selected_items w <= w)%nat.
Proof.
  induction w as [|w IH]; simpl; [lia|].
  destruct (nth (S w) selected_items []); lia.
Qed.

(** The selection of the knapsack keeps the sum of the truncated weights
    [int(mass * 100)] within [int(max_weight * 100)], for waste items
    with distinct ids. *)
Lemma selected_scaled_weights_within_capacity
  (waste_items : list WasteItem.t) (max_weight : Q)
  (final_selected_items : list string) :
  NoDup (map WasteItem.itemId waste_items) ->
  select_items waste_items max_weight = Some final_selected_items ->
  (scaled_total final_selected_items waste_items <= scaled max_weight)%Z.
Proof.
  intros Hnd. unfold select_items.
  destruct (Z.ltb_spec (scaled max_weight) 0) as [|Hcap]; [discriminate|].
  intros H%Some_eq. subst final_selected_items.
  set (n := Z.to_nat (scaled max_weight)).
  match goal with
  | |- context [fold_left ?f waste_items ?st0] =>
      assert (dp_within waste_items n (fold_left f waste_items st0)) as Hfin
  end.
  { apply fold_left_invariant_In.
    - intros st item Hin Hst. now apply dp_item_within.
    - repeat split; cbn [fst snd]; try apply repeat_length.
      intros w Hw.
      replace (nth w (repeat [] (S n)) []) with (@nil string).
      + rewrite scaled_total_nil. lia.
      + symmetry. apply nth_repeat. }
  destruct Hfin as (_ & _ & Hinv).
  eapply Z.le_trans; [apply Hinv, find_max_value_weight_le|].
  pose proof (find_max_value_weight_le
                (snd (fold_left (dp_item (item_values waste_items) n)
                                waste_items
                                (repeat 0 (S n), repeat [] (S n)))) n).
  lia.
Qed.

(** ** Retrieval: shape of the plan *)

Lemma insert_sorted_ascending {A : Type} (key : A -> Z) (x : A)
  (l : list A) :
  StronglySorted (fun a b => (key a <= key b)%Z) l ->
  StronglySorted (fun a b => (key a <= key b)%Z)
                 (insert_sorted Z.ltb key x l).
Proof.
  induction 1 as [|y l Hsorted IH Hall]; simpl.
  - repeat constructor.
  - destruct (Z.ltb_spec (key y) (key x)) as [Hlt|Hge].
    + constructor; [exact IH|].
      eapply Permutation_Forall;
        [apply Permutation_sym, insert_sorted_perm|].
      constructor; [lia | exact Hall].
    + constructor; [now constructor|].
      constructor; [exact Hge|].
      eapply Forall_impl; [|exact Hall]. intros a Ha. simpl in Ha. lia.
Qed.

Lemma sort_by_ascending {A : Type} (key : A -> Z) (l : list A) :
  StronglySorted (fun a b => (key a <= key b)%Z) (sort_by Z.ltb key l).
Proof.
  induction l as [|x l IH]; simpl.
  - constructor.
  - now apply insert_sorted_ascending.
Qed.

(** The blockers come out in ascending order of their depth. *)
Lemma blocked_by_ascending_depth (impl : Space3DImpl) (target : Item.t)
  (container : Container.t) (position rotation : Triple)
  (items : Dict Item.t) :
  StronglySorted (fun a b => (Blocker.depth a <= Blocker.depth b)%Z)
    (snd (_calculate_retrieval_complexity impl target container position
                                          rotation items)).
Proof. apply sort_by_ascending. Qed.

Lemma move_blocking_items_shape (container : Container.t)
  (items : Dict Item.t) (blocked_by : list Blocker.t) :
  forall step_count avail steps moved,
    move_blocking_items container items blocked_by step_count avail
    = Some (steps, moved) ->
    map RearrangementStep.itemId steps = map Blocker.itemId blocked_by
    /\ map fst moved = map Blocker.itemId blocked_by
    /\ map RearrangementStep.toContainer steps
       = map (fun t => Some (snd t)) moved
    /\ Forall (fun s =>
                 RearrangementStep.action s = "move"
                 /\ RearrangementStep.fromContainer s
                    = Some (Container.containerId container))
              steps.
Proof.
  induction blocked_by as [|info rest IH];
    intros step_count avail steps moved; simpl.
  - intros [= <- <-]. repeat split. constructor.
  - destruct (dict_get (Blocker.itemId info) items); [|discriminate].
    destruct (choose_temp_container _ _ avail) as [best avail'].
    destruct (move_blocking_items container items rest _ avail')
      as [[steps' moved']|] eqn:Hrest; [|discriminate].
    intros [= <- <-]. apply IH in Hrest as (Hids & Hmoved & Hto & Hall).
    simpl. rewrite Hids, Hmoved, Hto. repeat split.
    constructor; [now split | exact Hall].
Qed.

Lemma move_back_shape (container : Container.t)
  (tuples : list (string * string)) (step_count : Z) :
  map (fun s => (RearrangementStep.itemId s,
                 RearrangementStep.fromContainer s))
      (move_back container step_count tuples)
  = map (fun t => (fst t, Some (snd t))) tuples
  /\ Forall (fun s =>
               RearrangementStep.action s = "move"
               /\ RearrangementStep.toContainer s
                  = Some (Container.containerId container))
            (move_back container step_count tuples).
Proof.
  revert step_count.
  induction tuples as [|[bid temp] rest IH]; intros step_count; simpl.
  - split; constructor.
  - destruct (IH (step_count + 1)%Z) as [Hmap Hall]. split.
    + now rewrite Hmap.
    + constructor; [now split | exact Hall].
Qed.

Lemma pair_eqb_eq (a b : string * string) : pair_eqb a b = true <-> a = b.
Proof.
  destruct a as [a1 a2], b as [b1 b2]. unfold pair_eqb. cbn [fst snd].
  rewrite andb_true_iff, !String.eqb_eq. split.
  - now intros [-> ->].
  - now intros [= -> ->].
Qed.

Lemma set_of_list_distinct (l : list (string * string)) :
  NoDup l -> set_of_list pair_eqb l = l.
Proof.
  unfold set_of_list. change l with ([] ++ l) at 1 3.
  generalize (@nil (string * string)) as acc.
  induction l as [|x l IH]; intros acc Hnd; simpl.
  - now rewrite app_nil_r.
  - unfold set_add at 2.
    assert (existsb (pair_eqb x) acc = false) as ->.
    { apply not_true_is_false. intros Hex.
      apply existsb_exists in Hex as (y & Hy & Heq).
      apply pair_eqb_eq in Heq. subst y.
      apply NoDup_remove_2 in Hnd. apply Hnd, in_or_app. now left. }
    replace (acc ++ x :: l) with ((acc ++ [x]) ++ l)
      by now rewrite <- app_assoc.
    apply IH. now rewrite <- app_assoc.
Qed.

Lemma blocked_by_ids_distinct (impl : Space3DImpl) (target : Item.t)
  (container : Container.t) (position rotation : Triple)
  (items : Dict Item.t) :
  NoDup (map fst items) ->
  NoDup (map Blocker.itemId
             (snd (_calculate_retrieval_complexity impl target container
                     position rotation items))).
Proof.
  intros Hnd. unfold _calculate_retrieval_complexity. cbn [snd].
  eapply Permutation_NoDup.
  { apply Permutation_map, Permutation_sym, sort_by_perm. }
  rewrite map_map.
  erewrite map_ext; [|intros kv; apply blocker_entry_itemId].
  unfold container_items.
  assert (forall (f : string * Item.t -> bool) (d : Dict Item.t),
             NoDup (map fst d) -> NoDup (map fst (filter f d))) as Hfilter.
  { intros f d. induction d as [|kv d IH]; simpl; [auto|].
    intros Hd. inversion Hd as [|? ? Hnotin Hd']; subst.
    destruct (f kv); simpl; [|now apply IH].
    constructor; [|now apply IH].
    intros Hin. apply Hnotin. apply in_map_iff in Hin as (kv' & <- & Hkv').
    apply in_map. now apply filter_In in Hkv'. }
  now apply Hfilter, Hfilter.
Qed.

Lemma moved_tuples_match_steps (aside : list RearrangementStep.t) :
  forall moved : list (string * string),
    map RearrangementStep.itemId aside = map fst moved ->
    map RearrangementStep.toContainer aside
    = map (fun t => Some (snd t)) moved ->
    map (fun t => (fst t, Some (snd t))) moved
    = map (fun s => (RearrangementStep.itemId s,
                     RearrangementStep.toContainer s)) aside.
Proof.
  induction aside as [|s aside IH]; intros [|t moved]; simpl;
    try discriminate; [reflexivity|].
  intros [= Hid Hids] [= Hto1 Hto]. rewrite Hid, Hto1. f_equal.
  now apply IH.
Qed.

(** The plan is the moves aside, in the order of [blockedBy], then the
    retrieve, then the moves back; if the set of moved tuples iterates in
    insertion order, the moves back are the moves aside in reverse. *)
Lemma retrieval_plan_under_insertion_order (impl : Space3DImpl)
  (target_item : Item.t) (container : Container.t)
  (position rotation : Triple) (items : Dict Item.t)
  (containers : Dict Container.t) (steps : list RearrangementStep.t) :
  NoDup (map fst items) ->
  _generate_optimized_retrieval_steps impl insertion_order target_item
    container position rotation items containers = Some steps ->
  exists aside back retrieve,
    steps = aside ++ [retrieve] ++ back
    /\ map RearrangementStep.itemId aside
       = map Blocker.itemId
             (snd (_calculate_retrieval_complexity impl target_item
                     container position rotation items))
    /\ RearrangementStep.action retrieve = "retrieve"
    /\ RearrangementStep.itemId retrieve = Item.itemId target_item
    /\ map (fun s => (RearrangementStep.itemId s,
                      RearrangementStep.fromContainer s)) back
       = rev (map (fun s => (RearrangementStep.itemId s,
                             RearrangementStep.toContainer s)) aside).
Proof.
  intros Hnd. unfold _generate_optimized_retrieval_steps.
  destruct (move_blocking_items _ _ _ _ _) as [[aside moved]|] eqn:Haside;
    [|discriminate].
  intros H%Some_eq. subst steps.
  apply move_blocking_items_shape in Haside as (Hids & Hmoved & Hto & _).
  do 3 eexists. split; [reflexivity|].
  split; [exact Hids|]. split; [reflexivity|]. split; [reflexivity|].
  rewrite (proj1 (move_back_shape _ _ _)).
  rewrite set_of_list_distinct.
  - unfold insertion_order. rewrite map_rev. f_equal.
    apply moved_tuples_match_steps; [congruence | exact Hto].
  - apply (NoDup_map_inv fst). rewrite Hmoved.
    now apply blocked_by_ids_distinct.
Qed.

(** ** The simulate route *)

(** X20. The route never reports a usage-depleted item: every entry
    built by the service has the reason "Expired". *)
Lemma simulate_route_reports_no_usage_depleted_item
  (CURRENT_DATE : datetime) (days : Z) (to_timestamp : option datetime)
  (items_to_use : list string) (items_list : list Item.t) :
  usageDepletedItems
    (app_simulate_days CURRENT_DATE days to_timestamp items_to_use
                       items_list) = [].
Proof.
  unfold app_simulate_days.
  destruct (fold_left use_one _ _) as [items_data items_list'].
  unfold simulate_days. cbn [usageDepletedItems].
  induction items_data as [|kv d IH]; simpl; [reflexivity|].
  destruct (expires_in_window _ _ (snd kv)); simpl; exact IH.
Qed.

Lemma In_dict_get {V : Type} (k : string) (v : V) (d : Dict V) :
  NoDup (map fst d) -> In (k, v) d -> dict_get k d = Some v.
Proof.
  induction d as [|[k0 v0] d IH]; simpl; [tauto|].
  intros Hnd Hin. inversion Hnd as [|? ? Hnotin Hnd']; subst.
  destruct Hin as [[= -> ->] | Hin].
  - now rewrite String.eqb_refl.
  - destruct (String.eqb_spec k k0) as [->|_]; [|now apply IH].
    exfalso. apply Hnotin. apply (in_map fst) in Hin. exact Hin.
Qed.

Lemma dict_set_fresh {V : Type} (k : string) (v : V) (d : Dict V) :
  ~ In k (map fst d) -> dict_set k v d = d ++ [(k, v)].
Proof.
  induction d as [|[k0 v0] d IH]; simpl; [reflexivity|].
  intros Hnotin. destruct (String.eqb_spec k k0) as [->|_].
  - exfalso. apply Hnotin. now left.
  - rewrite IH; [reflexivity|]. intros Hin. apply Hnotin. now right.
Qed.

Lemma map_fst_dict_update {V : Type} (k : string) (f : V -> V)
  (d : Dict V) :
  map fst (dict_update k f d) = map fst d.
Proof.
  induction d as [|[k0 v0] d IH]; simpl; [reflexivity|].
  destruct (String.eqb k k0); simpl; [reflexivity | now rewrite IH].
Qed.

Lemma items_dict_distinct (items_list : list Item.t) :
  NoDup (map Item.itemId items_list) ->
  items_dict items_list = map (fun r => (Item.itemId r, r)) items_list.
Proof.
  unfold items_dict.
  change (map (fun r => (Item.itemId r, r)) items_list)
    with ([] ++ map (fun r => (Item.itemId r, r)) items_list).
  assert (forall r, In r items_list ->
                    ~ In (Item.itemId r) (map fst (@nil (string * Item.t))))
    as Hfresh by (intros r _ []).
  revert Hfresh. generalize (@nil (string * Item.t)) as acc.
  induction items_list as [|r l IH]; intros acc Hfresh Hnd; simpl.
  - now rewrite app_nil_r.
  - inversion Hnd as [|? ? Hnotin Hnd']; subst.
    rewrite dict_set_fresh by (apply Hfresh; now left).
    rewrite IH; [now rewrite <- app_assoc | | exact Hnd'].
    intros r' Hr'. rewrite map_app, in_app_iff. simpl.
    intros [Hin | [Heq | []]].
    + revert Hin. apply Hfresh. now right.
    + apply Hnotin. rewrite Heq. now apply in_map.
Qed.

Lemma update_first_kept (orig l : list Item.t) (item_id : string)
  (f : Item.t -> Item.t) :
  Forall2 record_kept orig l ->
  (forall r', Item.itemId (f r') = Item.itemId r') ->
  (forall r r',
      In r orig -> record_kept r r' -> Item.itemId r' = item_id ->
      Item.isWaste r = true -> Item.isWaste (f r') = true) ->
  Forall2 record_kept orig (update_first item_id f l).
Proof.
  intros Hkept Hid Hflag.
  induction Hkept as [|r r' orig l Hr Hrest IH]; simpl; [constructor|].
  destruct (String.eqb_spec (Item.itemId r') item_id) as [Heq|_].
  - constructor; [|exact Hrest]. split.
    + rewrite Hid. apply Hr.
    + intros Hw. apply (Hflag r r'); auto. now left.
  - constructor; [exact Hr|]. apply IH.
    intros r0 r0' Hin. apply Hflag. now right.
Qed.

Lemma use_one_invariant (orig : list Item.t) (d0 : Dict Item.t)
  (st : Dict Item.t * list Item.t) (item_id : string) :
  keeps_waste d0 (fst st) /\ map fst (fst st) = map fst d0
  /\ Forall2 record_kept orig (snd st) ->
  keeps_waste d0 (fst (use_one st item_id))
  /\ map fst (fst (use_one st item_id)) = map fst d0
  /\ Forall2 record_kept orig (snd (use_one st item_id)).
Proof.
  destruct st as [d l]. cbn [fst snd]. intros (Hkw & Hkeys & Hkept).
  unfold use_one. destruct (dict_get item_id d) as [item|];
    [|now repeat split].
  destruct (0 <? Item.usageLimit item)%Z; [|now repeat split].
  cbn [fst snd]. repeat split.
  - eapply keeps_waste_trans; [exact Hkw|].
    apply keeps_waste_update. intros it Hw. exact Hw.
  - now rewrite map_fst_dict_update.
  - apply update_first_kept; [exact Hkept | |].
    + intros r'. now destruct (_ <=? 0)%Z.
    + intros r r' _ [_ Hr] _ Hw. specialize (Hr Hw).
      destruct (_ <=? 0)%Z; [reflexivity | exact Hr].
Qed.

(** X19. For an item file with distinct ids, the simulate route saves
    every record under the same id, and a record that was flagged is
    saved flagged. *)
Lemma simulate_route_keeps_waste
  (CURRENT_DATE : datetime) (days : Z) (to_timestamp : option datetime)
  (items_to_use : list string) (items_list : list Item.t) :
  NoDup (map Item.itemId items_list) ->
  Forall2 record_kept items_list
    (saved_items
       (app_simulate_days CURRENT_DATE days to_timestamp items_to_use
                          items_list)).
Proof.
  intros Hnd. unfold app_simulate_days.
  assert (Forall2 record_kept items_list items_list) as Hrefl.
  { clear. induction items_list; constructor; [now split | assumption]. }
  pose proof (fold_left_invariant_In
                (fun st =>
                   keeps_waste (items_dict items_list) (fst st)
                   /\ map fst (fst st) = map fst (items_dict items_list)
                   /\ Forall2 record_kept items_list (snd st))
                use_one items_to_use (items_dict items_list, items_list)
                (fun st b _ => use_one_invariant _ _ st b)
                (conj (keeps_waste_refl _) (conj eq_refl Hrefl)))
    as (Hkw & Hkeys & Hkept).
  destruct (fold_left use_one _ _) as [items_data items_list1].
  cbn [fst snd] in Hkw, Hkeys, Hkept.
  set (n := match to_timestamp with Some _ => _ | None => _ end).
  pose proof (simulate_days_keeps_waste n CURRENT_DATE items_data) as Hsim.
  assert (map fst (snd (fst (simulate_days n CURRENT_DATE items_data)))
          = map fst items_data) as Hsimkeys.
  { unfold simulate_days. cbn [fst snd]. rewrite map_map.
    apply map_ext. intros kv. now destruct (expires_in_window _ _ _). }
  destruct (simulate_days n CURRENT_DATE items_data)
    as [[new_date updated] ws].
  cbn [fst snd saved_items] in *.
  assert (NoDup (map fst updated)) as Hupd.
  { rewrite Hsimkeys, Hkeys, items_dict_distinct by exact Hnd.
    rewrite map_map. exact Hnd. }
  apply fold_left_invariant_In; [|exact Hkept].
  intros l [k item] Hin Hl. cbn [fst snd].
  apply update_first_kept; [exact Hl | reflexivity |].
  intros r r' Hr [Hid _] Hk Hw. cbn [Item.isWaste Item.set_isWaste].
  assert (dict_get (Item.itemId r) (items_dict items_list) = Some r) as Hget.
  { rewrite items_dict_distinct by exact Hnd. apply In_dict_get.
    - rewrite map_map. exact Hnd.
    - apply in_map_iff. now exists r. }
  destruct (Hkw _ _ Hget Hw) as (it1 & Hget1 & Hw1).
  destruct (Hsim _ _ Hget1 Hw1) as (it2 & Hget2 & Hw2).
  rewrite <- Hid, Hk in Hget2.
  rewrite (In_dict_get k item updated Hupd Hin) in Hget2.
  now injection Hget2 as ->.
Qed.

(** * Further properties of the services *)

(** ** models/container.py *)

Lemma str_mem_In (k : string) (l : list string) :
  str_mem k l = true <-> In k l.
Proof.
  unfold str_mem. rewrite existsb_exists. split.
  - intros (x & Hx & Heq). apply String.eqb_eq in Heq. now subst.
  - intros Hin. exists k. split; [exact Hin | apply String.eqb_refl].
Qed.


Lemma list_remove_In (k x : string) (l : list string) :
  In x (list_remove k l) -> In x l.
Proof.
  induction l as [|y l IH]; simpl; [tauto|].
  destruct (String.eqb k y); simpl; intuition.
Qed.

Lemma list_remove_NoDup (k : string) (l : list string) :
  NoDup l -> NoDup (list_remove k l) /\ ~ In k (list_remove k l).
Proof.
  induction 1 as [|y l Hnotin Hnd IH]; simpl.
  - split; [constructor | tauto].
  - destruct (String.eqb_spec k y) as [->|Hne].
    + split; assumption.
    + destruct IH as [IH1 IH2]. split.
      * constructor; [|exact IH1]. intros Hin. apply Hnotin.
        now apply list_remove_In in Hin.
      * intros [Heq | Hin]; [now apply Hne | now apply IH2].
Qed.



Lemma add_item_sound (item_id : string) (volume : Q) (c : Container.t) :
  0 <= volume ->
  container_sound c ->
  container_sound (fst (Container.add_item item_id volume c))
  /\ same_box c (fst (Container.add_item item_id volume c)).
Proof.
  intros Hvol (Hocc & Hcap & Hnd). unfold Container.add_item.
  destruct (Qltb _ volume) eqn:Hlt; cbn [fst].
  - now repeat split.
  - apply Qltb_ge in Hlt. unfold Container.get_available_space in Hlt.
    repeat split; cbn; try lra.
    destruct (str_mem item_id (Container.items c)) eqn:Hmem; [exact Hnd|].
    apply NoDup_app; [exact Hnd | repeat constructor; tauto |].
    intros x Hx [<- | []]. apply str_mem_In in Hx. congruence.
Qed.

Lemma remove_item_sound (item_id : string) (volume : Q) (c : Container.t) :
  0 <= volume ->
  container_sound c ->
  container_sound (Container.remove_item item_id volume c)
  /\ same_box c (Container.remove_item item_id volume c)
  /\ ~ In item_id (Container.items (Container.remove_item item_id volume c)).
Proof.
  intros Hvol (Hocc & Hcap & Hnd). unfold Container.remove_item.
  repeat split; cbn.
  - unfold py_max. destruct (Qltb 0 _) eqn:Hpos.
    + apply Qltb_lt in Hpos. lra.
    + lra.
  - unfold py_max. destruct (Qltb 0 _) eqn:Hpos; lra.
  - destruct (str_mem item_id (Container.items c)); [|exact Hnd].
    now apply list_remove_NoDup.
  - destruct (str_mem item_id (Container.items c)) eqn:Hmem.
    + now apply list_remove_NoDup.
    + intros Hin. apply str_mem_In in Hin. congruence.
Qed.

(** X2. [add_item] and [remove_item] keep the bookkeeping of a container
    sound for a volume that is not negative: the occupied volume stays
    between 0 and the capacity ([add_item] refuses what does not fit,
    [remove_item] stops at 0), no id gets listed twice, the removed id is
    gone, and the box itself is unchanged. *)
Theorem container_operations_keep_bookkeeping_sound
  (item_id : string) (volume : Q) (c : Container.t) :
  0 <= volume ->
  container_sound c ->
  container_sound (fst (Container.add_item item_id volume c))
  /\ same_box c (fst (Container.add_item item_id volume c))
  /\ container_sound (Container.remove_item item_id volume c)
  /\ same_box c (Container.remove_item item_id volume c)
  /\ ~ In item_id (Container.items (Container.remove_item item_id volume c)).
Proof.
  intros Hvol Hsound.
  destruct (add_item_sound item_id volume c Hvol Hsound) as [Ha1 Ha2].
  destruct (remove_item_sound item_id volume c Hvol Hsound)
    as (Hr1 & Hr2 & Hr3).
  repeat split; try apply Ha1; try apply Ha2; try apply Hr1;
    try apply Hr2; exact Hr3.
Qed.

Lemma container_operations_keep_bookkeeping_sound_witness :
  let c := Container.mk "C" "Z" 10 10 10 100 ["A"] in
  container_sound (fst (Container.add_item "A" 500 c))
  /\ same_box c (fst (Container.add_item "A" 500 c))
  /\ container_sound (Container.remove_item "A" 500 c)
  /\ same_box c (Container.remove_item "A" 500 c)
  /\ ~ In "A" (Container.items (Container.remove_item "A" 500 c)).
Proof.
  apply (container_operations_keep_bookkeeping_sound "A" 500
           (Container.mk "C" "Z" 10 10 10 100 ["A"])).
  - vm_compute. discriminate.
  - repeat split; try (vm_compute; discriminate).
    repeat constructor. simpl. tauto.
Defined.

(** ** models/item.py *)

(** X3. The rotations offered for an item are exactly the orderings of
    its three dimensions: a triple is in [get_all_rotations] if and only
    if it is a permutation of (width, depth, height). *)
Theorem rotations_are_the_permutations_of_the_dimensions
  (item : Item.t) (a b c : Q) :
  In (a, b, c) (Item.get_all_rotations item)
  <-> Permutation [a; b; c]
                  [Item.width item; Item.depth item; Item.height item].
Proof.
  unfold Item.get_all_rotations.
  set (w := Item.width item). set (d := Item.depth item).
  set (h := Item.height item). split.
  - simpl. intros [H|[H|[H|[H|[H|[H|[]]]]]]]; injection H as <- <- <-.
    + apply Permutation_refl.
    + apply perm_skip, perm_swap.
    + apply perm_swap.
    + apply Permutation_sym, (Permutation_cons_append [d; h] w).
    + apply (Permutation_cons_append [w; d] h).
    + eapply perm_trans; [apply (Permutation_cons_append [d; w] h)|].
      apply perm_swap.
  - intros Hperm.
    assert (In a [w; d; h]) as Ha
      by (eapply Permutation_in; [exact Hperm | now left]).
    simpl in Ha. destruct Ha as [<-|[<-|[<-|[]]]].
    + apply Permutation_cons_inv in Hperm.
      apply Permutation_length_2_inv in Hperm as [H|H];
        injection H as -> ->; simpl; tauto.
    + assert (Permutation [b; c] [w; h]) as H2.
      { apply (Permutation_cons_inv (a := d)).
        eapply perm_trans; [exact Hperm | apply perm_swap]. }
      apply Permutation_length_2_inv in H2 as [H|H];
        injection H as -> ->; simpl; tauto.
    + assert (Permutation [b; c] [w; d]) as H2.
      { apply (Permutation_cons_inv (a := h)).
        eapply perm_trans; [exact Hperm|].
        eapply perm_trans; [apply perm_skip, perm_swap | apply perm_swap]. }
      apply Permutation_length_2_inv in H2 as [H|H];
        injection H as -> ->; simpl; tauto.
Qed.


Lemma py_min_spec (a b : Q) : py_min a b <= a /\ py_min a b <= b
                              /\ (py_min a b == a \/ py_min a b == b).
Proof.
  unfold py_min. destruct (Qltb b a) eqn:H.
  - apply Qltb_lt in H. repeat split; first [lra | now right].
  - apply Qltb_ge in H. repeat split; first [lra | now left].
Qed.

(** X4. For a priority of at most 130 the effective priority lies
    between the priority and 130, and the boosts add at most 32 (20 for
    an expired item and 12 for a single remaining use). *)
Theorem effective_priority_bounds (current_date : datetime) (item : Item.t) :
  (Item.priority item <= 130)%Z ->
  let p := fst (get_effective_priority current_date item) in
  inject_Z (Item.priority item) <= p
  /\ p <= 130
  /\ p <= inject_Z (Item.priority item) + 32.
Proof.
  intros Hprio. unfold get_effective_priority.
  assert (inject_Z (Item.priority item) <= 130) as Hq.
  { change 130 with (inject_Z 130). now rewrite <- Zle_Qle. }
  set (base := inject_Z (Item.priority item)) in *.
  assert (exists b1 it1,
             (match Item.expiryDate item with
              | IsoDate expiry_date =>
                  if (timedelta_days (expiry_date - current_date) <=? 0)%Z
                  then (base + 20, Item.set_isWaste true item)
                  else if (timedelta_days (expiry_date - current_date)
                           <? 30)%Z
                       then (base + inject_Z
                               (30 - timedelta_days
                                       (expiry_date - current_date)) / 3,
                             item)
                       else (base, item)
              | NA | Unparseable => (base, item)
              end) = (b1, it1)
             /\ base <= b1 /\ b1 <= base + 20
             /\ Item.usageLimit it1 = Item.usageLimit item)
    as (b1 & it1 & -> & Hlo1 & Hhi1 & Hu).
  { destruct (Item.expiryDate item) as [|e|].
    - exists base, item. repeat split; lra.
    - destruct (Z.leb_spec (timedelta_days (e - current_date)) 0).
      + do 2 eexists. repeat split; lra.
      + destruct (Z.ltb_spec (timedelta_days (e - current_date)) 30).
        * do 2 eexists. split; [reflexivity|].
          set (k := (30 - timedelta_days (e - current_date))%Z).
          assert (0 <= inject_Z k /\ inject_Z k <= 30) as [Hk0 Hk30].
          { change 0 with (inject_Z 0). change 30 with (inject_Z 30).
            rewrite <- !Zle_Qle. subst k. lia. }
          repeat split; try reflexivity.
          -- assert (0 <= inject_Z k / 3) by (apply Qle_shift_div_l; lra).
             lra.
          -- assert (inject_Z k / 3 <= 10)
               by (apply Qle_shift_div_r; lra).
             lra.
        * exists base, item. repeat split; lra.
    - exists base, item. repeat split; lra. }
  rewrite Hu.
  assert (exists b2 it2,
             (if ((Item.usageLimit item <=? 5)%Z
                  && (0 <? Item.usageLimit item)%Z)%bool
              then (b1 + inject_Z ((5 - Item.usageLimit item) * 3), it1)
              else if (Item.usageLimit item =? 0)%Z
                   then (b1 + 10, Item.set_isWaste true it1)
                   else (b1, it1)) = (b2, it2)
             /\ b1 <= b2 /\ b2 <= b1 + 12)
    as (b2 & it2 & -> & Hlo2 & Hhi2).
  { destruct (Z.leb_spec (Item.usageLimit item) 5);
      destruct (Z.ltb_spec 0 (Item.usageLimit item)); cbn [andb].
    - do 2 eexists. split; [reflexivity|].
      set (k := ((5 - Item.usageLimit item) * 3)%Z).
      assert (0 <= inject_Z k /\ inject_Z k <= 12) as [Hk0 Hk12].
      { change 0 with (inject_Z 0). change 12 with (inject_Z 12).
        rewrite <- !Zle_Qle. subst k. lia. }
      split; lra.
    - destruct (_ =? 0)%Z; do 2 eexists; (split; [reflexivity|]); split; lra.
    - destruct (_ =? 0)%Z; do 2 eexists; (split; [reflexivity|]); split; lra.
    - destruct (_ =? 0)%Z; do 2 eexists; (split; [reflexivity|]); split; lra.
  }
  cbn [fst].
  destruct (py_min_spec b2 130) as (Hm1 & Hm2 & [Hm | Hm]);
    repeat split; lra.
Qed.

Lemma effective_priority_bounds_witness :
  let item := mk_item "E" 10 10 10 2 95 (IsoDate 0) 1 "Z" false None in
  let p := fst (get_effective_priority 0%Z item) in
  inject_Z (Item.priority item) <= p
  /\ p <= 130
  /\ p <= inject_Z (Item.priority item) + 32.
Proof.
  apply (effective_priority_bounds 0%Z
           (mk_item "E" 10 10 10 2 95 (IsoDate 0) 1 "Z" false None)).
  vm_compute. discriminate.
Defined.


(** ** services/retrieval.py *)

Lemma In_keys_dict_get {V : Type} (k : string) (d : Dict V) :
  In k (map fst d) -> exists v, dict_get k d = Some v.
Proof.
  induction d as [|[k0 v0] d IH]; simpl; [tauto|].
  intros [-> | Hin].
  - rewrite String.eqb_refl. now exists v0.
  - destruct (String.eqb k k0); [now exists v0 | now apply IH].
Qed.

Lemma move_blocking_items_defined (container : Container.t)
  (items : Dict Item.t) (blocked_by : list Blocker.t) :
  (forall b, In b blocked_by -> In (Blocker.itemId b) (map fst items)) ->
  forall step_count avail,
    exists r,
      move_blocking_items container items blocked_by step_count avail
      = Some r.
Proof.
  induction blocked_by as [|info rest IH]; intros Hkeys step_count avail;
    simpl.
  - now eexists.
  - destruct (In_keys_dict_get (Blocker.itemId info) items) as [it ->];
      [apply Hkeys; now left|].
    destruct (choose_temp_container _ _ avail) as [best avail'].
    destruct (IH (fun b Hb => Hkeys b (or_intror Hb)) (step_count + 1)%Z
                 avail') as [[steps moved] ->].
    now eexists.
Qed.

Lemma retrieval_steps_defined (impl : Space3DImpl)
  (pair_set_order : list (string * string) -> list (string * string))
  (target_item : Item.t) (container : Container.t)
  (position rotation : Triple) (items : Dict Item.t)
  (containers : Dict Container.t) :
  exists steps,
    _generate_optimized_retrieval_steps impl pair_set_order target_item
      container position rotation items containers = Some steps.
Proof.
  unfold _generate_optimized_retrieval_steps.
  destruct (move_blocking_items_defined container items
              (snd (_calculate_retrieval_complexity impl target_item
                      container position rotation items)))
    with (step_count := 1%Z)
         (avail := available_containers container containers)
    as [[steps moved] ->].
  - intros b Hb.
    assert (In (Blocker.itemId b)
               (map Blocker.itemId
                    (snd (_calculate_retrieval_complexity impl target_item
                            container position rotation items)))) as Hid
      by now apply in_map.
    apply blocked_by_ids in Hid as (other & Hin & _).
    apply (in_map fst) in Hin. exact Hin.
  - now eexists.
Qed.

(** X6. Retrieval never fails on a blocker id, and the preview shows the
    plan that the retrieval executes: for every id and every stores,
    [retrieve_item] and [get_retrieval_path] both return, with the same
    success flag and the same steps, and the preview leaves the stores
    as they are. *)
Theorem preview_shows_the_plan_of_the_retrieval (impl : Space3DImpl)
  (pair_set_order : list (string * string) -> list (string * string))
  (item_id user_id : string) (items : Dict Item.t)
  (containers : Dict Container.t) :
  exists ok steps items' containers',
    retrieve_item impl pair_set_order item_id user_id items containers
    = Some (ok, steps, items', containers')
    /\ get_retrieval_path impl pair_set_order item_id items containers
       = Some (ok, steps, items, containers).
Proof.
  unfold retrieve_item, get_retrieval_path.
  destruct (dict_get item_id items) as [item|]; [|now do 4 eexists].
  destruct (Item.location_container item) as [cid|]; [|now do 4 eexists].
  destruct (dict_get cid containers) as [container|]; [|now do 4 eexists].
  destruct (retrieval_steps_defined impl pair_set_order item container
              (Item.location_position item) (Item.location_rotation item)
              items containers) as [steps ->].
  now do 4 eexists.
Qed.

(** X7. A successful retrieval takes one use off the item if it has any
    left, flags it when that was the last use, clears its location and
    takes it off its container with its volume; no other item or
    container changes, and retrieving the same id again finds
    nothing. *)
Theorem retrieve_item_effects (impl : Space3DImpl)
  (pair_set_order : list (string * string) -> list (string * string))
  (item_id user_id : string) (items items' : Dict Item.t)
  (containers containers' : Dict Container.t)
  (steps : list RearrangementStep.t) :
  retrieve_item impl pair_set_order item_id user_id items containers
  = Some (true, steps, items', containers') ->
  exists item container_id container,
    dict_get item_id items = Some item
    /\ Item.location_container item = Some container_id
    /\ dict_get container_id containers = Some container
    /\ dict_get item_id items'
       = Some (Item.set_currentLocation None
                 (if (0 <? Item.usageLimit item)%Z
                  then Item.set_isWaste
                         (Item.isWaste item || (Item.usageLimit item =? 1)%Z)
                         (Item.set_usageLimit (Item.usageLimit item - 1)
                                              item)
                  else item))
    /\ dict_get container_id containers'
       = Some (Container.remove_item item_id (Item.get_volume item)
                                     container)
    /\ (forall k, k <> item_id -> dict_get k items' = dict_get k items)
    /\ (forall k, k <> container_id ->
                  dict_get k containers' = dict_get k containers)
    /\ retrieve_item impl pair_set_order item_id user_id items' containers'
       = Some (false, [], items', containers').
Proof.
  unfold retrieve_item at 1.
  destruct (dict_get item_id items) as [item|] eqn:Hitem; [|discriminate].
  destruct (Item.location_container item) as [cid|] eqn:Hloc;
    [|discriminate].
  destruct (dict_get cid containers) as [container|] eqn:Hcont;
    [|discriminate].
  destruct (_generate_optimized_retrieval_steps _ _ _ _ _ _ _ _);
    [|discriminate].
  intros H%Some_eq. injection H as _ <- <-.
  assert (dict_get item_id
            (dict_update item_id
               (fun it => Item.set_currentLocation None (use_item it)) items)
          = Some (Item.set_currentLocation None (use_item item))) as Hget.
  { now rewrite dict_get_update, String.eqb_refl, Hitem. }
  exists item, cid, container. repeat split; try assumption.
  - rewrite Hget. f_equal. f_equal. unfold use_item.
    destruct (0 <? Item.usageLimit item)%Z; [|reflexivity].
    cbn [Item.usageLimit Item.set_usageLimit].
    replace (Item.usageLimit item - 1 =? 0)%Z
      with (Item.usageLimit item =? 1)%Z
      by (destruct (Z.eqb_spec (Item.usageLimit item) 1);
          destruct (Z.eqb_spec (Item.usageLimit item - 1) 0); lia).
    destruct (_ =? 1)%Z.
    + now rewrite orb_true_r.
    + rewrite orb_false_r. now destruct item.
  - now rewrite dict_get_update, String.eqb_refl, Hcont.
  - intros k Hk. rewrite dict_get_update.
    destruct (String.eqb_spec item_id k); [congruence | reflexivity].
  - intros k Hk. rewrite dict_get_update.
    destruct (String.eqb_spec cid k); [congruence | reflexivity].
  - unfold retrieve_item. rewrite Hget. reflexivity.
Qed.

Lemma retrieve_item_effects_witness :
  exists steps items' containers',
    retrieve_item grid_space insertion_order "Y" "crew" S3_items
                  S3_containers
    = Some (true, steps, items', containers')
    /\ exists item container_id container,
         dict_get "Y" S3_items = Some item
         /\ Item.location_container item = Some container_id
         /\ dict_get container_id S3_containers = Some container
         /\ dict_get "Y" items'
            = Some (Item.set_currentLocation None
                      (if (0 <? Item.usageLimit item)%Z
                       then Item.set_isWaste
                              (Item.isWaste item
                               || (Item.usageLimit item =? 1)%Z)
                              (Item.set_usageLimit
                                 (Item.usageLimit item - 1) item)
                       else item))
         /\ dict_get container_id containers'
            = Some (Container.remove_item "Y" (Item.get_volume item)
                                          container)
         /\ (forall k, k <> "Y" -> dict_get k items' = dict_get k S3_items)
         /\ (forall k, k <> container_id ->
                       dict_get k containers' = dict_get k S3_containers)
         /\ retrieve_item grid_space insertion_order "Y" "crew" items'
                          containers'
            = Some (false, [], items', containers').
Proof.
  do 3 eexists. split; [vm_compute; reflexivity|].
  eapply (retrieve_item_effects grid_space insertion_order "Y" "crew"
            S3_items _ S3_containers).
  vm_compute. reflexivity.
Defined.

(** X8. When [get_item_location] finds the item, it reports one step
    more than it lists blockers, the blockers are listed by ascending
    depth, and the retrieval plan for the same item starts by moving
    exactly these blockers in this order; the plan itself has two steps
    per blocker plus the retrieve (for an item dict with distinct keys and
    a set that yields each of its elements once). *)
Theorem item_location_agrees_with_the_plan (impl : Space3DImpl)
  (pair_set_order : list (string * string) -> list (string * string))
  (item_id : string) (items : Dict Item.t) (containers : Dict Container.t)
  (loc : ItemLocation.t) :
  (forall l, Permutation (pair_set_order l) l) ->
  NoDup (map fst items) ->
  get_item_location impl item_id items containers = Some loc ->
  let n := List.length (ItemLocation.blockedBy loc) in
  ItemLocation.retrievalSteps loc = (Z.of_nat n + 1)%Z
  /\ StronglySorted (fun a b => (Blocker.depth a <= Blocker.depth b)%Z)
                    (ItemLocation.blockedBy loc)
  /\ exists steps,
       get_retrieval_path impl pair_set_order item_id items containers
       = Some (true, steps, items, containers)
       /\ map RearrangementStep.itemId (firstn n steps)
          = map Blocker.itemId (ItemLocation.blockedBy loc)
       /\ List.length steps = (2 * n + 1)%nat.
Proof.
  intros Hperm Hnd. unfold get_item_location, get_retrieval_path.
  destruct (dict_get item_id items) as [item|]; [|discriminate].
  destruct (Item.location_container item) as [cid|]; [|discriminate].
  destruct (dict_get cid containers) as [container|]; [|discriminate].
  pose proof (blocked_by_ascending_depth impl item container
                (Item.location_position item) (Item.location_rotation item)
                items) as Hsorted.
  pose proof (blocked_by_ids_distinct impl item container
                (Item.location_position item) (Item.location_rotation item)
                items Hnd) as Hdistinct.
  unfold _generate_optimized_retrieval_steps.
  destruct (move_blocking_items _ _ _ _ _) as [[aside moved]|] eqn:Haside.
  2:{ destruct (retrieval_steps_defined impl pair_set_order item container
                  (Item.location_position item)
                  (Item.location_rotation item) items containers)
        as [steps Hsteps].
      unfold _generate_optimized_retrieval_steps in Hsteps.
      rewrite Haside in Hsteps. discriminate. }
  pose proof (move_blocking_items_steps _ _ _ 1%nat _ _ _ Haside)
    as (_ & Hlen & Hlenm).
  pose proof (move_blocking_items_shape _ _ _ _ _ _ _ Haside)
    as (Hids & Hmoved & _ & _).
  unfold _calculate_retrieval_complexity in *. cbn [snd] in *.
  intros H%Some_eq. subst loc. cbn [ItemLocation.blockedBy
    ItemLocation.retrievalSteps].
  split; [reflexivity|]. split; [exact Hsorted|].
  eexists. split; [reflexivity|]. rewrite <- Hlen. split.
  - rewrite firstn_app, Nat.sub_diag, firstn_all. cbn [firstn].
    now rewrite app_nil_r.
  - rewrite !length_app, move_back_length, length_rev.
    rewrite (Permutation_length (Hperm _)), set_of_list_distinct.
    + cbn [List.length]. rewrite Hlenm, <- Hlen. lia.
    + apply (NoDup_map_inv fst). now rewrite Hmoved.
Qed.

Lemma item_location_agrees_with_the_plan_witness :
  exists loc,
    get_item_location grid_space "T" S5_items S5_containers = Some loc
    /\ let n := List.length (ItemLocation.blockedBy loc) in
       ItemLocation.retrievalSteps loc = (Z.of_nat n + 1)%Z
       /\ StronglySorted
            (fun a b => (Blocker.depth a <= Blocker.depth b)%Z)
            (ItemLocation.blockedBy loc)
       /\ exists steps,
            get_retrieval_path grid_space insertion_order "T" S5_items
                               S5_containers
            = Some (true, steps, S5_items, S5_containers)
            /\ map RearrangementStep.itemId (firstn n steps)
               = map Blocker.itemId (ItemLocation.blockedBy loc)
            /\ List.length steps = (2 * n + 1)%nat.
Proof.
  eexists. split; [vm_compute; reflexivity|].
  apply (item_location_agrees_with_the_plan grid_space insertion_order "T"
           S5_items S5_containers).
  - intros l. apply Permutation_refl.
  - repeat constructor; simpl; intuition discriminate.
  - vm_compute. reflexivity.
Defined.

Lemma choose_temp_container_spec (zone : string) (item_volume : Q)
  (avail : Dict (Container.t * Q)) :
  NoDup (map fst avail) ->
  forall best avail',
    choose_temp_container zone item_volume avail = (best, avail') ->
    map fst avail' = map fst avail
    /\ ((best = "temporary_storage" /\ avail' = avail)
        \/ exists c a,
             dict_get best avail = Some (c, a)
             /\ item_volume <= a
             /\ Container.zone c = zone
             /\ forall k,
                  dict_get k avail'
                  = if String.eqb best k then Some (c, a - item_volume)
                    else dict_get k avail).
Proof.
  induction avail as [|[cid [c a]] rest IH]; intros Hnd best avail'; simpl.
  - intros [= <- <-]. split; [reflexivity | now left].
  - inversion Hnd as [|? ? Hnotin Hnd']; subst.
    destruct (Qleb item_volume a && String.eqb (Container.zone c) zone)
      eqn:Hcond.
    + intros [= <- <-]. split; [reflexivity|]. right.
      apply andb_true_iff in Hcond as [Hfit Hzone].
      exists c, a. rewrite String.eqb_refl.
      repeat split.
      * now apply Qleb_le.
      * now apply String.eqb_eq.
      * intros k. simpl. rewrite (String.eqb_sym cid k).
        now destruct (String.eqb k cid).
    + destruct (choose_temp_container zone item_volume rest)
        as [best0 rest'] eqn:Hrest.
      intros [= <- <-].
      destruct (IH Hnd' best0 rest' eq_refl) as [Hkeys Hcase].
      split; [simpl; now rewrite Hkeys|].
      destruct Hcase as [[-> ->] | (c0 & a0 & Hget & Hfit & Hzone & Hupd)].
      * now left.
      * right. exists c0, a0.
        assert (best0 <> cid) as Hne.
        { intros ->. apply Hnotin. apply dict_get_In in Hget.
          apply (in_map fst) in Hget. exact Hget. }
        apply String.eqb_neq in Hne. rewrite Hne. repeat split; auto.
        intros k. simpl. destruct (String.eqb_spec k cid) as [->|Hk].
        -- now rewrite Hne.
        -- apply Hupd.
Qed.

Lemma move_blocking_items_within_cache (container : Container.t)
  (items : Dict Item.t) (blocked_by : list Blocker.t) (key : string) :
  key <> "temporary_storage" ->
  forall step_count avail steps moved,
    NoDup (map fst avail) ->
    (forall k c a, dict_get k avail = Some (c, a) -> 0 <= a) ->
    move_blocking_items container items blocked_by step_count avail
    = Some (steps, moved) ->
    volume_moved_into items (Container.containerId container) key steps
    <= match dict_get key avail with
       | Some (_, a) => a
       | None => 0
       end.
Proof.
  intros Hkey.
  induction blocked_by as [|info rest IH];
    intros step_count avail steps moved Hnd Hpos; simpl.
  - intros [= <- <-]. simpl.
    destruct (dict_get key avail) as [[c a]|] eqn:Hget; [|lra].
    exact (Hpos _ _ _ Hget).
  - destruct (dict_get (Blocker.itemId info) items) as [it|] eqn:Hit;
      [|discriminate].
    destruct (choose_temp_container _ _ avail) as [best avail'] eqn:Hch.
    destruct (move_blocking_items container items rest _ avail')
      as [[steps' moved']|] eqn:Hrest; [|discriminate].
    intros [= <- <-].
    destruct (choose_temp_container_spec _ _ avail Hnd _ _ Hch)
      as [Hkeys Hcase].
    assert (NoDup (map fst avail')) as Hnd' by now rewrite Hkeys.
    assert (forall k c a, dict_get k avail' = Some (c, a) -> 0 <= a)
      as Hpos'.
    { destruct Hcase as [[_ ->] | (c0 & a0 & Hget & Hfit & _ & Hupd)];
        [exact Hpos|].
      intros k c a. rewrite Hupd.
      destruct (String.eqb best k); [|apply Hpos].
      intros [= _ <-]. lra. }
    specialize (IH _ _ _ _ Hnd' Hpos' Hrest).
    cbn [volume_moved_into fold_right RearrangementStep.action
         RearrangementStep.fromContainer RearrangementStep.toContainer
         RearrangementStep.itemId].
    fold (volume_moved_into items (Container.containerId container) key
                            steps').
    rewrite Hit, !String.eqb_refl. cbn [andb].
    destruct (String.eqb_spec best key) as [->|Hne].
    + destruct Hcase as [[-> _] | (c0 & a0 & Hget & Hfit & _ & Hupd)];
        [contradiction|].
      rewrite Hupd, String.eqb_refl in IH. rewrite Hget. lra.
    + destruct Hcase as [[_ ->] | (c0 & a0 & Hget & Hfit & _ & Hupd)];
        [exact IH|].
      rewrite Hupd in IH. apply String.eqb_neq in Hne.
      now rewrite Hne in IH.
Qed.

Lemma available_containers_entries (container : Container.t)
  (containers : Dict Container.t) (k : string) (c : Container.t) (a : Q) :
  In (k, (c, a)) (available_containers container containers) ->
  In (k, c) containers
  /\ a = Container.get_available_space c
  /\ 0 < a.
Proof.
  unfold available_containers. rewrite in_flat_map.
  intros ([k0 c0] & Hin & Hentry). cbn [fst snd] in Hentry.
  destruct (String.eqb _ _); [contradiction|].
  destruct (Qltb 0 _) eqn:Hpos; [|contradiction].
  destruct Hentry as [[= <- <- <-] | []].
  repeat split; [exact Hin | now apply Qltb_lt].
Qed.

Lemma available_containers_keys (container : Container.t)
  (containers : Dict Container.t) :
  NoDup (map fst containers) ->
  NoDup (map fst (available_containers container containers)).
Proof.
  unfold available_containers.
  induction containers as [|[k c] cs IH]; simpl; [constructor|].
  intros Hnd. inversion Hnd as [|? ? Hnotin Hnd']; subst.
  destruct (String.eqb _ _); [now apply IH|].
  destruct (Qltb 0 _); [|now apply IH].
  simpl. constructor; [|now apply IH].
  intros Hin. apply Hnotin. apply in_map_iff in Hin as ([k' [c' a']] & <- & H).
  apply (available_containers_entries container cs) in H as [H _].
  apply (in_map fst) in H. exact H.
Qed.

Lemma volume_moved_into_app (items : Dict Item.t) (origin key : string)
  (l1 l2 : list RearrangementStep.t) :
  volume_moved_into items origin key l2 = 0 ->
  volume_moved_into items origin key (l1 ++ l2)
  = volume_moved_into items origin key l1.
Proof.
  unfold volume_moved_into. intros H. now rewrite fold_right_app, H.
Qed.

Lemma volume_moved_into_move_back (items : Dict Item.t)
  (container : Container.t) (key : string)
  (tuples : list (string * string)) (step_count : Z) :
  key <> Container.containerId container ->
  volume_moved_into items (Container.containerId container) key
                    (move_back container step_count tuples) = 0.
Proof.
  intros Hne. revert step_count.
  induction tuples as [|[bid temp] rest IH]; intros step_count; simpl;
    [reflexivity|].
  fold (volume_moved_into items (Container.containerId container) key
          (move_back container (step_count + 1) rest)).
  rewrite IH.
  assert (String.eqb (Container.containerId container) key = false) as ->
    by (apply String.eqb_neq; congruence).
  now rewrite andb_false_r.
Qed.

(** X9. Temporary relocation respects the free volume of the containers
    it uses: in a retrieval plan, the volume of the blockers moved out of
    the origin into any other container is at most that container's free
    volume (and at most 0 for a container without free volume).
    The container dict has distinct keys. *)
Theorem temporary_relocation_respects_free_volume (impl : Space3DImpl)
  (pair_set_order : list (string * string) -> list (string * string))
  (target_item : Item.t) (container : Container.t)
  (position rotation : Triple) (items : Dict Item.t)
  (containers : Dict Container.t) (steps : list RearrangementStep.t)
  (key : string) (c : Container.t) :
  NoDup (map fst containers) ->
  In (key, c) containers ->
  key <> "temporary_storage" ->
  key <> Container.containerId container ->
  _generate_optimized_retrieval_steps impl pair_set_order target_item
    container position rotation items containers = Some steps ->
  volume_moved_into items (Container.containerId container) key steps
  <= py_max 0 (Container.get_available_space c).
Proof.
  intros Hnd Hin Htemp Horigin.
  unfold _generate_optimized_retrieval_steps.
  destruct (move_blocking_items _ _ _ _ _) as [[aside moved]|] eqn:Haside;
    [|discriminate].
  intros H%Some_eq. subst steps.
  rewrite volume_moved_into_app.
  2:{ cbn [app volume_moved_into fold_right RearrangementStep.action].
      fold (volume_moved_into items (Container.containerId container) key
              (move_back container
                 (1 + Z.of_nat (List.length aside) + 1)
                 (rev (pair_set_order (set_of_list pair_eqb moved))))).
      now rewrite volume_moved_into_move_back. }
  eapply Qle_trans.
  { eapply (move_blocking_items_within_cache container items _ key Htemp);
      [| |exact Haside].
    - now apply available_containers_keys.
    - intros k c0 a Hget. apply dict_get_In in Hget.
      apply available_containers_entries in Hget as (_ & _ & Hpos). lra. }
  unfold py_max.
  destruct (dict_get key (available_containers container containers))
    as [[c0 a]|] eqn:Hget.
  - apply dict_get_In in Hget.
    apply available_containers_entries in Hget as (Hin0 & -> & Hpos).
    rewrite (NoDup_keys_unique containers key c c0 Hnd Hin Hin0).
    apply Qltb_lt in Hpos. rewrite Hpos. lra.
  - destruct (Qltb 0 _) eqn:Hpos; [apply Qltb_lt in Hpos|]; lra.
Qed.

Lemma temporary_relocation_respects_free_volume_witness :
  exists steps,
    _generate_optimized_retrieval_steps grid_space insertion_order S5_T S5_C
      (0, 0, 0) (20, 20, 20) S5_items S5_containers_with_spare = Some steps
    /\ map RearrangementStep.toContainer (firstn 2 steps)
       = [Some "D"; Some "temporary_storage"]
    /\ volume_moved_into S5_items (Container.containerId S5_C) "D" steps
       <= py_max 0 (Container.get_available_space spare_D).
Proof.
  eexists. split; [vm_compute; reflexivity|]. split; [reflexivity|].
  apply (temporary_relocation_respects_free_volume grid_space
           insertion_order S5_T S5_C (0, 0, 0) (20, 20, 20) S5_items
           S5_containers_with_spare _ "D" spare_D).
  - repeat constructor; simpl; intuition discriminate.
  - simpl. right. left. reflexivity.
  - discriminate.
  - discriminate.
  - vm_compute. reflexivity.
Defined.

(** ** services/waste.py *)

Lemma waste_reason_of_flagged (current_date : datetime) (item : Item.t) :
  Item.isWaste item = true -> waste_reason current_date item <> None.
Proof.
  intros Hw. unfold waste_reason. rewrite Hw.
  destruct (_ <=? 0)%Z; [discriminate|].
  destruct (Item.expiryDate item); try discriminate.
  now destruct (_ <=? 0)%Z.
Qed.

Lemma make_waste_item_itemId (item_id : string) (item : Item.t)
  (reason : string) :
  WasteItem.itemId (make_waste_item item_id item reason) = item_id.
Proof.
  unfold make_waste_item.
  destruct (Item.currentLocation item) as [l|]; [|reflexivity].
  now destruct (Location.containerId l).
Qed.

Lemma identified_ids (items : Dict Item.t) (containers : Dict Container.t)
  (current_date : datetime) :
  let r := identify_waste_items items containers current_date in
  Permutation (map WasteItem.itemId (waste_items_found r))
              (map fst (filter (fun kv => Item.isWaste (snd kv))
                               (waste_items_after r)))
  /\ map fst (waste_items_after r) = map fst items.
Proof.
  unfold identify_waste_items. cbn [waste_items_found waste_items_after].
  split.
  - eapply perm_trans.
    { apply Permutation_map. unfold _sort_waste_by_urgency, sort_by_desc.
      apply sort_by_perm. }
    induction items as [|[k item] items IH]; simpl; [constructor|].
    destruct (waste_reason current_date item) as [reason|] eqn:Hreason;
      simpl.
    + rewrite make_waste_item_itemId. now constructor.
    + destruct (Item.isWaste item) eqn:Hw; [|exact IH].
      now apply (waste_reason_of_flagged current_date) in Hw.
  - rewrite map_map. apply map_ext. intros kv.
    now destruct (waste_reason current_date (snd kv)).
Qed.

(** X10. The waste list that [identify_waste_items] returns names
    exactly the items that are flagged when the call is over, each once
    per entry of the dict, and the call removes no item from the dict. *)
Theorem waste_list_names_the_flagged_items (items : Dict Item.t)
  (containers : Dict Container.t) (current_date : datetime) :
  let r := identify_waste_items items containers current_date in
  Permutation (map WasteItem.itemId (waste_items_found r))
              (map fst (filter (fun kv => Item.isWaste (snd kv))
                               (waste_items_after r)))
  /\ map fst (waste_items_after r) = map fst items.
Proof. exact (identified_ids items containers current_date). Qed.

(** X11. Identifying waste twice at the same date changes nothing the
    second time: the item dict stays as the first call left it and the
    second list names the same items (their reasons may differ, since an
    item flagged by the first call is read as already marked). *)
Theorem identify_waste_twice (items : Dict Item.t)
  (containers containers' : Dict Container.t) (current_date : datetime) :
  let r1 := identify_waste_items items containers current_date in
  let r2 :=
    identify_waste_items (waste_items_after r1) containers' current_date in
  waste_items_after r2 = waste_items_after r1
  /\ Permutation (map WasteItem.itemId (waste_items_found r2))
                 (map WasteItem.itemId (waste_items_found r1)).
Proof.
  intros r1 r2.
  assert (waste_items_after r2 = waste_items_after r1) as Hsame.
  { subst r1 r2. unfold identify_waste_items. cbn [waste_items_after].
    rewrite map_map. apply map_ext. intros [k item]. cbn [fst snd].
    destruct (waste_reason current_date item) eqn:Hreason; cbn [snd].
    - destruct (waste_reason current_date (Item.set_isWaste true item))
        eqn:H2; [reflexivity|].
      now apply (waste_reason_of_flagged current_date
                   (Item.set_isWaste true item)) in H2.
    - now rewrite Hreason. }
  split; [exact Hsame|].
  eapply perm_trans;
    [apply (identified_ids (waste_items_after r1) containers' current_date)|].
  fold r2. rewrite Hsame. apply Permutation_sym.
  apply (identified_ids items containers current_date).
Qed.

Lemma insert_sorted_descending {A : Type} (key : A -> Q) (x : A)
  (l : list A) :
  StronglySorted (fun a b => key b <= key a) l ->
  StronglySorted (fun a b => key b <= key a)
                 (insert_sorted (fun a b => Qltb b a) key x l).
Proof.
  induction 1 as [|y l Hsorted IH Hall]; simpl.
  - repeat constructor.
  - destruct (Qltb (key x) (key y)) eqn:Hlt.
    + apply Qltb_lt in Hlt. constructor; [exact IH|].
      eapply Permutation_Forall;
        [apply Permutation_sym, insert_sorted_perm|].
      constructor; [lra | exact Hall].
    + apply Qltb_ge in Hlt. constructor; [now constructor|].
      constructor; [exact Hlt|].
      eapply Forall_impl; [|exact Hall]. intros a Ha. simpl in Ha. lra.
Qed.

Lemma sort_by_desc_descending {A : Type} (key : A -> Q) (l : list A) :
  StronglySorted (fun a b => key b <= key a) (sort_by_desc Qltb key l).
Proof.
  unfold sort_by_desc, sort_by. induction l as [|x l IH]; simpl.
  - constructor.
  - now apply insert_sorted_descending.
Qed.

Lemma fold_left_mass (l : list WasteItem.t) (a : Q) :
  fold_left (fun acc w => acc + WasteItem.mass w) l a == a + sum_mass l.
Proof.
  revert a. induction l as [|w l IH]; intros a; simpl.
  - ring.
  - rewrite IH. ring.
Qed.

Lemma sum_mass_perm (l l' : list WasteItem.t) :
  Permutation l l' -> sum_mass l == sum_mass l'.
Proof.
  induction 1 as [|w l l' _ IH|w w' l|l1 l2 l3 _ IH1 _ IH2]; simpl.
  - reflexivity.
  - now rewrite IH.
  - ring.
  - now rewrite IH1.
Qed.

(** X12. The waste list comes out in order of urgency, most urgent
    first (no entry has a higher urgency score than an entry before it),
    and the total mass returned with it is the sum of the masses of its
    entries. *)
Theorem waste_list_is_sorted_by_urgency (items : Dict Item.t)
  (containers : Dict Container.t) (current_date : datetime) :
  let r := identify_waste_items items containers current_date in
  StronglySorted
    (fun a b => get_urgency_score (waste_items_after r) b
                <= get_urgency_score (waste_items_after r) a)
    (waste_items_found r)
  /\ total_waste_mass r == sum_mass (waste_items_found r).
Proof.
  unfold identify_waste_items.
  cbn [waste_items_found waste_items_after total_waste_mass]. split.
  - apply sort_by_desc_descending.
  - rewrite fold_left_mass. rewrite Qplus_0_l.
    apply sum_mass_perm, Permutation_sym.
    unfold _sort_waste_by_urgency, sort_by_desc. apply sort_by_perm.
Qed.

Lemma In_nth_list_set {A : Type} (x : A) (k n : nat) (v : list A)
  (l : list (list A)) :
  In x (nth k (list_set n v l) []) -> In x v \/ In x (nth k l []).
Proof.
  revert k n. induction l as [|y l IH]; intros k n; simpl.
  - destruct n, k; simpl; intros [].
  - destruct n as [|n], k as [|k]; simpl; auto. apply IH.
Qed.

Lemma In_set_add (x id : string) (s : list string) :
  In x (set_add String.eqb id s) -> x = id \/ In x s.
Proof.
  unfold set_add. destruct (existsb _ s); [now right|].
  intros Hin. apply in_app_or in Hin as [H | [<- | []]]; auto.
Qed.

Lemma dp_item_selects_weighty (waste_items : list WasteItem.t) (n : nat)
  (values : Dict Q) (item : WasteItem.t) (st : DpState) :
  In item waste_items ->
  dp_selects_weighty waste_items st ->
  dp_selects_weighty waste_items (dp_item values n st item).
Proof.
  intros Hin Hst. unfold dp_item.
  destruct (Z.leb_spec (scaled (WasteItem.mass item)) 0) as [|Hpos];
    [exact Hst|].
  apply fold_left_invariant_In; [|exact Hst].
  intros [dp sel] w _ Hst'. unfold dp_update.
  destruct (Qltb _ _); [|exact Hst'].
  intros w' id Hid. cbn [snd] in Hid.
  apply In_nth_list_set in Hid as [Hid | Hid]; [|exact (Hst' w' id Hid)].
  apply In_set_add in Hid as [-> | Hid].
  - now exists item.
  - exact (Hst' _ id Hid).
Qed.

Lemma select_items_weighty (waste_items : list WasteItem.t) (max_weight : Q)
  (final : list string) (id : string) :
  select_items waste_items max_weight = Some final ->
  In id final ->
  exists item,
    In item waste_items
    /\ WasteItem.itemId item = id
    /\ (0 < scaled (WasteItem.mass item))%Z.
Proof.
  unfold select_items. destruct (_ <? 0)%Z; [discriminate|].
  intros H%Some_eq. subst final.
  match goal with
  | |- In id (nth ?k (snd (fold_left ?f waste_items ?st0)) []) -> _ =>
      apply (fold_left_invariant_In (dp_selects_weighty waste_items)
               f waste_items st0)
  end.
  - intros st item Hin Hst. now apply dp_item_selects_weighty.
  - intros w id' Hid. cbn [snd] in Hid.
    rewrite nth_repeat in Hid. destruct Hid.
Qed.

Lemma dict_get_set {V : Type} (k k' : string) (v : V) (d : Dict V) :
  dict_get k (dict_set k' v d)
  = if String.eqb k k' then Some v else dict_get k d.
Proof.
  induction d as [|[k0 v0] d IH]; simpl.
  - reflexivity.
  - destruct (String.eqb_spec k' k0) as [->|Hne]; simpl.
    + now destruct (String.eqb k k0).
    + rewrite IH. destruct (String.eqb_spec k k0) as [->|_];
        [|reflexivity].
      apply String.eqb_neq in Hne. rewrite String.eqb_sym in Hne.
      now rewrite Hne.
Qed.

Lemma item_map_lookup (waste_items : list WasteItem.t) (id : string)
  (item : WasteItem.t) :
  dict_get id (item_map waste_items) = Some item ->
  In item waste_items /\ WasteItem.itemId item = id.
Proof.
  unfold item_map. revert id item.
  apply (fold_left_invariant_In
           (fun m => forall id item,
                dict_get id m = Some item ->
                In item waste_items /\ WasteItem.itemId item = id)).
  - intros m w Hw Hm id item. rewrite dict_get_set.
    destruct (String.eqb_spec id (WasteItem.itemId w)) as [->|_];
      [|apply Hm].
    intros [= <-]. now split.
  - discriminate.
Qed.

Lemma group_add_members (c : string) (x : WasteItem.t)
  (groups : Dict (list WasteItem.t)) (P : string -> WasteItem.t -> Prop) :
  P c x ->
  (forall k l y, In (k, l) groups -> In y l -> P k y) ->
  forall k l y, In (k, l) (group_add c x groups) -> In y l -> P k y.
Proof.
  intros Hx. induction groups as [|[c0 l0] rest IH]; intros Hg k l y; simpl.
  - intros [[= <- <-] | []] [<- | []]. exact Hx.
  - destruct (String.eqb_spec c c0) as [->|Hne].
    + intros [[= <- <-] | Hin] Hy.
      * apply in_app_or in Hy as [Hy | [<- | []]]; [|exact Hx].
        apply (Hg c0 l0); [now left | exact Hy].
      * apply (Hg k l); [now right | exact Hy].
    + intros [[= <- <-] | Hin] Hy.
      * apply (Hg c0 l0); [now left | exact Hy].
      * apply IH with (l := l); auto.
        intros k' l' y' Hin'. apply Hg. now right.
Qed.

Lemma group_by_container_members (waste_items : list WasteItem.t)
  (k : string) (l : list WasteItem.t) (y : WasteItem.t) :
  In (k, l) (group_by_container waste_items) -> In y l ->
  In y waste_items
  /\ WasteItem.containerId y = Some k
  /\ truthy (WasteItem.containerId y) = true.
Proof.
  unfold group_by_container. revert k l y.
  apply (fold_left_invariant_In
           (fun groups => forall k l y,
                In (k, l) groups -> In y l ->
                In y waste_items
                /\ WasteItem.containerId y = Some k
                /\ truthy (WasteItem.containerId y) = true)).
  - intros groups x Hx Hg.
    destruct (WasteItem.containerId x) as [c|] eqn:Hc; [|exact Hg].
    destruct (String.eqb c "") eqn:Hempty; [exact Hg|].
    apply group_add_members; [|exact Hg].
    repeat split; [exact Hx | exact Hc |].
    rewrite Hc. simpl. now rewrite Hempty.
  - intros k l y [].
Qed.

Lemma sort_by_access_In (l : list WasteItem.t) (x : WasteItem.t) :
  In x (sort_by_access l) -> In x l.
Proof.
  unfold sort_by_access. destruct (forallb has_position l); [|auto].
  apply sort_by_In.
Qed.

Lemma emit_Forall {S : Type} (P : S -> Prop) (st : list S * Z)
  (mk : Z -> S) :
  P (mk (snd st)) -> Forall P (fst st) -> Forall P (fst (emit st mk)).
Proof.
  intros Hmk Hst. unfold emit. cbn [fst].
  apply Forall_app. split; [exact Hst | now constructor].
Qed.

Lemma waste_item_of_id (waste_items : list WasteItem.t)
  (a b : WasteItem.t) :
  NoDup (map WasteItem.itemId waste_items) ->
  In a waste_items -> In b waste_items ->
  WasteItem.itemId a = WasteItem.itemId b -> a = b.
Proof.
  induction waste_items as [|w ws IH]; simpl; [tauto|].
  intros Hnd Ha Hb Heq. inversion Hnd as [|? ? Hnotin Hnd']; subst.
  destruct Ha as [<- | Ha], Hb as [<- | Hb]; auto.
  - exfalso. apply Hnotin. rewrite Heq. now apply in_map.
  - exfalso. apply Hnotin. rewrite <- Heq. now apply in_map.
Qed.

Lemma return_plan_steps_ok (id_set_order : list string -> list string)
  (waste_items : list WasteItem.t) (max_weight : Q)
  (undocking_container_id : string) (steps : list WasteReturnStep.t) :
  (forall l x, In x (id_set_order l) -> In x l) ->
  NoDup (map WasteItem.itemId waste_items) ->
  generate_waste_return_plan id_set_order waste_items max_weight
                             undocking_container_id = Some steps ->
  exists final,
    (waste_items = [] \/ select_items waste_items max_weight = Some final)
    /\ Forall (fun s =>
                 In (WasteReturnStep.itemId s) final
                 /\ return_step_ok waste_items undocking_container_id s)
              steps.
Proof.
  intros Horder Hnd. unfold generate_waste_return_plan.
  destruct waste_items as [|w0 ws] eqn:HW.
  { intros H%Some_eq. subst steps. exists []. split; [now left|constructor]. }
  rewrite <- HW in *. clear HW w0 ws.
  destruct (select_items waste_items max_weight) as [final|] eqn:Hsel;
    [|discriminate].
  intros H%Some_eq. subst steps. exists final. split; [now right|].
  assert (forall item,
             In item waste_items ->
             In (WasteItem.itemId item) final ->
             (0 < scaled (WasteItem.mass item))%Z) as Hweighty.
  { intros item Hin Hmem.
    destruct (select_items_weighty _ _ _ _ Hsel Hmem)
      as (item' & Hin' & Hid & Hpos).
    now rewrite <- (waste_item_of_id waste_items item' item Hnd Hin' Hin Hid). }
  set (P := fun s : WasteReturnStep.t =>
              In (WasteReturnStep.itemId s) final
              /\ return_step_ok waste_items undocking_container_id s).
  apply (fold_left_invariant_In (fun st => Forall P (fst st))).
  - intros st item_id Hid Hst. apply Horder in Hid.
    destruct (dict_get item_id (item_map waste_items)) as [item|] eqn:Hget;
      [|exact Hst].
    destruct (truthy _); [exact Hst|].
    apply item_map_lookup in Hget as [Hin Heq].
    apply emit_Forall; [|exact Hst]. split; cbn.
    + now rewrite Heq.
    + exists item. repeat split; try assumption.
      * apply Hweighty; [exact Hin | now rewrite Heq].
      * right. repeat split.
  - apply (fold_left_invariant_In (fun st => Forall P (fst st)));
      [|constructor].
    intros st [container_id group] Hgroup Hst.
    apply (fold_left_invariant_In (fun st => Forall P (fst st)));
      [|exact Hst].
    intros st' item Hitem Hst'.
    apply sort_by_access_In, filter_In in Hitem as [Hitem Hmem].
    apply str_mem_In in Hmem.
    destruct (group_by_container_members _ _ _ _ Hgroup Hitem)
      as (Hin & Hcont & Htruthy).
    apply emit_Forall; [|apply emit_Forall; [|exact Hst']].
    + split; cbn; [exact Hmem|]. exists item.
      repeat split; try assumption; [now apply Hweighty|].
      right. repeat split.
    + split; cbn; [exact Hmem|]. exists item.
      repeat split; try assumption; [now apply Hweighty|].
      left. repeat split; [now rewrite Hcont | exact Htruthy].
Qed.

Lemma scaled_total_subset (waste_items : list WasteItem.t)
  (ids final : list string) :
  (forall id, In id ids -> In id final) ->
  (forall item, In item waste_items ->
                In (WasteItem.itemId item) final ->
                (0 < scaled (WasteItem.mass item))%Z) ->
  (scaled_total ids waste_items <= scaled_total final waste_items)%Z.
Proof.
  intros Hsub. induction waste_items as [|w ws IH]; intros Hpos.
  - reflexivity.
  - rewrite !scaled_total_cons.
    assert (scaled_total ids ws <= scaled_total final ws)%Z as Hrest
      by (apply IH; intros item Hin; apply Hpos; now right).
    destruct (str_mem (WasteItem.itemId w) ids) eqn:Hids.
    + apply str_mem_In, Hsub, str_mem_In in Hids. rewrite Hids. lia.
    + destruct (str_mem (WasteItem.itemId w) final) eqn:Hfinal; [|exact Hrest].
      apply str_mem_In in Hfinal.
      specialize (Hpos w (or_introl eq_refl) Hfinal). lia.
Qed.

(** X13. The items named in a waste return plan respect the limit in the
    units the knapsack works in: their integer weights [int(mass * 100)]
    add up to at most [int(max_weight * 100)] (0 for the empty plan of an
    empty waste list). The waste items have distinct ids and the set
    yields only its own elements. *)
Theorem return_plan_within_scaled_capacity
  (id_set_order : list string -> list string)
  (waste_items : list WasteItem.t) (max_weight : Q)
  (undocking_container_id : string) (steps : list WasteReturnStep.t) :
  (forall l x, In x (id_set_order l) -> In x l) ->
  NoDup (map WasteItem.itemId waste_items) ->
  generate_waste_return_plan id_set_order waste_items max_weight
                             undocking_container_id = Some steps ->
  (scaled_total (map WasteReturnStep.itemId steps) waste_items
   <= Z.max 0 (scaled max_weight))%Z.
Proof.
  intros Horder Hnd Hplan.
  destruct (return_plan_steps_ok _ _ _ _ _ Horder Hnd Hplan)
    as (final & [-> | Hsel] & Hsteps).
  - unfold scaled_total. simpl. lia.
  - eapply Z.le_trans.
    + apply (scaled_total_subset waste_items _ final).
      * intros id Hid. apply in_map_iff in Hid as (s & <- & Hs).
        rewrite Forall_forall in Hsteps. now apply Hsteps.
      * intros item Hin Hmem.
        destruct (select_items_weighty _ _ _ _ Hsel Hmem)
          as (item' & Hin' & Hid & Hpos).
        now rewrite <- (waste_item_of_id waste_items item' item Hnd Hin'
                          Hin Hid).
    + pose proof (selected_scaled_weights_within_capacity _ _ _ Hnd Hsel).
      lia.
Qed.

Lemma return_plan_within_scaled_capacity_witness :
  exists steps,
    generate_waste_return_plan insertion_order S6_waste 40 "U" = Some steps
    /\ (scaled_total (map WasteReturnStep.itemId steps) S6_waste
        <= Z.max 0 (scaled 40))%Z.
Proof.
  eexists. split; [vm_compute; reflexivity|].
  apply (return_plan_within_scaled_capacity insertion_order S6_waste 40 "U").
  - intros l x H. exact H.
  - repeat constructor; simpl; intuition discriminate.
  - vm_compute. reflexivity.
Defined.

(** X14. Every step of a waste return plan is the removal of a waste
    item from the container it names, or the placement of a waste item
    into the undocking container, and the item weighs at least one unit
    of [int(mass * 100)]: an item lighter than 0.01 kg is never returned.
    The waste items have distinct ids and the set yields only its own
    elements. *)
Theorem return_plan_steps_are_removals_and_placements
  (id_set_order : list string -> list string)
  (waste_items : list WasteItem.t) (max_weight : Q)
  (undocking_container_id : string) (steps : list WasteReturnStep.t) :
  (forall l x, In x (id_set_order l) -> In x l) ->
  NoDup (map WasteItem.itemId waste_items) ->
  generate_waste_return_plan id_set_order waste_items max_weight
                             undocking_container_id = Some steps ->
  Forall (return_step_ok waste_items undocking_container_id) steps.
Proof.
  intros Horder Hnd Hplan.
  destruct (return_plan_steps_ok _ _ _ _ _ Horder Hnd Hplan)
    as (final & _ & Hsteps).
  eapply Forall_impl; [|exact Hsteps]. now intros s [_ Hs].
Qed.

Lemma return_plan_steps_are_removals_and_placements_witness :
  exists steps,
    generate_waste_return_plan insertion_order S6_waste 40 "U" = Some steps
    /\ Forall (return_step_ok S6_waste "U") steps.
Proof.
  eexists. split; [vm_compute; reflexivity|].
  apply (return_plan_steps_are_removals_and_placements insertion_order
           S6_waste 40 "U").
  - intros l x H. exact H.
  - repeat constructor; simpl; intuition discriminate.
  - vm_compute. reflexivity.
Defined.

Lemma group_add_concat (c : string) (x : WasteItem.t)
  (groups : Dict (list WasteItem.t)) :
  Permutation (List.concat (map snd (group_add c x groups)))
              (List.concat (map snd groups) ++ [x]).
Proof.
  induction groups as [|[c0 l0] rest IH]; simpl.
  - apply Permutation_refl.
  - destruct (String.eqb c c0); simpl.
    + rewrite <- !app_assoc. apply Permutation_app_head.
      apply Permutation_app_comm.
    + rewrite <- app_assoc. now apply Permutation_app_head.
Qed.

Lemma group_by_container_concat (waste_items : list WasteItem.t) :
  Permutation (List.concat (map snd (group_by_container waste_items)))
              (filter (fun w => truthy (WasteItem.containerId w))
                      waste_items).
Proof.
  unfold group_by_container.
  change (filter (fun w => truthy (WasteItem.containerId w)) waste_items)
    with (List.concat (map snd (@nil (string * list WasteItem.t)))
          ++ filter (fun w => truthy (WasteItem.containerId w)) waste_items).
  generalize (@nil (string * list WasteItem.t)) as groups.
  induction waste_items as [|x ws IH]; intros groups; simpl.
  - now rewrite app_nil_r.
  - destruct (WasteItem.containerId x) as [c|] eqn:Hc; simpl; [|apply IH].
    destruct (String.eqb c ""); simpl; [apply IH|].
    eapply perm_trans; [apply IH|].
    eapply perm_trans;
      [apply Permutation_app_tail, group_add_concat|].
    rewrite <- app_assoc. apply Permutation_refl.
Qed.

Lemma sort_by_access_perm (l : list WasteItem.t) :
  Permutation (sort_by_access l) l.
Proof.
  unfold sort_by_access. destruct (forallb has_position l).
  - apply sort_by_perm.
  - apply Permutation_refl.
Qed.

Lemma filter_partition_perm {A : Type} (f : A -> bool) (l : list A) :
  Permutation (filter f l ++ filter (fun x => negb (f x)) l) l.
Proof.
  induction l as [|x l IH]; simpl; [constructor|].
  destruct (f x); simpl.
  - now constructor.
  - apply Permutation_sym, Permutation_cons_app, Permutation_sym, IH.
Qed.

(** X15. The collection steps returned with the waste list hold exactly
    one step per waste item: a "remove" of that item, from the container
    it names if it names one, with no destination. *)
Theorem collection_steps_remove_each_waste_item_once
  (waste_items : list WasteItem.t) :
  let steps := _generate_optimized_waste_return_steps waste_items in
  Permutation
    (map (fun s => (WasteReturnStep.itemId s,
                    WasteReturnStep.fromContainer s)) steps)
    (map collected_from waste_items)
  /\ Forall (fun s => WasteReturnStep.action s = "remove"
                      /\ WasteReturnStep.toContainer s = None) steps.
Proof.
  set (pi := fun s => (WasteReturnStep.itemId s,
                       WasteReturnStep.fromContainer s)).
  set (ok := fun s => WasteReturnStep.action s = "remove"
                      /\ WasteReturnStep.toContainer s = None).
  unfold _generate_optimized_waste_return_steps.
  set (inv := fun (done : list WasteItem.t) (st : WasteStepState) =>
                Permutation (map pi (fst st)) (map collected_from done)
                /\ Forall ok (fst st)).
  assert (forall done st w mk,
             inv done st ->
             pi (mk (snd st)) = collected_from w ->
             ok (mk (snd st)) ->
             inv (done ++ [w]) (emit st mk)) as Hemit.
  { intros done st w mk [Hp Hok] Hpi Hmk. split.
    - unfold emit. cbn [fst]. rewrite !map_app. cbn [map]. rewrite Hpi.
      now apply Permutation_app_tail.
    - now apply emit_Forall. }
  assert (forall (c : string) (l : list WasteItem.t) done st,
             (forall w, In w l -> WasteItem.containerId w = Some c
                                  /\ truthy (WasteItem.containerId w) = true) ->
             inv done st ->
             inv (done ++ l)
                 (fold_left
                    (fun st item =>
                       emit st (fun step_count =>
                                  WasteReturnStep.mk step_count "remove"
                                    (WasteItem.itemId item) (Some c) None))
                    l st)) as Hgroup.
  { intros c l. induction l as [|w l IH]; intros done st Hl Hst; simpl.
    - now rewrite app_nil_r.
    - replace (done ++ w :: l) with ((done ++ [w]) ++ l)
        by now rewrite <- app_assoc.
      apply IH; [intros w' Hw'; apply Hl; now right|].
      apply Hemit; [exact Hst | | now split].
      destruct (Hl w (or_introl eq_refl)) as [Hc Ht].
      unfold pi, collected_from. cbn. now rewrite Ht, Hc. }
  assert (forall groups done st,
             (forall c l w, In (c, l) groups -> In w l ->
                            WasteItem.containerId w = Some c
                            /\ truthy (WasteItem.containerId w) = true) ->
             inv done st ->
             exists done',
               Permutation done' (done ++ List.concat (map snd groups))
               /\ inv done'
                    (fold_left
                       (fun st group =>
                          let '(container_id, items) := group in
                          fold_left
                            (fun st item =>
                               emit st
                                 (fun step_count =>
                                    WasteReturnStep.mk step_count "remove"
                                      (WasteItem.itemId item)
                                      (Some container_id) None))
                            (sort_by_access items) st)
                       groups st)) as Hgroups.
  { induction groups as [|[c l] groups IH]; intros done st Hg Hst; simpl.
    - exists done. split; [now rewrite app_nil_r | exact Hst].
    - destruct (IH (done ++ sort_by_access l)
                   (fold_left
                      (fun st item =>
                         emit st
                           (fun step_count =>
                              WasteReturnStep.mk step_count "remove"
                                (WasteItem.itemId item) (Some c) None))
                      (sort_by_access l) st)) as (done' & Hperm & Hinv).
      + intros c' l' w Hin. apply Hg. now right.
      + apply Hgroup; [|exact Hst]. intros w Hw.
        apply (Hg c l); [now left|].
        eapply Permutation_in; [apply sort_by_access_perm | exact Hw].
      + exists done'. split; [|exact Hinv].
        eapply perm_trans; [exact Hperm|].
        rewrite <- !app_assoc. apply Permutation_app_head.
        apply Permutation_app_tail, sort_by_access_perm. }
  assert (forall l done st,
             inv done st ->
             inv (done ++ filter (fun w => negb (truthy
                                                   (WasteItem.containerId w)))
                                 l)
                 (fold_left
                    (fun st item =>
                       if truthy (WasteItem.containerId item) then st
                       else
                         emit st
                           (fun step_count =>
                              WasteReturnStep.mk step_count "remove"
                                (WasteItem.itemId item) None None))
                    l st)) as Hrest.
  { induction l as [|w l IH]; intros done st Hst; simpl.
    - now rewrite app_nil_r.
    - destruct (truthy (WasteItem.containerId w)) eqn:Ht; simpl.
      + now apply IH.
      + replace (done ++ w :: filter _ l)
          with ((done ++ [w]) ++ filter
                  (fun w => negb (truthy (WasteItem.containerId w))) l)
          by now rewrite <- app_assoc.
        apply IH. apply Hemit; [exact Hst | | now split].
        unfold pi, collected_from. cbn. now rewrite Ht. }
  destruct (Hgroups (group_by_container waste_items) [] ([], 1%Z))
    as (done' & Hperm & Hinv).
  { intros c l w Hin Hw.
    now destruct (group_by_container_members _ _ _ _ Hin Hw) as (_ & ? & ?). }
  { split; constructor. }
  destruct (Hrest waste_items done' _ Hinv) as [Hp Hok].
  split; [|exact Hok].
  eapply perm_trans; [exact Hp|]. apply Permutation_map.
  eapply perm_trans; [apply Permutation_app_tail, Hperm|]. cbn [app].
  eapply perm_trans;
    [apply Permutation_app_tail, group_by_container_concat|].
  apply filter_partition_perm.
Qed.

Lemma set_of_list_spec (l : list string) :
  NoDup (set_of_list String.eqb l)
  /\ forall x, In x (set_of_list String.eqb l) <-> In x l.
Proof.
  unfold set_of_list.
  assert (forall acc : list string,
             NoDup acc ->
             NoDup (fold_left (fun s x => set_add String.eqb x s) l acc)
             /\ forall x,
                  In x (fold_left (fun s x => set_add String.eqb x s) l acc)
                  <-> In x acc \/ In x l) as H.
  { induction l as [|y l IH]; intros acc Hacc; simpl.
    - split; [exact Hacc | tauto].
    - assert (NoDup (set_add String.eqb y acc)
              /\ forall x, In x (set_add String.eqb y acc)
                           <-> In x acc \/ x = y) as [Hnd Hin].
      { unfold set_add. destruct (existsb (String.eqb y) acc) eqn:Hmem.
        - split; [exact Hacc|]. intros x. split; [tauto|].
          intros [H | ->]; [exact H|]. now apply str_mem_In.
        - split.
          + apply NoDup_app; [exact Hacc | repeat constructor; tauto|].
            intros x Hx [<- | []].
            apply str_mem_In in Hx. unfold str_mem in Hx. congruence.
          + intros x. rewrite in_app_iff. simpl. intuition. }
      destruct (IH _ Hnd) as [IH1 IH2]. split; [exact IH1|].
      intros x. rewrite IH2, Hin. intuition. }
  destruct (H [] (NoDup_nil _)) as [H1 H2]. split; [exact H1|].
  intros x. rewrite H2. simpl. tauto.
Qed.

Lemma undock_fold_lookup (l : list string)
  (st : Dict Item.t * Dict Container.t) (k : string) :
  dict_get k (fst (fold_left undock_one l st))
  = option_map (fun item => if str_mem k l
                            then Item.set_currentLocation None item
                            else item)
               (dict_get k (fst st)).
Proof.
  revert st. induction l as [|id l IH]; intros [items containers].
  - simpl. now destruct (dict_get k items).
  - cbn [fold_left]. rewrite IH. unfold undock_one.
    assert (str_mem k (id :: l) = String.eqb k id || str_mem k l) as ->
      by reflexivity.
    destruct (dict_get id items) as [item|] eqn:Hid; cbn [fst].
    + rewrite dict_get_update, (String.eqb_sym id k).
      destruct (String.eqb k id); [|reflexivity].
      destruct (dict_get k items); [|reflexivity]. simpl.
      now destruct (str_mem k l).
    + destruct (String.eqb_spec k id) as [->|_]; [|reflexivity].
      now rewrite Hid.
Qed.

Lemma undock_fold_keys (l : list string)
  (st : Dict Item.t * Dict Container.t) :
  map fst (fst (fold_left undock_one l st)) = map fst (fst st).
Proof.
  apply (fold_left_invariant_In
           (fun st' => map fst (fst st') = map fst (fst st)));
    [|reflexivity].
  intros [items containers] id _ Hst. unfold undock_one.
  destruct (dict_get id items); cbn [fst] in *; [|exact Hst].
  now rewrite map_fst_dict_update.
Qed.

(** X16. Undock completion clears the location of every stored item
    that a "move", "remove" or "place" step of the plan names and leaves
    every other item as it is; it deletes no item from the dict, steps
    with another action are ignored, and the count it returns is the
    number of distinct ids named, whether they are stored or not. The set
    yields exactly its own elements. *)
Theorem complete_undocking_effects
  (id_set_order : list string -> list string)
  (waste_items : list WasteItem.t) (plan_steps : list WasteReturnStep.t)
  (items : Dict Item.t) (containers : Dict Container.t) :
  (forall l x, In x (id_set_order l) <-> In x l) ->
  let r := complete_undocking id_set_order waste_items plan_steps items
                              containers in
  (forall k,
      dict_get k (snd (fst r))
      = option_map (fun item => if str_mem k (undocked_ids plan_steps)
                                then Item.set_currentLocation None item
                                else item)
                   (dict_get k items))
  /\ map fst (snd (fst r)) = map fst items
  /\ fst (fst r)
     = Z.of_nat (List.length (nodup string_dec (undocked_ids plan_steps))).
Proof.
  intros Horder. unfold complete_undocking. fold (undocked_ids plan_steps).
  destruct (set_of_list_spec (undocked_ids plan_steps)) as [Hnd Hmem].
  set (ids := set_of_list String.eqb (undocked_ids plan_steps)) in *.
  pose proof (undock_fold_lookup (id_set_order ids) (items, containers))
    as Hlookup.
  pose proof (undock_fold_keys (id_set_order ids) (items, containers))
    as Hkeys.
  destruct (fold_left undock_one (id_set_order ids) (items, containers))
    as [items' containers'].
  cbn [fst snd] in *. repeat split.
  - intros k. rewrite Hlookup. destruct (dict_get k items); [|reflexivity].
    simpl. f_equal.
    assert (str_mem k (id_set_order ids)
            = str_mem k (undocked_ids plan_steps)) as ->; [|reflexivity].
    apply eq_true_iff_eq. rewrite !str_mem_In, Horder. apply Hmem.
  - exact Hkeys.
  - f_equal. apply Permutation_length, NoDup_Permutation.
    + exact Hnd.
    + apply NoDup_nodup.
    + intros x. rewrite Hmem, nodup_In. tauto.
Qed.

Lemma complete_undocking_effects_witness :
  let plan :=
    [ WasteReturnStep.mk 1 "remove" "X" (Some "C") None;
      WasteReturnStep.mk 2 "place" "X" None (Some "U");
      WasteReturnStep.mk 3 "inspect" "Y" None None;
      WasteReturnStep.mk 4 "place" "Q" None (Some "U") ] in
  let r := complete_undocking insertion_order [] plan S3_items
                              S3_containers in
  (forall k,
      dict_get k (snd (fst r))
      = option_map (fun item => if str_mem k (undocked_ids plan)
                                then Item.set_currentLocation None item
                                else item)
                   (dict_get k S3_items))
  /\ map fst (snd (fst r)) = map fst S3_items
  /\ fst (fst r)
     = Z.of_nat (List.length (nodup string_dec (undocked_ids plan))).
Proof.
  apply (complete_undocking_effects insertion_order []).
  intros l x. reflexivity.
Defined.

(** ** services/simulation.py *)

Lemma add_days_add (d : datetime) (a b : Z) :
  add_days (add_days d a) b = add_days d (a + b).
Proof. unfold add_days. lia. Qed.

Lemma add_days_le (d : datetime) (a : Z) :
  (0 <= a -> d <= add_days d a)%Z.
Proof. unfold add_days, microseconds_per_day. lia. Qed.

(** X17. Simulating zero days, or a negative number of days, flags
    nothing and reports nothing: the item dict comes back unchanged, with
    the date moved by that many days. *)
Theorem simulate_no_days_changes_nothing (num_days : Z)
  (current_date : datetime) (items : Dict Item.t) :
  (num_days <= 0)%Z ->
  simulate_days num_days current_date items
  = (add_days current_date num_days, items, []).
Proof.
  intros Hn. unfold simulate_days.
  assert (forall item,
             expires_in_window current_date
                               (add_days current_date num_days) item
             = false) as Hwin.
  { intros item. unfold expires_in_window.
    destruct (Item.isWaste item); [reflexivity|].
    destruct (Item.expiryDate item) as [|e|]; try reflexivity. simpl.
    destruct (Z.leb_spec e (add_days current_date num_days));
      [|reflexivity].
    destruct (Z.ltb_spec current_date e); [|reflexivity].
    unfold add_days, microseconds_per_day in *. lia. }
  f_equal; [f_equal|].
  - induction items as [|kv items IH]; simpl; [reflexivity|].
    now rewrite Hwin, IH.
  - induction items as [|kv items IH]; simpl; [reflexivity|].
    now rewrite Hwin.
Qed.

Lemma simulate_no_days_changes_nothing_witness :
  simulate_days 0 0%Z [("M", M_used_up)] = (add_days 0%Z 0, [("M", M_used_up)], []).
Proof.
  apply (simulate_no_days_changes_nothing 0 0%Z [("M", M_used_up)]). lia.
Defined.

Lemma expires_in_window_split (d : datetime) (a b : Z) (item : Item.t) :
  (0 <= a)%Z -> (0 <= b)%Z ->
  expires_in_window d (add_days d (a + b)) item
  = expires_in_window d (add_days d a) item
    || expires_in_window (add_days d a) (add_days (add_days d a) b) item.
Proof.
  intros Ha Hb. rewrite add_days_add. unfold expires_in_window.
  destruct (Item.isWaste item); [reflexivity|].
  destruct (Item.expiryDate item) as [|e|]; try reflexivity. simpl.
  pose proof (add_days_le d a Ha).
  assert (add_days d a <= add_days d (a + b))%Z
    by (unfold add_days, microseconds_per_day; lia).
  destruct (Z.leb_spec e (add_days d (a + b)));
    destruct (Z.ltb_spec d e);
    destruct (Z.leb_spec e (add_days d a));
    destruct (Z.ltb_spec (add_days d a) e); simpl; try reflexivity; lia.
Qed.

(** X18. Simulating [a] days and then [b] days (neither negative) ends
    at the same date and with the same item dict as simulating [a + b]
    days at once, and the two runs together report the items that the
    single run reports. *)
Theorem simulate_days_in_two_steps (a b : Z) (current_date : datetime)
  (items : Dict Item.t) :
  (0 <= a)%Z -> (0 <= b)%Z ->
  let first := simulate_days a current_date items in
  let second := simulate_days b (fst (fst first)) (snd (fst first)) in
  let whole := simulate_days (a + b) current_date items in
  fst (fst second) = fst (fst whole)
  /\ snd (fst second) = snd (fst whole)
  /\ Permutation (snd whole) (snd first ++ snd second).
Proof.
  intros Ha Hb. unfold simulate_days. cbn [fst snd].
  split; [apply add_days_add|].
  set (d1 := add_days current_date a).
  induction items as [|[k item] items [IH1 IH2]]; simpl;
    [split; constructor|].
  rewrite (expires_in_window_split current_date a b item Ha Hb).
  fold d1.
  destruct (expires_in_window current_date d1 item) eqn:H1; simpl.
  - split; [now rewrite IH1|]. now constructor.
  - destruct (expires_in_window d1 (add_days d1 b) item) eqn:H2; simpl.
    + split; [now rewrite IH1|]. now apply Permutation_cons_app.
    + split; [now rewrite IH1 | exact IH2].
Qed.

Lemma simulate_days_in_two_steps_witness :
  let items := [("M", M_used_up)] in
  let first := simulate_days 4 0%Z items in
  let second := simulate_days 8 (fst (fst first)) (snd (fst first)) in
  let whole := simulate_days (4 + 8) 0%Z items in
  fst (fst second) = fst (fst whole)
  /\ snd (fst second) = snd (fst whole)
  /\ Permutation (snd whole) (snd first ++ snd second).
Proof.
  apply (simulate_days_in_two_steps 4 8 0%Z [("M", M_used_up)]); lia.
Defined.

(** ** The simulate route of app.py *)

Lemma simulate_route_keeps_waste_witness :
  let items_list :=
    [ mk_item "P" 10 10 10 2 40 NA 0 "Z" true None; S5_U; M_used_up ] in
  Forall2 record_kept items_list
    (saved_items (app_simulate_days 0%Z 12 None ["U"; "M"] items_list)).
Proof.
  apply (simulate_route_keeps_waste 0%Z 12 None ["U"; "M"]
           [ mk_item "P" 10 10 10 2 40 NA 0 "Z" true None; S5_U;
             M_used_up ]).
  repeat constructor; simpl; intuition discriminate.
Defined.


(** ** Soundness of the stores along the core operations *)

Lemma In_dict_update {V : Type} (k0 k : string) (f : V -> V) (v : V)
  (d : Dict V) :
  In (k, v) (dict_update k0 f d) ->
  In (k, v) d \/ exists v0, In (k, v0) d /\ v = f v0.
Proof.
  induction d as [|[k1 v1] d IH]; simpl; [tauto|].
  destruct (String.eqb k0 k1); simpl.
  - intros [[= <- <-] | Hin]; [right; exists v1; auto | auto].
  - intros [H | Hin]; [auto|].
    destruct (IH Hin) as [H | (v0 & H & ->)]; [auto|].
    right. exists v0. auto.
Qed.

Lemma volumes_after_update (k0 : string) (f : Item.t -> Item.t)
  (d : Dict Item.t) :
  (forall it, Item.get_volume (f it) = Item.get_volume it) ->
  (forall k item, In (k, item) d -> 0 <= Item.get_volume item) ->
  forall k item, In (k, item) (dict_update k0 f d) ->
                 0 <= Item.get_volume item.
Proof.
  intros Hf Hd k item Hin.
  apply In_dict_update in Hin as [Hin | (v0 & Hin & ->)].
  - exact (Hd k item Hin).
  - rewrite Hf. exact (Hd k v0 Hin).
Qed.

Lemma volumes_after_map (g : string * Item.t -> string * Item.t)
  (d : Dict Item.t) :
  (forall kv, Item.get_volume (snd (g kv)) = Item.get_volume (snd kv)) ->
  (forall k item, In (k, item) d -> 0 <= Item.get_volume item) ->
  forall k item, In (k, item) (map g d) -> 0 <= Item.get_volume item.
Proof.
  intros Hg Hd k item Hin. apply in_map_iff in Hin as ([k0 v0] & Heq & Hin).
  specialize (Hg (k0, v0)). rewrite Heq in Hg. cbn [snd] in Hg.
  rewrite Hg. exact (Hd k0 v0 Hin).
Qed.

Lemma containers_after_update (k0 : string) (f : Container.t -> Container.t)
  (d : Dict Container.t) :
  (forall c, container_sound c -> container_sound (f c)) ->
  (forall k c, In (k, c) d -> container_sound c) ->
  forall k c, In (k, c) (dict_update k0 f d) -> container_sound c.
Proof.
  intros Hf Hd k c Hin.
  apply In_dict_update in Hin as [Hin | (c0 & Hin & ->)].
  - exact (Hd k c Hin).
  - apply Hf. exact (Hd k c0 Hin).
Qed.

Lemma use_item_volume (it : Item.t) :
  Item.get_volume (Item.set_currentLocation None (use_item it))
  = Item.get_volume it.
Proof.
  unfold use_item. destruct (0 <? Item.usageLimit it)%Z; [|reflexivity].
  cbn [Item.usageLimit Item.set_usageLimit].
  now destruct (_ =? 0)%Z.
Qed.

Lemma place_one_sound (impl : Space3DImpl) (items0 : Dict Item.t)
  (st : PlacementState impl) (entry : string * Item.t) :
  0 <= Item.get_volume (snd entry) ->
  (forall k item, In (k, item) (ps_items impl st) ->
                  0 <= Item.get_volume item)
  /\ (forall k cs, In (k, cs) (ps_containers impl st) ->
                   container_sound (fst cs)) ->
  (forall k item, In (k, item) (ps_items impl (place_one impl st entry)) ->
                  0 <= Item.get_volume item)
  /\ (forall k cs,
         In (k, cs) (ps_containers impl (place_one impl st entry)) ->
         container_sound (fst cs)).
Proof.
  destruct entry as [key item]. cbn [snd]. intros Hvol [Hitems Hconts].
  unfold place_one.
  destruct (has_location item); [now split|].
  destruct (fold_left _ _ None) as [b|]; [|now split].
  destruct (best_rotation b) as [[w d] h].
  destruct (best_position b) as [[x y] z].
  cbn [ps_items ps_containers]. split.
  - apply volumes_after_update; [reflexivity | exact Hitems].
  - intros k cs Hin.
    apply In_dict_update in Hin as [Hin | (cs0 & Hin & ->)].
    + exact (Hconts k cs Hin).
    + cbn [fst]. apply add_item_sound; [exact Hvol|].
      exact (Hconts k cs0 Hin).
Qed.

Lemma calculate_placement_sound (impl : Space3DImpl) (now : datetime)
  (items : Dict Item.t) (containers : Dict Container.t) :
  dicts_sound items containers ->
  dicts_sound (items_after (calculate_placement impl now items containers))
    (containers_after (calculate_placement impl now items containers)).
Proof.
  intros [Hitems Hconts]. unfold calculate_placement.
  cbn [items_after containers_after].
  match goal with
  | |- context [fold_left (place_one impl) ?l ?st0] =>
      pose proof (fold_left_invariant_In
                    (fun st =>
                       (forall k item, In (k, item) (ps_items impl st) ->
                                       0 <= Item.get_volume item)
                       /\ (forall k cs, In (k, cs) (ps_containers impl st) ->
                                        container_sound (fst cs)))
                    (place_one impl) l st0) as Hfold
  end.
  destruct Hfold as [H1 H2].
  - intros st entry Hentry Hst. apply (place_one_sound impl items);
      [|exact Hst].
    apply sort_by_In in Hentry. destruct entry as [k item].
    exact (Hitems k item Hentry).
  - cbn [ps_items ps_containers]. split; [exact Hitems|].
    intros k cs Hin. apply in_map_iff in Hin as ([k0 c0] & [= <- <-] & Hin).
    exact (Hconts k0 c0 Hin).
  - split; [exact H1|].
    intros k c Hin. apply in_map_iff in Hin as ([k0 cs0] & [= <- <-] & Hin).
    exact (H2 k0 cs0 Hin).
Qed.

Lemma retrieve_item_sound (impl : Space3DImpl)
  (pair_set_order : list (string * string) -> list (string * string))
  (item_id user_id : string) (items : Dict Item.t)
  (containers : Dict Container.t) ok steps items' containers' :
  retrieve_item impl pair_set_order item_id user_id items containers
  = Some (ok, steps, items', containers') ->
  dicts_sound items containers -> dicts_sound items' containers'.
Proof.
  unfold retrieve_item.
  destruct (dict_get item_id items) as [item|] eqn:Hitem;
    [|now intros [= _ _ <- <-]].
  destruct (Item.location_container item) as [cid|];
    [|now intros [= _ _ <- <-]].
  destruct (dict_get cid containers) as [container|];
    [|now intros [= _ _ <- <-]].
  destruct (_generate_optimized_retrieval_steps _ _ _ _ _ _ _ _);
    [|discriminate].
  intros H%Some_eq [Hitems Hconts]. injection H as _ _ <- <-. split.
  - apply volumes_after_update; [apply use_item_volume | exact Hitems].
  - apply containers_after_update; [|exact Hconts].
    intros c Hc. apply remove_item_sound; [|exact Hc].
    apply (Hitems item_id). now apply dict_get_In.
Qed.

Lemma undock_one_sound (st : Dict Item.t * Dict Container.t)
  (item_id : string) :
  dicts_sound (fst st) (snd st) ->
  dicts_sound (fst (undock_one st item_id)) (snd (undock_one st item_id)).
Proof.
  destruct st as [items containers]. cbn [fst snd].
  intros [Hitems Hconts]. unfold undock_one.
  destruct (dict_get item_id items) as [item|] eqn:Hitem; [|now split].
  cbn [fst snd]. split.
  - apply volumes_after_update; [reflexivity | exact Hitems].
  - destruct (Item.location_container item); [|exact Hconts].
    apply containers_after_update; [|exact Hconts].
    intros c Hc. apply remove_item_sound; [|exact Hc].
    apply (Hitems item_id). now apply dict_get_In.
Qed.

Lemma core_step_sound (impl : Space3DImpl)
  (pair_set_order : list (string * string) -> list (string * string))
  (id_set_order : list string -> list string)
  (op : CoreOp) (s s' : Store) :
  core_step impl pair_set_order id_set_order op s = Some s' ->
  store_sound s -> store_sound s'.
Proof.
  destruct op; unfold core_step.
  - intros H%Some_eq. subst s'. apply calculate_placement_sound.
  - destruct (retrieve_item _ _ _ _ _ _) as [[[[ok steps] items'] cs']|]
      eqn:Hr; [|discriminate].
    intros [= <-]. exact (retrieve_item_sound _ _ _ _ _ _ _ _ _ _ Hr).
  - destruct (get_retrieval_path _ _ _ _ _) as [[[[ok steps] items'] cs']|]
      eqn:Hr; [|discriminate].
    intros [= <-].
    apply get_retrieval_path_keeps_store in Hr as [-> ->]. now destruct s.
  - intros H%Some_eq. subst s'. intros [Hitems Hconts].
    split; [|exact Hconts]. cbn [store_items].
    unfold identify_waste_items. cbn [waste_items_after].
    apply volumes_after_map; [|exact Hitems].
    intros kv. now destruct (waste_reason _ (snd kv)).
  - destruct (generate_waste_return_plan _ _ _ _); [|discriminate].
    now intros [= <-].
  - unfold simulate_days. intros [= <-] [Hitems Hconts].
    split; [|exact Hconts]. cbn [store_items].
    apply volumes_after_map; [|exact Hitems].
    intros kv. now destruct (expires_in_window _ _ (snd kv)).
  - unfold complete_undocking.
    match goal with
    | |- context [fold_left undock_one ?l ?st0] =>
        pose proof (fold_left_invariant_In
                      (fun st => dicts_sound (fst st) (snd st))
                      undock_one l st0
                      (fun st id _ => undock_one_sound st id)) as Hfold;
        destruct (fold_left undock_one l st0) as [items' containers']
    end.
    intros [= <-] Hs. exact (Hfold Hs).
Qed.

(** X22. Along any sequence of core operations the stores stay sound:
    if no item has a negative volume and every container starts with an
    occupied volume between 0 and its capacity and a duplicate-free item
    list, the same holds after the operations. *)
Theorem core_operations_keep_stores_sound (impl : Space3DImpl)
  (pair_set_order : list (string * string) -> list (string * string))
  (id_set_order : list string -> list string)
  (ops : list CoreOp) (s s' : Store) :
  core_run impl pair_set_order id_set_order ops s = Some s' ->
  store_sound s -> store_sound s'.
Proof.
  revert s. induction ops as [|op rest IH]; intros s; simpl.
  - now intros [= <-].
  - destruct (core_step _ _ _ op s) as [s1|] eqn:Hstep; [|discriminate].
    intros Hrun Hs. apply (IH s1 Hrun).
    exact (core_step_sound _ _ _ _ _ _ Hstep Hs).
Qed.

Lemma core_operations_keep_stores_sound_witness :
  exists s',
    core_run grid_space insertion_order insertion_order S8_ops S8_store
    = Some s'
    /\ store_sound s'.
Proof.
  eexists. split; [vm_compute; reflexivity|].
  eapply (core_operations_keep_stores_sound grid_space insertion_order
            insertion_order S8_ops S8_store).
  - vm_compute. reflexivity.
  - split; simpl.
    + intros k item H.
      repeat (destruct H as [[= <- <-] | H]; [vm_compute; discriminate|]).
      destruct H.
    + intros k c H.
      repeat (destruct H as [[= <- <-] | H];
              [repeat split; try (vm_compute; discriminate);
               repeat constructor; simpl; intuition discriminate|]).
      destruct H.
Defined.

(** ** Placement *)

Lemma add_item_same_box (item_id : string) (volume : Q) (c : Container.t) :
  same_box c (fst (Container.add_item item_id volume c)).
Proof.
  unfold Container.add_item, same_box.
  destruct (Qltb _ volume); cbn; repeat split; reflexivity.
Qed.

Lemma same_box_trans (a b c : Container.t) :
  same_box a b -> same_box b c -> same_box a c.
Proof.
  unfold same_box. intros (H1 & H2 & H3 & H4 & H5) (K1 & K2 & K3 & K4 & K5).
  repeat split; congruence.
Qed.

Lemma same_box_refl (c : Container.t) : same_box c c.
Proof. unfold same_box. repeat split; reflexivity. Qed.

Section PlacementFacts.
Variable impl : Space3DImpl.

Lemma try_rotation_ok (item : Item.t)
  (cs : Dict (Container.t * Space3D impl)) (container_id : string)
  (container : Container.t) (space_model : Space3D impl) (base_score : Q)
  (best : option Best) (rotation : Triple) :
  In (container_id, (container, space_model)) cs ->
  In rotation (Item.get_all_rotations item) ->
  opt_best_ok impl item cs best ->
  opt_best_ok impl item cs
    (try_rotation impl item container_id container space_model base_score
                  best rotation).
Proof.
  intros Hc Hr Hbest. unfold try_rotation.
  destruct rotation as [[w d] h].
  destruct (Qltb (Container.width container) w) eqn:Hw; [exact Hbest|].
  destruct (Qltb (Container.depth container) d) eqn:Hd; [exact Hbest|].
  destruct (Qltb (Container.height container) h) eqn:Hh; [exact Hbest|].
  cbn [orb].
  destruct (find_position impl space_model w d h) as [[[x y] z]|];
    [|exact Hbest].
  apply Qltb_ge in Hw, Hd, Hh.
  assert (best_ok impl item cs
            (Build_Best
               (base_score + 500 * (inject_Z (Item.priority item) / 100)
                - inject_Z (calculate_retrieval_complexity impl space_model
                                                           x y z w d h) * 50)
               container_id container (x, y, z) (w, d, h))) as Hcand.
  { unfold best_ok. cbn [best_rotation best_container best_key].
    split; [exact Hr|]. split; [now repeat split|]. now exists space_model. }
  destruct best as [b|]; [|exact Hcand].
  destruct (Qltb (best_score b) _); [exact Hcand | exact Hbest].
Qed.

Lemma try_container_ok (item : Item.t)
  (cs : Dict (Container.t * Space3D impl))
  (best : option Best) (entry : string * (Container.t * Space3D impl)) :
  In entry cs ->
  opt_best_ok impl item cs best ->
  opt_best_ok impl item cs (try_container impl item best entry).
Proof.
  destruct entry as [container_id [container space_model]].
  intros Hin Hbest. unfold try_container.
  destruct (Container.is_full container); [exact Hbest|].
  apply fold_left_invariant_In; [|exact Hbest].
  intros st rotation Hr Hst. now apply try_rotation_ok.
Qed.

Lemma best_of_containers_ok (item : Item.t)
  (cs : Dict (Container.t * Space3D impl)) :
  opt_best_ok impl item cs (fold_left (try_container impl item) cs None).
Proof.
  apply fold_left_invariant_In; [|exact I].
  intros st entry Hin Hst. now apply try_container_ok.
Qed.

Lemma fits_in_same_box (rotation : Triple) (c c' : Container.t) :
  same_box c c' -> fits_in rotation c' -> fits_in rotation c.
Proof.
  unfold same_box, fits_in. destruct rotation as [[w d] h].
  intros (_ & _ & -> & -> & ->). tauto.
Qed.

Lemma place_one_ok (items : Dict Item.t) (containers : Dict Container.t)
  (st : PlacementState impl) (entry : string * Item.t) :
  In entry items ->
  boxes_of impl containers (ps_containers impl st)
  /\ Forall (placement_ok items containers) (ps_placements impl st) ->
  boxes_of impl containers (ps_containers impl (place_one impl st entry))
  /\ Forall (placement_ok items containers)
            (ps_placements impl (place_one impl st entry)).
Proof.
  destruct entry as [key item]. intros Hin [Hboxes Hps].
  unfold place_one.
  destruct (has_location item) eqn:Hloc; [now split|].
  pose proof (best_of_containers_ok item (ps_containers impl st)) as Hb.
  destruct (fold_left _ _ None) as [b|]; [|now split].
  destruct Hb as (Hrot & Hfit & sp & Hcs).
  destruct (best_rotation b) as [[w d] h] eqn:Hr.
  destruct (best_position b) as [[x y] z] eqn:Hp.
  cbn [ps_containers ps_placements]. split.
  - intros k c sp' Hk.
    apply In_dict_update in Hk as [Hk | ([c0 sp0] & Hk & [= -> ->])].
    + exact (Hboxes k c sp' Hk).
    + destruct (Hboxes k c0 sp0 Hk) as (c1 & Hc1 & Hsame).
      exists c1. split; [exact Hc1|]. cbn [fst].
      eapply same_box_trans; [exact Hsame | apply add_item_same_box].
  - apply Forall_app. split; [exact Hps|]. constructor; [|constructor].
    destruct (Hboxes _ _ _ Hcs) as (c0 & Hc0 & Hsame).
    split.
    + exists key, item. cbn [ItemPlacement.itemId ItemPlacement.rotation].
      now repeat split.
    + exists (best_key b), c0.
      cbn [ItemPlacement.containerId ItemPlacement.rotation].
      split; [exact Hc0|]. split.
      * destruct Hsame as (Hid & _). exact Hid.
      * exact (fits_in_same_box _ _ _ Hsame Hfit).
Qed.

End PlacementFacts.

(** X23. Every placement of the plan is for an item of the dict that had
    no location; its rotation is one of the six rotations of the item, and
    it names a container of the dict in which that rotation is not larger
    than the container in any dimension. *)
Theorem placements_use_a_rotation_that_fits (impl : Space3DImpl)
  (now : datetime) (items : Dict Item.t) (containers : Dict Container.t) :
  Forall
    (fun p =>
       (exists key item,
           In (key, item) items
           /\ has_location item = false
           /\ ItemPlacement.itemId p = Item.itemId item
           /\ In (ItemPlacement.rotation p) (Item.get_all_rotations item))
       /\ (exists key container,
              In (key, container) containers
              /\ ItemPlacement.containerId p
                 = Container.containerId container
              /\ fits_in (ItemPlacement.rotation p) container))
    (placements (calculate_placement impl now items containers)).
Proof.
  unfold calculate_placement. cbn [placements].
  match goal with
  | |- Forall _ (ps_placements _ (fold_left _ ?l ?st0)) =>
      pose proof (fold_left_invariant_In
                    (fun st =>
                       boxes_of impl containers (ps_containers impl st)
                       /\ Forall (placement_ok items containers)
                                 (ps_placements impl st))
                    (place_one impl) l st0) as Hfold
  end.
  apply Hfold.
  - intros st entry Hin Hst. apply place_one_ok; [|exact Hst].
    now apply sort_by_In in Hin.
  - cbn [ps_containers ps_placements]. split; [|constructor].
    intros k c sp Hin.
    apply in_map_iff in Hin as ([k0 c0] & [= <- <- <-] & Hin).
    exists c0. split; [exact Hin | apply same_box_refl].
Qed.

Lemma placed_or_kept_mono (plan plan' : list ItemPlacement.t)
  (item : Item.t) (after : option Item.t) :
  (forall p, In p plan -> In p plan') ->
  placed_or_kept plan item after -> placed_or_kept plan' item after.
Proof.
  intros Hsub [H | (Hloc & p & Hp & Hid & Hafter)]; [now left|].
  right. split; [exact Hloc|]. exists p. auto.
Qed.

Lemma place_one_items (impl : Space3DImpl) (st : PlacementState impl)
  (key : string) (item : Item.t) :
  dict_get key (ps_items impl st) = Some item ->
  (forall k, k <> key ->
             dict_get k (ps_items impl (place_one impl st (key, item)))
             = dict_get k (ps_items impl st))
  /\ (forall p, In p (ps_placements impl st) ->
                In p (ps_placements impl (place_one impl st (key, item))))
  /\ placed_or_kept (ps_placements impl (place_one impl st (key, item)))
       item (dict_get key (ps_items impl (place_one impl st (key, item)))).
Proof.
  intros Hget. unfold place_one.
  destruct (has_location item) eqn:Hloc;
    [split; [reflexivity | split; [auto | now left]]|].
  destruct (fold_left _ _ None) as [b|];
    [|split; [reflexivity | split; [auto | now left]]].
  destruct (best_rotation b) as [[w d] h] eqn:Hr.
  destruct (best_position b) as [[x y] z] eqn:Hp.
  cbn [ps_items ps_placements]. split; [|split].
  - intros k Hk. rewrite dict_get_update.
    destruct (String.eqb_spec key k) as [->|_]; [contradiction | reflexivity].
  - intros p Hin. apply in_or_app. now left.
  - right. split; [exact Hloc|].
    eexists. split; [apply in_or_app; right; left; reflexivity|].
    split; [reflexivity|].
    rewrite dict_get_update, String.eqb_refl, Hget. reflexivity.
Qed.

Lemma place_loop_items (impl : Space3DImpl) (l : Dict Item.t) :
  forall st : PlacementState impl,
    NoDup (map fst l) ->
    (forall k it, In (k, it) l -> dict_get k (ps_items impl st) = Some it) ->
    (forall k, ~ In k (map fst l) ->
               dict_get k (ps_items impl (fold_left (place_one impl) l st))
               = dict_get k (ps_items impl st))
    /\ (forall p, In p (ps_placements impl st) ->
                  In p (ps_placements impl
                          (fold_left (place_one impl) l st)))
    /\ (forall k it,
           In (k, it) l ->
           placed_or_kept
             (ps_placements impl (fold_left (place_one impl) l st)) it
             (dict_get k
                (ps_items impl (fold_left (place_one impl) l st)))).
Proof.
  induction l as [|[k0 it0] rest IH]; intros st Hnd Hst.
  - simpl. split; [reflexivity | split; [auto | intros k it []]].
  - inversion Hnd as [|? ? Hnotin Hnd']; subst.
    destruct (place_one_items impl st k0 it0) as (Hother & Hgrow & Hk0).
    { apply Hst. now left. }
    destruct (IH (place_one impl st (k0, it0)) Hnd') as (Hout & Hmono & Hin).
    { intros k it Hk. rewrite Hother.
      - apply Hst. now right.
      - intros ->. apply Hnotin. apply (in_map fst) in Hk. exact Hk. }
    cbn [fold_left]. split; [|split].
    + intros k Hk. rewrite Hout.
      * apply Hother. intros ->. apply Hk. now left.
      * intros Hk'. apply Hk. now right.
    + intros p Hp. apply Hmono, Hgrow, Hp.
    + intros k it [[= <- <-] | Hk].
      * rewrite (Hout k0 Hnotin).
        exact (placed_or_kept_mono _ _ _ _ Hmono Hk0).
      * exact (Hin k it Hk).
Qed.

(** X24. The placement loop changes an item of the dict only by placing
    it: afterwards the item stored under a key is the one stored before,
    or the item had no location and now carries the container, position
    and rotation of a placement of the plan that names it, with every
    other field as before. In particular an item that has a location is
    left as it is. *)
Theorem placement_changes_only_the_location_of_placed_items
  (impl : Space3DImpl) (now : datetime) (items : Dict Item.t)
  (containers : Dict Container.t) (key : string) (item : Item.t) :
  NoDup (map fst items) ->
  In (key, item) items ->
  let r := calculate_placement impl now items containers in
  (dict_get key (items_after r) = Some item
   \/ (has_location item = false
       /\ exists p,
            In p (placements r)
            /\ ItemPlacement.itemId p = Item.itemId item
            /\ dict_get key (items_after r)
               = Some (Item.set_currentLocation (Some (location_of p))
                                                item)))
  /\ (has_location item = true -> dict_get key (items_after r) = Some item).
Proof.
  intros Hnd Hin r.
  assert (placed_or_kept (placements r) item
                         (dict_get key (items_after r))) as H.
  { subst r. unfold calculate_placement. cbn [placements items_after].
    match goal with
    | |- context [fold_left (place_one impl) ?l ?st0] =>
        destruct (place_loop_items impl l st0) as (_ & _ & Hl)
    end.
    - eapply Permutation_NoDup; [|exact Hnd].
      apply Permutation_map, Permutation_sym, sort_by_perm.
    - intros k it Hk. apply sort_by_In in Hk. cbn [ps_items].
      now apply In_dict_get.
    - apply Hl. now apply sort_by_In. }
  split; [exact H|].
  intros Hloc. destruct H as [H | (Hno & _)]; [exact H | congruence].
Qed.

Lemma placement_changes_only_the_location_of_placed_items_witness :
  let item := mk_item "A" 8 8 8 1 50 NA 10 "Z" false None in
  let r := calculate_placement grid_space 0%Z twin_items small_container in
  (dict_get "A" (items_after r) = Some item
   \/ (has_location item = false
       /\ exists p,
            In p (placements r)
            /\ ItemPlacement.itemId p = Item.itemId item
            /\ dict_get "A" (items_after r)
               = Some (Item.set_currentLocation (Some (location_of p))
                                                item)))
  /\ (has_location item = true -> dict_get "A" (items_after r) = Some item).
Proof.
  apply (placement_changes_only_the_location_of_placed_items grid_space 0%Z
           twin_items small_container "A"
           (mk_item "A" 8 8 8 1 50 NA 10 "Z" false None)).
  - repeat constructor; simpl; intuition discriminate.
  - now left.
Defined.

(** ** The rearrangement plan *)

Lemma low_priority_candidates_spec (target_item : Item.t)
  (all_items : Dict Item.t) (containers : Dict Container.t)
  (candidate : Candidate) :
  In candidate (low_priority_candidates target_item all_items containers) ->
  exists key item_id,
    In (key, cand_container candidate) containers
    /\ Container.zone (cand_container candidate)
       = Item.preferredZone target_item
    /\ In item_id (Container.items (cand_container candidate))
    /\ dict_get item_id all_items = Some (cand_item candidate)
    /\ (Item.priority (cand_item candidate) < Item.priority target_item)%Z.
Proof.
  unfold low_priority_candidates. intros Hin.
  apply in_flat_map in Hin as ([key container] & Hc & Hin). cbn [snd] in Hin.
  destruct (String.eqb_spec (Container.zone container)
                            (Item.preferredZone target_item)) as [Hz|_];
    [|destruct Hin].
  cbn [negb] in Hin. apply in_flat_map in Hin as (item_id & Hid & Hin).
  destruct (dict_get item_id all_items) as [item|] eqn:Hget; [|destruct Hin].
  destruct (Z.ltb_spec (Item.priority item) (Item.priority target_item))
    as [Hlt|_]; [|destruct Hin].
  destruct Hin as [<- | []]. cbn [cand_container cand_item].
  exists key, item_id. repeat split; assumption.
Qed.

Lemma find_alt_container_spec (preferred_zone : string) (item : Item.t)
  (containers : Dict Container.t) (alt_container : Container.t) :
  find_alt_container preferred_zone item containers = Some alt_container ->
  exists alt_key,
    In (alt_key, alt_container) containers
    /\ Container.zone alt_container <> preferred_zone
    /\ Container.is_full alt_container = false
    /\ Item.get_volume item <= Container.get_available_space alt_container.
Proof.
  unfold find_alt_container.
  destruct (filter _ containers) as [|[k c] rest] eqn:Hf; [discriminate|].
  intros [= <-].
  assert (In (k, c) (filter
            (fun kv =>
               negb (String.eqb (Container.zone (snd kv)) preferred_zone
                     || Container.is_full (snd kv)
                     || Qltb (Container.get_available_space (snd kv))
                             (Item.get_volume item)))
            containers)) as Hin by (rewrite Hf; now left).
  apply filter_In in Hin as [Hin Htest]. cbn [snd] in Htest.
  apply negb_true_iff in Htest.
  apply orb_false_iff in Htest as [Htest Hvol].
  apply orb_false_iff in Htest as [Hzone Hfull].
  exists k. repeat split; try assumption.
  - now apply String.eqb_neq.
  - now apply Qltb_ge.
Qed.

Section RearrangementFacts.
Variables (unplaced_items : list Item.t) (all_items : Dict Item.t)
          (containers : Dict Container.t).

Lemma move_candidates_ok (target_item : Item.t)
  (candidates : list Candidate) :
  In target_item unplaced_items ->
  (forall c, In c candidates ->
             In c (low_priority_candidates target_item all_items
                                           containers)) ->
  forall (st : StepState) (moved_volume : Q),
    Forall (rearrangement_step_ok unplaced_items all_items containers)
           (fst st) ->
    Forall (rearrangement_step_ok unplaced_items all_items containers)
           (fst (fst (move_candidates (Item.preferredZone target_item)
                        (Item.get_volume target_item) containers
                        candidates st moved_volume))).
Proof.
  intros Htarget. induction candidates as [|c rest IH];
    intros Hcands st moved_volume Hst; simpl.
  - exact Hst.
  - destruct (Qleb _ moved_volume); [exact Hst|].
    apply IH; [intros c' Hc'; apply Hcands; now right|].
    apply emit_Forall; [|exact Hst].
    destruct (low_priority_candidates_spec target_item all_items containers
                c) as (key & item_id & Hin & Hzone & Hid & Hget & Hprio).
    { apply Hcands. now left. }
    exists target_item. split; [exact Htarget|]. split; [reflexivity|].
    left. split; [reflexivity|].
    exists key, (cand_container c), item_id, (cand_item c).
    cbn [RearrangementStep.itemId RearrangementStep.fromContainer
         RearrangementStep.toContainer].
    repeat (split; [assumption || reflexivity|]).
    destruct (find_alt_container _ _ _) as [alt|] eqn:Halt; [|now left].
    right. apply find_alt_container_spec in Halt
      as (alt_key & Hk & Hz & Hfull & Hvol).
    exists alt_key, alt. repeat split; assumption.
Qed.

Lemma rearrange_for_ok (st : StepState) (target_item : Item.t) :
  In target_item unplaced_items ->
  Forall (rearrangement_step_ok unplaced_items all_items containers)
         (fst st) ->
  Forall (rearrangement_step_ok unplaced_items all_items containers)
         (fst (rearrange_for all_items containers st target_item)).
Proof.
  intros Htarget Hst. unfold rearrange_for.
  pose proof (move_candidates_ok target_item
                (sort_by Qltb value_density
                   (low_priority_candidates target_item all_items
                                            containers))
                Htarget
                (fun c Hc => proj1 (sort_by_In _ _ _ _) Hc)
                st 0 Hst) as Hmoves.
  destruct (move_candidates _ _ _ _ st 0) as [st1 moved_volume].
  cbn [fst] in Hmoves.
  destruct (Qleb _ moved_volume); [|exact Hmoves].
  destruct (filter _ containers) as [|[k c] rest] eqn:Hf; [exact Hmoves|].
  apply emit_Forall; [|exact Hmoves].
  assert (In (k, c) (filter
            (fun kv => String.eqb (Container.zone (snd kv))
                                  (Item.preferredZone target_item))
            containers)) as Hin by (rewrite Hf; now left).
  apply filter_In in Hin as [Hin Hzone]. apply String.eqb_eq in Hzone.
  exists target_item. split; [exact Htarget|]. split; [reflexivity|].
  right. split; [reflexivity|]. split; [reflexivity|].
  split; [reflexivity|]. now exists k, c.
Qed.

End RearrangementFacts.

Lemma In_firstn {A : Type} (n : nat) (x : A) (l : list A) :
  In x (firstn n l) -> In x l.
Proof.
  intros Hin. rewrite <- (firstn_skipn n l). apply in_or_app. now left.
Qed.

(** X25. Every step of a rearrangement plan belongs to an unplaced
    target item and has no position. It is either the move of an item
    that is listed in a container of the target's preferred zone, is
    stored under that id in the item dict and has a strictly lower
    priority than the target, out of that container and to
    "temporary_storage" or to a container of another zone that is not
    full and has the free volume for it; or it is the placement of the
    target into a container of its preferred zone. *)
Theorem rearrangement_plan_steps_are_moves_and_placements
  (unplaced_items : list Item.t) (all_items : Dict Item.t)
  (containers : Dict Container.t) :
  Forall (rearrangement_step_ok unplaced_items all_items containers)
         (_generate_rearrangement_plan unplaced_items all_items containers).
Proof.
  unfold _generate_rearrangement_plan.
  apply (fold_left_invariant_In
           (fun st =>
              Forall (rearrangement_step_ok unplaced_items all_items
                                            containers) (fst st))).
  - intros st target_item Hin Hst. apply rearrange_for_ok; [|exact Hst].
    apply In_firstn in Hin. now apply sort_by_In in Hin.
  - constructor.
Qed.

Lemma count_place_app (a b : list RearrangementStep.t) :
  count_place (a ++ b) = (count_place a + count_place b)%nat.
Proof. unfold count_place. now rewrite filter_app, length_app. Qed.

Lemma move_candidates_count_place (preferred_zone : string)
  (target_volume : Q) (containers : Dict Container.t)
  (candidates : list Candidate) :
  forall (st : StepState) (moved_volume : Q),
    count_place (fst (fst (move_candidates preferred_zone target_volume
                             containers candidates st moved_volume)))
    = count_place (fst st).
Proof.
  induction candidates as [|c rest IH]; intros st moved_volume; simpl.
  - reflexivity.
  - destruct (Qleb target_volume moved_volume); [reflexivity|].
    rewrite IH. unfold emit. cbn [fst]. rewrite count_place_app.
    cbn. lia.
Qed.

Lemma rearrange_for_count_place (all_items : Dict Item.t)
  (containers : Dict Container.t) (st : StepState) (target_item : Item.t) :
  (count_place (fst (rearrange_for all_items containers st target_item))
   <= count_place (fst st) + 1)%nat.
Proof.
  unfold rearrange_for.
  pose proof (move_candidates_count_place (Item.preferredZone target_item)
                (Item.get_volume target_item) containers
                (sort_by Qltb value_density
                   (low_priority_candidates target_item all_items
                                            containers))
                st 0) as Hmoves.
  destruct (move_candidates _ _ _ _ st 0) as [st1 moved_volume].
  cbn [fst] in Hmoves.
  destruct (Qleb _ moved_volume); [|lia].
  destruct (filter _ containers) as [|[k c] rest]; [lia|].
  unfold emit. cbn [fst]. rewrite count_place_app. cbn. lia.
Qed.

Lemma rearrange_loop_count_place (all_items : Dict Item.t)
  (containers : Dict Container.t) (targets : list Item.t) :
  forall st : StepState,
    (count_place (fst (fold_left (rearrange_for all_items containers)
                                 targets st))
     <= count_place (fst st) + List.length targets)%nat.
Proof.
  induction targets as [|t rest IH]; intros st; simpl; [lia|].
  specialize (IH (rearrange_for all_items containers st t)).
  pose proof (rearrange_for_count_place all_items containers st t). lia.
Qed.

(** X26. A rearrangement plan holds at most five "place" steps, and no
    more than there are unplaced items: only the five unplaced items of
    highest priority are planned for, and each gets at most one. *)
Theorem rearrangement_plan_places_at_most_five
  (unplaced_items : list Item.t) (all_items : Dict Item.t)
  (containers : Dict Container.t) :
  (count_place (_generate_rearrangement_plan unplaced_items all_items
                                             containers)
   <= Nat.min 5 (List.length unplaced_items))%nat.
Proof.
  unfold _generate_rearrangement_plan.
  etransitivity; [apply rearrange_loop_count_place|].
  rewrite length_firstn, sort_by_length. cbn. lia.
Qed.

(** ** The legacy position search *)

Lemma find_best_position_none (impl : Space3DImpl) (item : Item.t)
  (container : Container.t) :
  _find_best_position impl item container = (None, None)
  <-> forallb (rotation_rejected impl container
                 (Space3D_new impl (Container.width container)
                              (Container.depth container)
                              (Container.height container)))
              (Item.get_all_rotations item) = true.
Proof.
  unfold _find_best_position.
  generalize (Item.get_all_rotations item) as rotations.
  induction rotations as [|[[w d] h] rest IH]; [now split|].
  cbn [forallb]. unfold rotation_rejected at 1.
  destruct (Qltb (Container.width container) w
            || Qltb (Container.depth container) d
            || Qltb (Container.height container) h); [exact IH|].
  cbn [orb].
  destruct (find_position impl _ w d h); [|exact IH].
  split; discriminate.
Qed.

Lemma try_rotation_some (impl : Space3DImpl) (item : Item.t)
  (container_id : string) (container : Container.t)
  (space_model : Space3D impl) (base_score : Q) (b : Best)
  (rotation : Triple) :
  exists b',
    try_rotation impl item container_id container space_model base_score
                 (Some b) rotation = Some b'.
Proof.
  unfold try_rotation. destruct rotation as [[w d] h].
  destruct (_ || _ || _); [now exists b|].
  destruct (find_position impl space_model w d h) as [[[x y] z]|];
    [|now exists b].
  destruct (Qltb (best_score b) _); eexists; reflexivity.
Qed.

Lemma try_rotations_some (impl : Space3DImpl) (item : Item.t)
  (container_id : string) (container : Container.t)
  (space_model : Space3D impl) (base_score : Q) (rotations : list Triple) :
  forall b, exists b',
    fold_left (try_rotation impl item container_id container space_model
                            base_score)
              rotations (Some b) = Some b'.
Proof.
  induction rotations as [|r rest IH]; intros b; simpl; [now exists b|].
  destruct (try_rotation_some impl item container_id container space_model
              base_score b r) as (b1 & ->).
  apply IH.
Qed.

Lemma try_rotations_none (impl : Space3DImpl) (item : Item.t)
  (container_id : string) (container : Container.t)
  (space_model : Space3D impl) (base_score : Q) (rotations : list Triple) :
  fold_left (try_rotation impl item container_id container space_model
                          base_score)
            rotations None = None
  <-> forallb (rotation_rejected impl container space_model) rotations
      = true.
Proof.
  induction rotations as [|[[w d] h] rest IH]; [now split|].
  cbn [fold_left forallb]. unfold rotation_rejected at 1.
  unfold try_rotation at 2.
  destruct (Qltb (Container.width container) w
            || Qltb (Container.depth container) d
            || Qltb (Container.height container) h); [exact IH|].
  cbn [orb].
  destruct (find_position impl space_model w d h) as [[[x y] z]|];
    [|exact IH].
  cbn [andb]. split; [|discriminate].
  match goal with
  | |- fold_left _ _ (Some ?b) = None -> _ =>
      destruct (try_rotations_some impl item container_id container
                  space_model base_score rest b) as (b' & ->)
  end.
  discriminate.
Qed.

(** X27. For one item without a location and one container that is not
    full, [calculate_placement] places nothing exactly when the legacy
    search [_find_best_position] finds nothing: both try the six
    rotations against a model of the empty container. *)
Theorem nothing_placed_iff_legacy_search_fails (impl : Space3DImpl)
  (now : datetime) (key : string) (item : Item.t) (container_key : string)
  (container : Container.t) :
  has_location item = false ->
  Container.is_full container = false ->
  placements (calculate_placement impl now [(key, item)]
                                  [(container_key, container)]) = []
  <-> _find_best_position impl item container = (None, None).
Proof.
  intros Hloc Hfull. rewrite find_best_position_none.
  unfold calculate_placement. cbn [placements map fst snd].
  change (sort_by QQltb _ [(key, item)]) with [(key, item)].
  cbn [fold_left]. unfold place_one at 1. rewrite Hloc.
  cbn [ps_containers fold_left].
  unfold try_container at 1. rewrite Hfull.
  rewrite <- (try_rotations_none impl item container_key container _
                (if String.eqb (Container.zone container)
                               (Item.preferredZone item)
                 then 1000 else 0)).
  destruct (fold_left _ (Item.get_all_rotations item) None) as [b|].
  - destruct (best_rotation b) as [[w d] h].
    destruct (best_position b) as [[x y] z].
    cbn [ps_placements app]. split; discriminate.
  - cbn [ps_placements]. now split.
Qed.

Lemma nothing_placed_iff_legacy_search_fails_witness :
  placements (calculate_placement grid_space 0%Z
                [("A", mk_item "A" 8 8 8 1 50 NA 10 "Z" false None)]
                small_container) = []
  <-> _find_best_position grid_space
        (mk_item "A" 8 8 8 1 50 NA 10 "Z" false None)
        (Container.mk "C" "Z" 10 10 10 0 []) = (None, None).
Proof.
  apply (nothing_placed_iff_legacy_search_fails grid_space 0%Z "A"
           (mk_item "A" 8 8 8 1 50 NA 10 "Z" false None) "C"
           (Container.mk "C" "Z" 10 10 10 0 []));
    reflexivity.
Defined.

(** ** Search *)

Lemma get_item_location_itemId (impl : Space3DImpl) (item_id : string)
  (items : Dict Item.t) (containers : Dict Container.t)
  (loc : ItemLocation.t) :
  get_item_location impl item_id items containers = Some loc ->
  ItemLocation.itemId loc = item_id
  /\ exists item, dict_get item_id items = Some item.
Proof.
  unfold get_item_location.
  destruct (dict_get item_id items) as [item|]; [|discriminate].
  destruct (Item.location_container item) as [cid|]; [|discriminate].
  destruct (dict_get cid containers) as [container|]; [|discriminate].
  destruct (_calculate_retrieval_complexity _ _ _ _ _ _) as [n blocked].
  intros [= <-]. split; [reflexivity | now exists item].
Qed.

Lemma In_location_list (impl : Space3DImpl) (item_id : string)
  (items : Dict Item.t) (containers : Dict Container.t)
  (loc : ItemLocation.t) :
  In loc (location_list impl item_id items containers)
  <-> get_item_location impl item_id items containers = Some loc.
Proof.
  unfold location_list.
  destruct (get_item_location impl item_id items containers) as [l|].
  - simpl. split; [intros [-> | []]; reflexivity | intros [= ->]; now left].
  - simpl. split; [tauto | discriminate].
Qed.

Lemma dict_mem_In {V : Type} (k : string) (v : V) (d : Dict V) :
  In (k, v) d -> dict_mem k d = true.
Proof.
  unfold dict_mem. intros Hin.
  destruct (In_keys_dict_get k d) as (v' & ->); [|reflexivity].
  apply (in_map fst) in Hin. exact Hin.
Qed.

Section SearchFacts.
Variables (impl : Space3DImpl) (lower : string -> string)
          (clock : nat -> datetime).

Lemma In_matching_items (query : string) (items : Dict Item.t)
  (containers : Dict Container.t) (loc : ItemLocation.t) :
  In loc (matching_items impl lower query items containers)
  <-> get_item_location impl (ItemLocation.itemId loc) items containers
      = Some loc
      /\ exists item,
           In (ItemLocation.itemId loc, item) items
           /\ (ItemLocation.itemId loc = query
               \/ contains (lower query) (lower (Item.name item)) = true).
Proof.
  unfold matching_items. rewrite in_app_iff, in_flat_map. split.
  - intros [Hexact | ([item_id item] & Hin & Hloc)].
    + destruct (dict_mem query items) eqn:Hmem; [|destruct Hexact].
      apply In_location_list in Hexact.
      destruct (get_item_location_itemId _ _ _ _ _ Hexact)
        as (Hid & item & Hget).
      rewrite Hid. split; [exact Hexact|].
      exists item. split; [now apply dict_get_In | now left].
    + destruct (String.eqb item_id query); [destruct Hloc|].
      destruct (contains _ _) eqn:Hname; [|destruct Hloc].
      apply In_location_list in Hloc.
      destruct (get_item_location_itemId _ _ _ _ _ Hloc) as (Hid & _).
      rewrite Hid. split; [exact Hloc|].
      exists item. split; [exact Hin | now right].
  - intros (Hloc & item & Hin & Hmatch).
    destruct (String.eqb_spec (ItemLocation.itemId loc) query) as [Heq|Hne].
    + left. rewrite <- Heq, (dict_mem_In _ _ _ Hin).
      now apply In_location_list.
    + right. destruct Hmatch as [Heq | Hname]; [contradiction|].
      exists (ItemLocation.itemId loc, item). split; [exact Hin|].
      apply String.eqb_neq in Hne. rewrite Hne, Hname.
      now apply In_location_list.
Qed.

Lemma sort_keys_defined (items : Dict Item.t)
  (hits : list ItemLocation.t) :
  (forall loc, In loc hits ->
               exists item,
                 dict_get (ItemLocation.itemId loc) items = Some item) ->
  forall i, exists keyed,
    sort_keys clock items i hits = Some keyed
    /\ map snd keyed = hits
    /\ Forall (fun kl => fst (fst (fst kl))
                         = ItemLocation.retrievalSteps (snd kl)) keyed.
Proof.
  induction hits as [|loc rest IH]; intros Hall i.
  - exists []. repeat split. constructor.
  - destruct (Hall loc (or_introl eq_refl)) as (item & Hget).
    destruct (IH (fun l Hl => Hall l (or_intror Hl)) (S i))
      as (keyed & Hkeys & Hsnd & Hfst).
    cbn [sort_keys]. unfold get_sort_key. rewrite Hget, Hkeys.
    eexists. split; [reflexivity|]. split.
    + cbn [map snd]. now rewrite Hsnd.
    + constructor; [reflexivity | exact Hfst].
Qed.

Lemma search_items_defined (query : string) (items : Dict Item.t)
  (containers : Dict Container.t) :
  exists keyed,
    search_items impl lower clock query items containers
    = Some (map snd (sort_by ZZZltb fst keyed))
    /\ map snd keyed = matching_items impl lower query items containers
    /\ Forall (fun kl => fst (fst (fst kl))
                         = ItemLocation.retrievalSteps (snd kl)) keyed.
Proof.
  destruct (sort_keys_defined items
              (matching_items impl lower query items containers))
    with (i := 0%nat) as (keyed & Hkeys & Hsnd & Hfst).
  - intros loc Hin. apply In_matching_items in Hin as (Hloc & _).
    apply get_item_location_itemId in Hloc as (_ & Hitem). exact Hitem.
  - exists keyed. unfold search_items. rewrite Hkeys. auto.
Qed.

Lemma search_items_perm (query : string) (items : Dict Item.t)
  (containers : Dict Container.t) :
  exists hits,
    search_items impl lower clock query items containers = Some hits
    /\ Permutation hits (matching_items impl lower query items containers).
Proof.
  destruct (search_items_defined query items containers)
    as (keyed & Hsearch & Hsnd & _).
  eexists. split; [exact Hsearch|].
  rewrite <- Hsnd. apply Permutation_map, sort_by_perm.
Qed.

End SearchFacts.

(** X28. [search_items] never fails on the lookup of a hit in the item
    dict, and its hits are exactly the locations of the items of the dict
    that [get_item_location] can locate and whose key is the query or
    whose lowered name contains the lowered query. *)
Theorem search_items_lists_the_matching_located_items
  (impl : Space3DImpl) (lower : string -> string) (clock : nat -> datetime)
  (query : string) (items : Dict Item.t) (containers : Dict Container.t) :
  exists hits,
    search_items impl lower clock query items containers = Some hits
    /\ forall loc,
         In loc hits
         <-> get_item_location impl (ItemLocation.itemId loc) items
                               containers = Some loc
             /\ exists item,
                  In (ItemLocation.itemId loc, item) items
                  /\ (ItemLocation.itemId loc = query
                      \/ contains (lower query) (lower (Item.name item))
                         = true).
Proof.
  destruct (search_items_perm impl lower clock query items containers)
    as (hits & Hsearch & Hperm).
  exists hits. split; [exact Hsearch|]. intros loc.
  rewrite <- In_matching_items. split; apply Permutation_in;
    [exact Hperm | apply Permutation_sym, Hperm].
Qed.

Lemma ZZZltb_first (a b : Z * Z * Z) :
  (ZZZltb a b = true -> (fst (fst a) <= fst (fst b))%Z)
  /\ (ZZZltb a b = false -> (fst (fst b) <= fst (fst a))%Z).
Proof.
  destruct a as [[a1 a2] a3], b as [[b1 b2] b3]. cbn [ZZZltb fst].
  destruct (Z.ltb_spec a1 b1), (Z.eqb_spec a1 b1); cbn; split;
    intros; try discriminate; lia.
Qed.

Lemma insert_sorted_by_first {A : Type} (key : A -> Z * Z * Z) (x : A)
  (l : list A) :
  StronglySorted (fun a b => (fst (fst (key a)) <= fst (fst (key b)))%Z) l ->
  StronglySorted (fun a b => (fst (fst (key a)) <= fst (fst (key b)))%Z)
                 (insert_sorted ZZZltb key x l).
Proof.
  induction 1 as [|y l Hsorted IH Hall]; simpl.
  - repeat constructor.
  - destruct (ZZZltb (key y) (key x)) eqn:Hlt.
    + apply ZZZltb_first in Hlt.
      constructor; [exact IH|].
      eapply Permutation_Forall;
        [apply Permutation_sym, insert_sorted_perm|].
      constructor; [exact Hlt | exact Hall].
    + apply ZZZltb_first in Hlt.
      constructor; [now constructor|].
      constructor; [exact Hlt|].
      eapply Forall_impl; [|exact Hall]. intros a Ha. simpl in Ha. lia.
Qed.

Lemma sort_by_first {A : Type} (key : A -> Z * Z * Z) (l : list A) :
  StronglySorted (fun a b => (fst (fst (key a)) <= fst (fst (key b)))%Z)
                 (sort_by ZZZltb key l).
Proof.
  induction l as [|x l IH]; simpl.
  - constructor.
  - now apply insert_sorted_by_first.
Qed.

Lemma StronglySorted_map {A B : Type} (R : A -> A -> Prop)
  (R' : B -> B -> Prop) (Q : A -> Prop) (f : A -> B) (l : list A) :
  (forall a b, Q a -> Q b -> R a b -> R' (f a) (f b)) ->
  Forall Q l -> StronglySorted R l -> StronglySorted R' (map f l).
Proof.
  intros Hf HQ Hs. induction Hs as [|a l Hs IH Hall]; simpl.
  - constructor.
  - inversion HQ as [|? ? Ha HQl]; subst.
    constructor; [now apply IH|].
    apply Forall_map. rewrite Forall_forall in *.
    intros b Hb. apply Hf; auto.
Qed.

(** X29. The hits of [search_items] come in ascending order of their
    [retrievalSteps], whatever the clock reads while the sort keys are
    computed. *)
Theorem search_items_hits_ascend_in_retrieval_steps
  (impl : Space3DImpl) (lower : string -> string) (clock : nat -> datetime)
  (query : string) (items : Dict Item.t) (containers : Dict Container.t) :
  exists hits,
    search_items impl lower clock query items containers = Some hits
    /\ StronglySorted
         (fun a b => (ItemLocation.retrievalSteps a
                      <= ItemLocation.retrievalSteps b)%Z)
         hits.
Proof.
  destruct (search_items_defined impl lower clock query items containers)
    as (keyed & Hsearch & _ & Hfst).
  eexists. split; [exact Hsearch|].
  apply (StronglySorted_map
           (fun a b => (fst (fst (fst a)) <= fst (fst (fst b)))%Z) _
           (fun kl => fst (fst (fst kl))
                      = ItemLocation.retrievalSteps (snd kl))).
  - intros a b Ha Hb. now rewrite Ha, Hb.
  - eapply Permutation_Forall;
      [apply Permutation_sym, sort_by_perm | exact Hfst].
  - apply sort_by_first.
Qed.

Lemma map_flat_map_keys {V B : Type} (id_of : B -> string)
  (f : string * V -> list B) (d : Dict V) :
  (forall kv, f kv = [] \/ exists b, f kv = [b] /\ id_of b = fst kv) ->
  exists sub, map id_of (flat_map f d) = sub
              /\ (forall k, In k sub -> In k (map fst d))
              /\ (NoDup (map fst d) -> NoDup sub).
Proof.
  intros Hf. induction d as [|kv d (sub & Hsub & Hin & Hnd)].
  - exists []. repeat split; [intros k [] | constructor].
  - cbn [flat_map]. rewrite map_app, Hsub.
    destruct (Hf kv) as [-> | (b & -> & Hid)].
    + exists sub. split; [reflexivity|]. split.
      * intros k Hk. right. now apply Hin.
      * intros Hnd'. inversion Hnd'; subst. now apply Hnd.
    + exists (fst kv :: sub). cbn [map app]. rewrite Hid.
      split; [reflexivity|]. split.
      * intros k [<- | Hk]; [now left | right; now apply Hin].
      * intros Hnd'. inversion Hnd' as [|? ? Hnotin Hnd'']; subst.
        constructor; [|now apply Hnd]. intros Hk. apply Hnotin, Hin, Hk.
Qed.

Lemma matching_items_ids_distinct (impl : Space3DImpl)
  (lower : string -> string) (query : string) (items : Dict Item.t)
  (containers : Dict Container.t) :
  NoDup (map fst items) ->
  NoDup (map ItemLocation.itemId
             (matching_items impl lower query items containers)).
Proof.
  intros Hnd. unfold matching_items. rewrite map_app.
  apply NoDup_app.
  - destruct (dict_mem query items); [|constructor].
    unfold location_list.
    destruct (get_item_location impl query items containers);
      repeat constructor; simpl; tauto.
  - match goal with
    | |- NoDup (map _ (flat_map ?f items)) =>
        destruct (map_flat_map_keys ItemLocation.itemId f items)
          as (sub & -> & _ & Hsub)
    end; [|now apply Hsub].
    intros [item_id item]. cbn [fst].
    destruct (String.eqb item_id query); [now left|].
    destruct (contains _ _); [|now left].
    unfold location_list.
    destruct (get_item_location impl item_id items containers) as [loc|]
      eqn:Hloc; [|now left].
    right. exists loc. split; [reflexivity|].
    now apply get_item_location_itemId in Hloc as (Hid & _).
  - intros id Hexact Hpartial.
    assert (id = query) as ->.
    { destruct (dict_mem query items); [|destruct Hexact].
      apply in_map_iff in Hexact as (loc & <- & Hloc).
      apply In_location_list in Hloc.
      now apply get_item_location_itemId in Hloc as (Hid & _). }
    apply in_map_iff in Hpartial as (loc & Hid & Hloc).
    apply in_flat_map in Hloc as ([item_id item] & _ & Hloc).
    destruct (String.eqb_spec item_id query) as [_|Hne]; [destruct Hloc|].
    destruct (contains _ _); [|destruct Hloc].
    apply In_location_list in Hloc.
    apply get_item_location_itemId in Hloc as (Hid' & _). congruence.
Qed.

(** X30. When the keys of the item dict are distinct, no item is listed
    twice among the hits of [search_items]: the item whose key is the
    query is left out of the scan of the names. *)
Theorem search_items_lists_no_item_twice
  (impl : Space3DImpl) (lower : string -> string) (clock : nat -> datetime)
  (query : string) (items : Dict Item.t) (containers : Dict Container.t) :
  NoDup (map fst items) ->
  exists hits,
    search_items impl lower clock query items containers = Some hits
    /\ NoDup (map ItemLocation.itemId hits).
Proof.
  intros Hnd.
  destruct (search_items_perm impl lower clock query items containers)
    as (hits & Hsearch & Hperm).
  exists hits. split; [exact Hsearch|].
  eapply Permutation_NoDup;
    [apply Permutation_map, Permutation_sym, Hperm|].
  now apply matching_items_ids_distinct.
Qed.

Lemma search_items_lists_no_item_twice_witness :
  exists hits,
    search_items grid_space ascii_lower (fun _ => 0%Z) "x" S3_items
                 S3_containers = Some hits
    /\ NoDup (map ItemLocation.itemId hits).
Proof.
  apply (search_items_lists_no_item_twice grid_space ascii_lower
           (fun _ => 0%Z) "x" S3_items S3_containers).
  repeat constructor; simpl; intuition discriminate.
Defined.
